(** * cloud_image_import: a shallow embedding of [cloud_image_import.py]

    The script uploads a disk image to the object store of one of three
    clouds (AWS, Azure, GCP), imports it as a machine image and removes the
    uploaded object again.  All of its observable behaviour is made of
    calls to command line tools ([subprocess.run]), console output
    ([print]), console input ([input]) and waiting ([time.sleep]).

    The embedding keeps the program text recognisable: Python values are a
    small dynamically typed universe, methods are functions in a monad that
    threads a scripted environment (the replies of the command line tools,
    the lines typed by the operator, the clock) and records the trace of
    events the program produces. *)

From Stdlib Require Import String Ascii List ZArith NArith Bool Lia DecimalString.
Import ListNotations.
Local Open Scope list_scope.
Local Open Scope string_scope.

Set Implicit Arguments.

(** ** Python strings

    Strings are sequences of code points below 256 (Latin-1); every
    literal of the script is ASCII. *)

Module PyStr.

(** [str.isspace] on one code point below 256. *)
Definition is_space (c : ascii) : bool :=
  let n := N_of_ascii c in
  ((9 <=? n) && (n <=? 13) || (28 <=? n) && (n <=? 32)
   || (n =? 133) || (n =? 160))%N.

(** [str.lower] on one code point below 256: A-Z and the accented
    capitals of Latin-1 move up by 32, everything else stays. *)
Definition lower_char (c : ascii) : ascii :=
  let n := N_of_ascii c in
  if ((65 <=? n) && (n <=? 90)
      || (192 <=? n) && (n <=? 222) && negb (n =? 215))%N
  then ascii_of_N (n + 32) else c.

Fixpoint lower (s : string) : string :=
  match s with
  | EmptyString => EmptyString
  | String c r => String (lower_char c) (lower r)
  end.

Fixpoint lstrip (s : string) : string :=
  match s with
  | EmptyString => EmptyString
  | String c r => if is_space c then lstrip r else s
  end.

Fixpoint rstrip (s : string) : string :=
  match s with
  | EmptyString => EmptyString
  | String c r =>
      match rstrip r with
      | EmptyString => if is_space c then EmptyString else String c EmptyString
      | r' => String c r'
      end
  end.

(** [s.strip()] *)
Definition strip (s : string) : string := rstrip (lstrip s).

(** [sub in s] *)
Fixpoint contains (sub s : string) : bool :=
  prefix sub s
  || match s with
     | EmptyString => false
     | String _ r => contains sub r
     end.

(** [s.endswith(suf)] *)
Fixpoint endswith (suf s : string) : bool :=
  (s =? suf)
  || match s with
     | EmptyString => false
     | String _ r => endswith suf r
     end.

Definition cons_head (a : ascii) (l : list string) : list string :=
  match l with
  | h :: t => String a h :: t
  | [] => [String a EmptyString]
  end.

(** [s.split(c)] for a separator of one character. *)
Fixpoint split_on (c : ascii) (s : string) : list string :=
  match s with
  | EmptyString => [EmptyString]
  | String a r =>
      if Ascii.eqb a c then EmptyString :: split_on c r
      else cons_head a (split_on c r)
  end.

Definition starts_token (s : string) : bool :=
  match s with
  | EmptyString => false
  | String b _ => negb (is_space b)
  end.

(** [s.split()]: the maximal runs of characters that are not white space. *)
Fixpoint split_ws (s : string) : list string :=
  match s with
  | EmptyString => []
  | String a r =>
      if is_space a then split_ws r
      else if starts_token r then cons_head a (split_ws r)
      else String a EmptyString :: split_ws r
  end.

(** [s.rfind(c)] for one character; [None] stands for -1. *)
Fixpoint rfind (c : ascii) (s : string) : option nat :=
  match s with
  | EmptyString => None
  | String a r =>
      match rfind c r with
      | Some i => Some (S i)
      | None => if Ascii.eqb a c then Some 0 else None
      end
  end.

(** [s[i:]] *)
Definition drop (i : nat) (s : string) : string :=
  substring i (String.length s - i) s.

(** [s[:i]] *)
Definition take (i : nat) (s : string) : string := substring 0 i s.

Fixpoint all_dots (s : string) : bool :=
  match s with
  | EmptyString => true
  | String a r => Ascii.eqb a "." && all_dots r
  end.

(** [s.replace(old, new)] for a non-empty [old] (both call sites of the
    script pass a literal); [skip] counts the characters of a match that
    are still to be dropped. *)
Fixpoint replace_from (old new s : string) (skip : nat) : string :=
  match s with
  | EmptyString => EmptyString
  | String c r =>
      match skip with
      | S k => replace_from old new r k
      | O =>
          if prefix old s
          then new ++ replace_from old new r (String.length old - 1)
          else String c (replace_from old new r 0)
      end
  end.

Definition replace (old new s : string) : string := replace_from old new s 0.

(** [sep.join(l)] *)
Definition join (sep : string) (l : list string) : string := String.concat sep l.

(** Decimal rendering of an integer, as [str(int)]. *)
Definition of_Z (z : Z) : string :=
  match z with
  | Z0 => "0"
  | Zpos p => NilZero.string_of_uint (Pos.to_uint p)
  | Zneg p => "-" ++ NilZero.string_of_uint (Pos.to_uint p)
  end.

(** [c in s] for one character. *)
Fixpoint occurs (c : ascii) (s : string) : bool :=
  match s with
  | EmptyString => false
  | String a r => Ascii.eqb a c || occurs c r
  end.

(** [str.isprintable] on one code point below 256: all but the control
    characters, the no-break space and the soft hyphen. *)
Definition is_printable (c : ascii) : bool :=
  let n := N_of_ascii c in
  ((32 <=? n) && (n <=? 126) || (161 <=? n) && negb (n =? 173))%N.

Definition backslash : ascii := "092"%char.
Definition double_quote : ascii := "034"%char.

(** A digit of [\xhh]. *)
Definition hex_digit (n : N) : ascii :=
  match n with
  | 0 => "0" | 1 => "1" | 2 => "2" | 3 => "3" | 4 => "4" | 5 => "5" | 6 => "6"
  | 7 => "7" | 8 => "8" | 9 => "9" | 10 => "a" | 11 => "b" | 12 => "c"
  | 13 => "d" | 14 => "e" | _ => "f"
  end%N%char.

(** How [repr] shows one code point of a string written between the
    quotes [q]: the quote and the backslash after a backslash, tab, line
    feed and carriage return as [\t], [\n], [\r], what is not printable as
    [\xhh], the rest as it is. *)
Definition escape_char (q c : ascii) : string :=
  if Ascii.eqb c q || Ascii.eqb c backslash then String backslash (String c "")
  else if Ascii.eqb c "009" then String backslash "t"
  else if Ascii.eqb c "010" then String backslash "n"
  else if Ascii.eqb c "013" then String backslash "r"
  else if is_printable c then String c ""
  else
    let n := N_of_ascii c in
    String backslash
      (String "x" (String (hex_digit (n / 16)) (String (hex_digit (n mod 16)) ""))).

Fixpoint escape (q : ascii) (s : string) : string :=
  match s with
  | EmptyString => EmptyString
  | String c r => escape_char q c ++ escape q r
  end.

(** [repr(s)] of a string: between single quotes, or between double
    quotes when [s] holds a single quote and no double quote. *)
Definition quote (s : string) : string :=
  let q := if occurs "'" s && negb (occurs double_quote s)
           then double_quote else "'"%char in
  String q (escape q s ++ String q "").

End PyStr.

(** ** [os.path] (posixpath) *)

Module OsPath.
Import PyStr.

(** [posixpath.basename]: [i = p.rfind('/') + 1; return p[i:]]. *)
Definition basename (p : string) : string :=
  match rfind "/" p with
  | Some i => drop (S i) p
  | None => p
  end.

(** [posixpath.splitext] ([genericpath._splitext] with [sep = '/'], no
    [altsep], [extsep = '.']): split at the last dot when it comes after
    the last slash and some character between the two is not a dot. *)
Definition splitext (p : string) : string * string :=
  let start := match rfind "/" p with Some i => S i | None => 0 end in
  match rfind "." p with
  | Some d =>
      if (start <=? d)%nat && negb (all_dots (substring start (d - start) p))
      then (take d p, drop d p)
      else (p, EmptyString)
  | None => (p, EmptyString)
  end.

End OsPath.

(** ** Python values

    The values the script handles: what [argparse] and [json.loads] return
    ([None], booleans, numbers, strings, lists, dictionaries with string
    keys).  A float carries its [repr]. *)

#[warnings="-register-all"]
Inductive value : Type :=
| VNone
| VBool (b : bool)
| VInt (z : Z)
| VFloat (repr : string)
| VStr (s : string)
| VList (l : list value)
| VDict (kvs : list (string * value)).

Coercion VStr : string >-> value.

Inductive exn : Type :=
| TypeError
| KeyError
| IndexError
| AttributeError
| JSONDecodeError
| UnboundLocalError
| EOFError
| OSError (msg : string).

(** The result of evaluating an expression that may raise. *)
Inductive res (A : Type) : Type :=
| Ok (a : A)
| Err (e : exn).
Arguments Ok {A} a.
Arguments Err {A} e.

Module Py.
Import PyStr.

(** [repr(v)] *)
Fixpoint repr (v : value) : string :=
  match v with
  | VNone => "None"
  | VBool true => "True"
  | VBool false => "False"
  | VInt z => of_Z z
  | VFloat r => r
  | VStr s => quote s
  | VList l => "[" ++ join ", " (map repr l) ++ "]"
  | VDict kvs =>
      "{" ++ join ", " (map (fun kv => match kv with
                                     | (k, x) => quote k ++ ": " ++ repr x
                                     end) kvs) ++ "}"
  end.

(** [str(v)], which is what an f-string and [print] show. *)
Definition str (v : value) : string :=
  match v with
  | VStr s => s
  | _ => repr v
  end.

(** Truth value of [v] in [if v:] and [not v]. *)
Definition truthy (v : value) : bool :=
  match v with
  | VNone => false
  | VBool b => b
  | VInt z => negb (z =? 0)%Z
  | VFloat r => negb ((r =? "0.0") || (r =? "-0.0"))
  | VStr s => negb (s =? "")
  | VList l => match l with [] => false | _ => true end
  | VDict kvs => match kvs with [] => false | _ => true end
  end.

(** [v == s] for a string literal [s]. *)
Definition eq_str (v : value) (s : string) : bool :=
  match v with
  | VStr t => t =? s
  | _ => false
  end.

Fixpoint lookup (k : string) (kvs : list (string * value)) : option value :=
  match kvs with
  | [] => None
  | (k', x) :: r => if k' =? k then Some x else lookup k r
  end.

(** [v[k]] for a string key. *)
Definition getitem (v : value) (k : string) : res value :=
  match v with
  | VDict kvs => match lookup k kvs with Some x => Ok x | None => Err KeyError end
  | _ => Err TypeError
  end.

(** [v[0]] *)
Definition getitem0 (v : value) : res value :=
  match v with
  | VList (x :: _) => Ok x
  | VList [] => Err IndexError
  | VStr (String c _) => Ok (VStr (String c EmptyString))
  | VStr EmptyString => Err IndexError
  | VDict _ => Err KeyError
  | _ => Err TypeError
  end.

(** [v.get(k)] *)
Definition get (v : value) (k : string) : res value :=
  match v with
  | VDict kvs => match lookup k kvs with Some x => Ok x | None => Ok VNone end
  | _ => Err AttributeError
  end.

(** [l[i]] on a list of strings. *)
Definition index (l : list string) (i : nat) : res string :=
  match nth_error l i with
  | Some s => Ok s
  | None => Err IndexError
  end.

(** The arguments of a command: [subprocess.run] takes strings only. *)
Fixpoint argv (cmd : list value) : option (list string) :=
  match cmd with
  | [] => Some []
  | VStr s :: r => option_map (cons s) (argv r)
  | _ :: _ => None
  end.

End Py.

(** ** The environment and the trace *)

(** What a command line tool answers. *)
Record Reply : Type := mkReply
  { reply_code : Z; reply_out : string; reply_err : string }.

(** [subprocess.CompletedProcess] with captured text output. *)
Record CompletedProcess : Type := mkCompleted
  { args : list string; returncode : Z; stdout : string; stderr : string }.

(** [str(p)] of a completed process. *)
Definition str_completed (p : CompletedProcess) : string :=
  "CompletedProcess(args=[" ++ PyStr.join ", " (map PyStr.quote (args p))
  ++ "], returncode=" ++ PyStr.of_Z (returncode p)
  ++ ", stdout=" ++ PyStr.quote (stdout p)
  ++ ", stderr=" ++ PyStr.quote (stderr p) ++ ")".

(** What opening and extracting an archive gives: an error, or the names of
    its members together with the listing of the staging directory after
    the extraction. *)
Inductive Archive : Type :=
| BadArchive (msg : string)
| Members (names : list string) (listing : list string).

Inductive event : Type :=
| EPrint (line : string)
| EInput (prompt : string)
| ERun (cmd : list string)
| ESleep (seconds : Z)
| EExtract (tar dest : string)
| EUnxz (src dst : string)
| ERename (src dst : string).

(** The scripted environment of one run.  [procs] are the replies to the
    calls of [subprocess.run] whose output the script captures, in order;
    [stdin] the lines the operator types, and [stdin_closed] whether the
    console is closed after them (a pipe or a file) or stays open with
    nobody typing; [clock] what
    [datetime.now().strftime("%Y%m%d%H%M%S")] gives at the n-th call;
    [json_loads] the decoder of the [json] library ([None] when it raises);
    [tarfile_open] the archives on disk. *)
Record World : Type := mkWorld
  { procs : list Reply;
    stdin : list string;
    stdin_closed : bool;
    ticks : nat;
    clock : nat -> string;
    json_loads : string -> option value;
    tarfile_open : string -> Archive }.

Definition set_procs (w : World) (l : list Reply) : World :=
  mkWorld l (stdin w) (stdin_closed w) (ticks w) (clock w) (json_loads w)
    (tarfile_open w).
Definition set_stdin (w : World) (l : list string) : World :=
  mkWorld (procs w) l (stdin_closed w) (ticks w) (clock w) (json_loads w)
    (tarfile_open w).
Definition set_ticks (w : World) (n : nat) : World :=
  mkWorld (procs w) (stdin w) (stdin_closed w) n (clock w) (json_loads w)
    (tarfile_open w).

(** How a computation ends: with a value, with an exception, waiting for
    an answer that does not come ([Blocked]: a tool that does not reply,
    an operator who does not type), or out of iterations ([Diverge], which
    no loop of the script reaches). *)
Inductive outcome (A : Type) : Type :=
| Ret (a : A)
| Raise (e : exn)
| Blocked
| Diverge.
Arguments Ret {A} a.
Arguments Raise {A} e.
Arguments Blocked {A}.
Arguments Diverge {A}.

Definition M (A : Type) : Type := World -> outcome A * World * list event.

Definition ret {A} (a : A) : M A := fun w => (Ret a, w, []).
Definition raise {A} (e : exn) : M A := fun w => (Raise e, w, []).

(** Put the events [t] in front of the trace of a finished computation. *)
Definition after {A} (t : list event) (r : outcome A * World * list event)
  : outcome A * World * list event :=
  match r with
  | (o, w, t') => (o, w, (t ++ t')%list)
  end.

Definition bind {A B} (m : M A) (k : A -> M B) : M B :=
  fun w =>
    match m w with
    | (Ret a, w', t) => after t (k a w')
    | (Raise e, w', t) => (Raise e, w', t)
    | (Blocked, w', t) => (Blocked, w', t)
    | (Diverge, w', t) => (Diverge, w', t)
    end.

Notation "x <- m ;; k" := (bind m (fun x => k))
  (at level 61, m at next level, right associativity).
Notation "m ;;; k" := (bind m (fun _ => k))
  (at level 61, right associativity).

Definition emit (e : event) : M unit := fun w => (Ret tt, w, [e]).

(** Lift an expression that may raise. *)
Definition eval {A} (r : res A) : M A :=
  match r with
  | Ok a => ret a
  | Err e => raise e
  end.

(** [try: m except: h] with a bare [except]. *)
Definition try_except {A} (m h : M A) : M A :=
  fun w =>
    match m w with
    | (Raise _, w', t) => after t (h w')
    | r => r
    end.

Definition print (line : string) : M unit := emit (EPrint line).

Definition sleep (seconds : Z) : M unit := emit (ESleep seconds).

(** What [input] finds after the last line: the end of the file when
    the console is closed, and otherwise nothing, for ever. *)
Definition end_of_input {A} (w : World) : outcome A :=
  if stdin_closed w then Raise EOFError else Blocked.

(** [input(prompt)]: the prompt is shown, then a line is read. *)
Definition input (prompt : string) : M string :=
  fun w =>
    match stdin w with
    | [] => (end_of_input w, w, [EInput prompt])
    | l :: rest => (Ret l, set_stdin w rest, [EInput prompt])
    end.

(** [datetime.now().strftime("%Y%m%d%H%M%S")] *)
Definition now_strftime : M string :=
  fun w => (Ret (clock w (ticks w)), set_ticks w (S (ticks w)), []).

(** [subprocess.run(cmd)] where the script ignores what comes back. The
    tool itself is taken to exist, and the words of the command to be
    words the operating system takes: a string with a NUL character,
    which [subprocess] refuses with a [ValueError], is not among them. *)
Definition subprocess_run (cmd : list value) : M unit :=
  match Py.argv cmd with
  | None => raise TypeError
  | Some c => emit (ERun c)
  end.

(** [subprocess.run(cmd, capture_output=True, text=True)] *)
Definition subprocess_run_capture (cmd : list value) : M CompletedProcess :=
  match Py.argv cmd with
  | None => raise TypeError
  | Some c =>
      fun w =>
        match procs w with
        | [] => (Blocked, w, [ERun c])
        | r :: rest =>
            (Ret (mkCompleted c (reply_code r) (reply_out r) (reply_err r)),
             set_procs w rest, [ERun c])
        end
  end.

(** [json.loads(s)] *)
Definition loads (s : string) : M value :=
  fun w =>
    match json_loads w s with
    | Some v => (Ret v, w, [])
    | None => (Raise JSONDecodeError, w, [])
    end.

(** How one turn of a [while True:] loop ends: [None] to go round again,
    [Some a] to leave it with [a]. *)
Fixpoint iterate {A} (fuel : nat) (body : M (option A)) : M A :=
  fun w =>
    match fuel with
    | O => (Diverge, w, [])
    | S n =>
        match body w with
        | (Ret None, w', t) => after t (iterate n body w')
        | (Ret (Some a), w', t) => (Ret a, w', t)
        | (Raise e, w', t) => (Raise e, w', t)
        | (Blocked, w', t) => (Blocked, w', t)
        | (Diverge, w', t) => (Diverge, w', t)
        end
    end.

(** What is left of the scripts: every turn of the loops of the script
    that goes round again has read one entry. *)
Definition pending (w : World) : nat := length (procs w) + length (stdin w).

Definition while_true {A} (body : M (option A)) : M A :=
  fun w => iterate (S (pending w)) body w.

(** [os.path.basename(v)]: a [TypeError] unless [v] is a string. *)
Definition basename_of (v : value) : res string :=
  match v with
  | VStr p => Ok (OsPath.basename p)
  | _ => Err TypeError
  end.

(** [tarfile.open(v, 'r')] and the walk over the members; only [None] and
    strings reach it, and [None] has nothing to open. *)
Definition open_archive (w : World) (v : value) : Archive :=
  match v with
  | VStr p => tarfile_open w p
  | _ => BadArchive "nothing to open"
  end.

(** The loop over the members of the archive that decompresses every
    [.xz] member next to itself. *)
Fixpoint unxz_members (dest : string) (names : list string) : M unit :=
  match names with
  | [] => ret tt
  | name :: rest =>
      (if PyStr.endswith ".xz" name
       then emit (EUnxz (dest ++ name) (fst (OsPath.splitext (dest ++ name))))
       else ret tt) ;;;
      unxz_members dest rest
  end.

(** [for file in files: if file.endswith(suffix): ...]: the first match. *)
Fixpoint first_with_suffix (suffix : string) (files : list string) : option string :=
  match files with
  | [] => None
  | f :: rest => if PyStr.endswith suffix f then Some f else first_with_suffix suffix rest
  end.

(** How the loop of polls is left. *)
Inductive loop_exit : Type :=
| Break (status_response_json : value)
| Return (v : value).

(** ** class AWSImageCreator *)

Module AWSImageCreator.

Record t : Type := { aws_cli_path : string; path_to_images : string }.

Definition init : t :=
  {| aws_cli_path := "aws"; path_to_images := "cloud_images_val_shared/image/" |}.

Definition unpack (self : t) (tar_file_path : value) : M value :=
  fun w =>
    match open_archive w tar_file_path with
    | BadArchive e => (print ("Unpacking error: " ++ e) ;;; ret VNone) w
    | Members names files =>
        (emit (EExtract (Py.str tar_file_path) (path_to_images self)) ;;;
         unxz_members (path_to_images self) names ;;;
         match first_with_suffix ".raw" files with
         | Some file => ret (VStr (path_to_images self ++ file))
         | None => ret VNone
         end) w
    end.

Definition upload_to_s3 (self : t) (local_file_path s3_bucket_name region : value)
  : M value :=
  timestamp <- now_strftime ;;
  s3_object_name_orig <- eval (basename_of local_file_path) ;;
  let s3_object_name :=
    fst (OsPath.splitext s3_object_name_orig) ++ "_" ++ timestamp ++ ".raw" in
  subprocess_run
    [VStr (aws_cli_path self); VStr "s3"; VStr "cp"; local_file_path;
     VStr ("s3://" ++ Py.str s3_bucket_name ++ "/" ++ s3_object_name);
     VStr "--region"; region] ;;;
  ret (VStr s3_object_name).

Definition delete_s3_object (self : t) (s3_object_name s3_bucket_name region : value)
  : M unit :=
  subprocess_run
    [VStr (aws_cli_path self); VStr "s3"; VStr "rm";
     VStr ("s3://" ++ Py.str s3_bucket_name ++ "/" ++ Py.str s3_object_name);
     VStr "--region"; region].

Definition prompt_delete_s3_object (self : t)
  (s3_object_name s3_bucket_name region : value) : M unit :=
  while_true
    (delete_input <-
       input ("Do you want to delete the S3 object '" ++ Py.str s3_object_name
              ++ "' after import as an AMI? (y/n): ") ;;
     let delete_input := PyStr.lower delete_input in
     if delete_input =? "y" then
       delete_s3_object self s3_bucket_name s3_object_name region ;;;
       print ("S3 object '" ++ Py.str s3_object_name ++ "' deleted.") ;;;
       ret (Some tt)
     else if delete_input =? "n" then
       print ("S3 object '" ++ Py.str s3_object_name ++ "' not deleted.") ;;;
       ret (Some tt)
     else
       print "Invalid input. Please enter 'y' for yes or 'n' for no." ;;;
       ret None).

(** [j['ImportSnapshotTasks'][0]['SnapshotTaskDetail'][field]] *)
Definition task_detail (j : value) (field : string) : res value :=
  match Py.getitem j "ImportSnapshotTasks" with
  | Err e => Err e
  | Ok tasks =>
      match Py.getitem0 tasks with
      | Err e => Err e
      | Ok task =>
          match Py.getitem task "SnapshotTaskDetail" with
          | Err e => Err e
          | Ok detail => Py.getitem detail field
          end
      end
  end.

(** Lines 98-123 of [import_snapshot_and_create_ami]: one turn of the
    loop that waits for the import task. *)
Definition poll (self : t) (import_task_id region : value) : M (option loop_exit) :=
  status_response <-
    subprocess_run_capture
      [VStr (aws_cli_path self); VStr "ec2"; VStr "describe-import-snapshot-tasks";
       VStr "--import-task-ids"; import_task_id; VStr "--region"; region] ;;
  let status_response := PyStr.strip (stdout status_response) in
  status_response_json <- loads status_response ;;
  status <- eval (task_detail status_response_json "Status") ;;
  if Py.eq_str status "completed" then
    ret (Some (Break status_response_json))
  else if Py.eq_str status "error" then
    print "Error: Import task failed. Exiting." ;;;
    ret (Some (Return VNone))
  else
    print ("Import task status: " ++ Py.str status ++ ". Waiting...") ;;;
    try_except
      (progress <- eval (task_detail status_response_json "Progress") ;;
       print ("Current progress: " ++ Py.str progress))
      (print "No more progress") ;;;
    sleep 10 ;;;
    ret None.

(** Lines 125-160 of [import_snapshot_and_create_ami]: what follows the
    loop.  [ami_id] is bound on one of the two branches only. *)
Definition create_ami (self : t) (s3_object_name s3_bucket_name boot_mode : value)
  (delete_after_import : bool) (region : value) (exit : loop_exit) : M value :=
  match exit with
  | Return v => ret v
  | Break status_response_json =>
      snapshot_id <- eval (task_detail status_response_json "SnapshotId") ;;
      let ami_creation_args :=
        ([VStr (aws_cli_path self); VStr "ec2"; VStr "register-image";
          VStr "--name"; s3_object_name;
          VStr "--architecture"; VStr "x86_64";
          VStr "--block-device-mappings";
          VStr ("DeviceName=/dev/sda1,Ebs={SnapshotId=" ++ Py.str snapshot_id ++ "}");
          VStr "--virtualization-type"; VStr "hvm";
          VStr "--root-device-name"; VStr "/dev/sda1";
          VStr "--region"; region;
          VStr "--ena-support"]
         ++ (if Py.truthy boot_mode then [VStr "--boot-mode"; boot_mode] else []))%list in
      create_ami_response <- subprocess_run_capture ami_creation_args ;;
      ami_id <-
        (if PyStr.contains "already in use" (str_completed create_ami_response)
         then
           print "This snapshot is already in use:" ;;;
           print (str_completed create_ami_response) ;;;
           ret None
         else
           let ami_id := PyStr.strip (stdout create_ami_response) in
           print ("AMI ID: " ++ ami_id) ;;;
           ret (Some ami_id)) ;;
      (if delete_after_import
       then delete_s3_object self s3_bucket_name s3_object_name region
       else prompt_delete_s3_object self s3_bucket_name s3_object_name region) ;;;
      match ami_id with
      | Some ami_id => ret (VStr ami_id)
      | None => raise UnboundLocalError
      end
  end.

(** The method: lines 84-95, the loop of [poll], then [create_ami]. *)
Definition import_snapshot_and_create_ami (self : t)
  (s3_object_name s3_bucket_name boot_mode : value)
  (delete_after_import : bool) (region : value) : M value :=
  import_response <-
    subprocess_run_capture
      [VStr (aws_cli_path self); VStr "ec2"; VStr "import-snapshot";
       VStr "--disk-container";
       VStr ("Format=raw,UserBucket={S3Bucket=" ++ Py.str s3_bucket_name
             ++ ",S3Key=" ++ Py.str s3_object_name ++ "}");
       VStr "--description"; VStr "Imported snapshot from raw file";
       VStr "--region"; region] ;;
  let import_task := PyStr.strip (stdout import_response) in
  import_task_json <- loads import_task ;;
  import_task_id <- eval (Py.get import_task_json "ImportTaskId") ;;
  exit <- while_true (poll self import_task_id region) ;;
  create_ami self s3_object_name s3_bucket_name boot_mode delete_after_import
    region exit.

End AWSImageCreator.

(** ** class AzureImageCreator *)

Module AzureImageCreator.

Record t : Type := { az_cli_path : string; path_to_images : string }.

Definition init : t :=
  {| az_cli_path := "az"; path_to_images := "cloud_images_val_shared/image/" |}.

Definition unpack (self : t) (tar_file_path : value) : M value :=
  fun w =>
    match open_archive w tar_file_path with
    | BadArchive e => (print ("Unpacking error: " ++ e) ;;; ret VNone) w
    | Members names files =>
        (emit (EExtract (Py.str tar_file_path) (path_to_images self)) ;;;
         unxz_members (path_to_images self) names ;;;
         match first_with_suffix ".vhdfixed" files with
         | Some file =>
             let image_orig := path_to_images self ++ file in
             let renamed_image_name := PyStr.replace ".vhdfixed" ".vhd" file in
             let image := path_to_images self ++ renamed_image_name in
             emit (ERename image_orig image) ;;;
             ret (VStr image)
         | None => ret VNone
         end) w
    end.

Definition upload (self : t) (local_file_path container_name storage_account_name : value)
  : M value :=
  blob_name <- eval (basename_of local_file_path) ;;
  timestamp <- now_strftime ;;
  let blob_name_orig := fst (OsPath.splitext blob_name) in
  let file_extension := snd (OsPath.splitext blob_name) in
  let blob_name := blob_name_orig ++ "_" ++ timestamp ++ file_extension in
  subprocess_run
    [VStr (az_cli_path self); VStr "storage"; VStr "blob"; VStr "upload";
     VStr "--account-name"; storage_account_name;
     VStr "--file"; local_file_path;
     VStr "--container-name"; container_name;
     VStr "--name"; VStr blob_name] ;;;
  ret (VStr blob_name).

Definition delete (self : t) (blob_name container_name storage_account_name : value)
  : M unit :=
  subprocess_run
    [VStr (az_cli_path self); VStr "storage"; VStr "blob"; VStr "delete";
     VStr "--account-name"; storage_account_name;
     VStr "--container-name"; container_name;
     VStr "--name"; blob_name].

Definition prompt_delete (self : t)
  (blob_name container_name storage_account_name : value) : M unit :=
  while_true
    (delete_input <-
       input ("Do you want to delete the S3 object '" ++ Py.str blob_name
              ++ "' after import as an AMI? (y/n): ") ;;
     let delete_input := PyStr.lower delete_input in
     if delete_input =? "y" then
       delete self blob_name container_name storage_account_name ;;;
       print ("Bucket object '" ++ Py.str blob_name ++ "' deleted.") ;;;
       ret (Some tt)
     else if delete_input =? "n" then
       print ("Bucket object '" ++ Py.str blob_name ++ "' not deleted.") ;;;
       ret (Some tt)
     else
       print "Invalid input. Please enter 'y' for yes or 'n' for no." ;;;
       ret None).

Definition create_image_from_blob (self : t) (blob_name : value)
  (delete_after_import : bool)
  (region resource_group container_name storage_account_name : value) : M value :=
  timestamp <- now_strftime ;;
  let image_name := Py.str blob_name ++ "-" ++ timestamp in
  let create_image_cmd :=
    [VStr (az_cli_path self); VStr "image"; VStr "create";
     VStr "--resource-group"; resource_group;
     VStr "--name"; VStr image_name;
     VStr "--source";
     VStr ("https://" ++ Py.str storage_account_name ++ ".blob.core.windows.net/"
           ++ Py.str container_name ++ "/" ++ Py.str blob_name);
     VStr "--os-type"; VStr "Linux";
     VStr "--location"; region] in
  create_image_response <- subprocess_run_capture create_image_cmd ;;
  if negb (returncode create_image_response =? 0)%Z then
    print ("Error creating the image: " ++ stderr create_image_response) ;;;
    ret VNone
  else
    image_info <- loads (stdout create_image_response) ;;
    print "Resulting blob ID:" ;;;
    id <- eval (Py.getitem image_info "id") ;;
    print (Py.str id) ;;;
    (if delete_after_import
     then delete self blob_name container_name storage_account_name
     else prompt_delete self blob_name container_name storage_account_name) ;;;
    id <- eval (Py.getitem image_info "id") ;;
    ret id.

End AzureImageCreator.

(** ** class GCPImageCreator *)

Module GCPImageCreator.

Record t : Type :=
  { gcp_cli_path : string; gcp_util_path : string; path_to_images : string }.

Definition init : t :=
  {| gcp_cli_path := "gcloud"; gcp_util_path := "gsutil";
     path_to_images := "cloud_images_val_shared/image/" |}.

(** The loop over the members keeps the last one that ends in [.tar.gz]. *)
Fixpoint last_tar_gz (dest : string) (names : list string) (image : string) : string :=
  match names with
  | [] => image
  | name :: rest =>
      last_tar_gz dest rest
        (if PyStr.endswith ".tar.gz" name then dest ++ name else image)
  end.

Definition unpack (self : t) (tar_file_path : value) : M value :=
  fun w =>
    match open_archive w tar_file_path with
    | BadArchive e => raise (OSError e) w
    | Members names _ =>
        (emit (EExtract (Py.str tar_file_path) (path_to_images self)) ;;;
         let image := last_tar_gz (path_to_images self) names "" in
         print ("image_name:" ++ image) ;;;
         ret (VStr image)) w
    end.

Definition upload_to_bucket (self : t) (raw_archive_name gcp_bucket_name : value)
  : M value :=
  subprocess_run
    [VStr (gcp_util_path self); VStr "-m"; VStr "cp"; VStr "-n"; raw_archive_name;
     VStr ("gs://" ++ Py.str gcp_bucket_name)] ;;;
  ret raw_archive_name.

Definition delete (self : t) (gcloud_object_name gcp_bucket_name : value) : M unit :=
  subprocess_run
    [VStr (gcp_cli_path self); VStr "storage"; VStr "rm";
     VStr ("gs://" ++ Py.str gcp_bucket_name ++ "/" ++ Py.str gcloud_object_name)].

Definition prompt_delete (self : t) (gcloud_object_name gcp_bucket_name : value)
  : M unit :=
  while_true
    (delete_input <-
       input ("Do you want to delete the gcloud object '" ++ Py.str gcloud_object_name
              ++ "' after import? (y/n): ") ;;
     let delete_input := PyStr.lower delete_input in
     if delete_input =? "y" then
       delete self gcloud_object_name gcp_bucket_name ;;;
       print ("Google cloud object '" ++ Py.str gcloud_object_name ++ "' deleted.") ;;;
       ret (Some tt)
     else if delete_input =? "n" then
       print ("Google cloud object '" ++ Py.str gcloud_object_name ++ "' not deleted.") ;;;
       ret (Some tt)
     else
       print "Invalid input. Please enter 'y' for yes or 'n' for no." ;;;
       ret None).

Definition create_image (self : t) (gcloud_object_name gcp_bucket_name boot_mode : value)
  (delete_after_import : bool) : M value :=
  basename_image <- eval (basename_of gcloud_object_name) ;;
  let image_name :=
    "image-" ++ PyStr.replace "-image.tar" "" (fst (OsPath.splitext basename_image)) in
  let create_image_cmd :=
    if Py.eq_str boot_mode "uefi" then
      [VStr (gcp_cli_path self); VStr "compute"; VStr "images"; VStr "create";
       VStr image_name;
       VStr "--source-uri";
       VStr ("gs://" ++ Py.str gcp_bucket_name ++ "/" ++ basename_image);
       VStr "--guest-os-features=UEFI_COMPATIBLE,VIRTIO_SCSI_MULTIQUEUE,SEV_CAPABLE"]
    else
      [VStr (gcp_cli_path self); VStr "compute"; VStr "images"; VStr "create";
       VStr image_name;
       VStr "--source-uri";
       VStr ("gs://" ++ Py.str gcp_bucket_name ++ "/" ++ basename_image)] in
  create_image_response <- subprocess_run_capture create_image_cmd ;;
  if negb (returncode create_image_response =? 0)%Z then
    print ("Error creating the image: " ++ stderr create_image_response) ;;;
    ret VNone
  else
    let create_image_stdout := PyStr.split_on "010" (stdout create_image_response) in
    line <- eval (Py.index create_image_stdout 1) ;;
    let values := PyStr.split_ws line in
    image_name <- eval (Py.index values 0) ;;
    image_project <- eval (Py.index values 1) ;;
    print ("Image created: " ++ image_name) ;;;
    (if delete_after_import
     then delete self (VStr basename_image) gcp_bucket_name
     else prompt_delete self (VStr basename_image) gcp_bucket_name) ;;;
    let full_image_path :=
      "projects/" ++ image_project ++ "/global/images/" ++ image_name in
    ret (VStr full_image_path).

End GCPImageCreator.

(** ** main *)

(** The namespace [argparse] hands to [main]: an option that was not given
    is [None], [--cloud] is required, [--delete] is a flag. *)
Module Args.
Record t : Type :=
  { path : option string;
    image : option string;
    cloud : string;
    boot : option string;
    bucket : option string;
    delete : bool;
    region : option string;
    resource_group : option string;
    storage_account_name : option string }.
End Args.

Definition of_option (o : option string) : value :=
  match o with
  | Some s => VStr s
  | None => VNone
  end.

Definition main (args : Args.t) : M unit :=
  let path := of_option (Args.path args) in
  let image := of_option (Args.image args) in
  let bucket := of_option (Args.bucket args) in
  let region := of_option (Args.region args) in
  let resource_group := of_option (Args.resource_group args) in
  let storage_account_name := of_option (Args.storage_account_name args) in
  if negb (Py.truthy path) && negb (Py.truthy image) then
    print "Either -p or -i option is required. Use --help for more information."
  else if Py.truthy path && Py.truthy image then
    print "Both -p and -i options cannot be used together. Use --help for more information."
  else
    let boot_mode :=
      if Py.truthy (of_option (Args.boot args)) then of_option (Args.boot args) else VNone in
    if Args.cloud args =? "aws" then
      let aws_image_creator := AWSImageCreator.init in
      s3_object_name <-
        (if Py.truthy path then
           raw_file_name <- AWSImageCreator.unpack aws_image_creator path ;;
           s3_object_name <-
             AWSImageCreator.upload_to_s3 aws_image_creator raw_file_name bucket region ;;
           print ("Uploaded as: " ++ Py.str s3_object_name) ;;;
           ret s3_object_name
         else if Py.truthy image then
           s3_object_name <-
             AWSImageCreator.upload_to_s3 aws_image_creator image bucket region ;;
           print ("Uploaded as: " ++ Py.str s3_object_name) ;;;
           ret s3_object_name
         else raise UnboundLocalError) ;;
      ami_id <-
        AWSImageCreator.import_snapshot_and_create_ami aws_image_creator
          s3_object_name bucket boot_mode (Args.delete args) region ;;
      print ("Resulting AMI ID: " ++ Py.str ami_id)
    else if Args.cloud args =? "azure" then
      let azure_image_creator := AzureImageCreator.init in
      blob_name <-
        (if Py.truthy path then
           raw_file_name <- AzureImageCreator.unpack azure_image_creator path ;;
           blob_name <-
             AzureImageCreator.upload azure_image_creator raw_file_name bucket
               storage_account_name ;;
           print ("Uploaded as: " ++ Py.str blob_name) ;;;
           ret blob_name
         else if Py.truthy image then
           blob_name <-
             AzureImageCreator.upload azure_image_creator image bucket
               storage_account_name ;;
           print ("Uploaded as: " ++ Py.str blob_name) ;;;
           ret blob_name
         else raise UnboundLocalError) ;;
      azure_id <-
        AzureImageCreator.create_image_from_blob azure_image_creator blob_name
          (Args.delete args) region resource_group bucket storage_account_name ;;
      print ("Resulting blob ID: " ++ Py.str azure_id)
    else if Args.cloud args =? "gcp" then
      let gcp_image_creator := GCPImageCreator.init in
      gloud_object_name <-
        (if Py.truthy path then
           raw_name <- GCPImageCreator.unpack gcp_image_creator path ;;
           gloud_object_name <-
             GCPImageCreator.upload_to_bucket gcp_image_creator raw_name bucket ;;
           print ("Uploaded as: " ++ Py.str gloud_object_name) ;;;
           ret gloud_object_name
         else if Py.truthy image then
           gloud_object_name <-
             GCPImageCreator.upload_to_bucket gcp_image_creator image bucket ;;
           print ("Uploaded as: " ++ Py.str gloud_object_name) ;;;
           ret gloud_object_name
         else raise UnboundLocalError) ;;
      gcp_name <-
        GCPImageCreator.create_image gcp_image_creator gloud_object_name bucket
          boot_mode (Args.delete args) ;;
      print ("Resulting image name: " ++ Py.str gcp_name)
    else
      print "Unsupported cloud. This script works only with AWS, Azure or GCP".

(** * Vocabulary of the specification

    What the statements below speak of: the observations of a run, the
    commands the script builds, the turns of its loops, and the scripted
    environments of the examples. *)

(** ** Observations of a run *)

Definition outcome_of {A} (r : outcome A * World * list event) : outcome A := fst (fst r).
Definition world_of {A} (r : outcome A * World * list event) : World := snd (fst r).
Definition trace_of {A} (r : outcome A * World * list event) : list event := snd r.

(** The two words after the name of the tool say what a command does. *)
Definition verb (e : event) : option (string * string) :=
  match e with
  | ERun (_ :: a :: b :: _) => Some (a, b)
  | _ => None
  end.

Definition is_verb (a b : string) (e : event) : bool :=
  match verb e with
  | Some (a', b') => (a' =? a) && (b' =? b)
  | None => false
  end.

Definition is_run (e : event) : bool :=
  match e with ERun _ => true | _ => false end.

Definition is_input (e : event) : bool :=
  match e with EInput _ => true | _ => false end.

Definition is_sleep (e : event) : bool :=
  match e with ESleep _ => true | _ => false end.

(** The external effects of the script: everything but console output. *)
Definition is_backend (e : event) : bool :=
  match e with EPrint _ => false | _ => true end.

(** A turn of a loop that goes round again has read from a script. *)
Definition consuming {A} (body : M (option A)) : Prop :=
  forall w w' t, body w = (Ret None, w', t) -> pending w' < pending w.

(** ** The confirmation prompt

    The three classes ask the operator with the same loop; [confirm] is
    one turn of it, with the prompt, the deletion and the two messages of
    the class left open. *)

Definition invalid_input : string :=
  "Invalid input. Please enter 'y' for yes or 'n' for no.".

Definition confirm (prompt : string) (on_yes : M unit) (deleted kept : string)
  : M (option unit) :=
  delete_input <- input prompt ;;
  let delete_input := PyStr.lower delete_input in
  if delete_input =? "y" then
    on_yes ;;; print deleted ;;; ret (Some tt)
  else if delete_input =? "n" then
    print kept ;;; ret (Some tt)
  else
    print invalid_input ;;; ret None.

(** An answer the prompt takes for yes, for no, for neither. *)
Definition says_yes (l : string) : bool := PyStr.lower l =? "y".
Definition says_no (l : string) : bool := PyStr.lower l =? "n".
Definition rejected (l : string) : bool := negb (says_yes l) && negb (says_no l).

(** What the operator sees for every rejected answer. *)
Definition reprompts (prompt : string) (bad : list string) : list event :=
  flat_map (fun _ => [EInput prompt; EPrint invalid_input]) bad.

(** What a run of the prompt looks like from input [ins]: the rejected
    answers are asked again; a first yes runs the command [rm] and leaves;
    a first no leaves; the end of the input finds the prompt asking once
    more, and it waits there, or ends with [EOFError] when the console is
    closed.  In every case the world changes in the position of the input
    only. *)
Definition confirmation (w : World) (prompt : string) (rm : list string)
  (deleted kept : string) (run : outcome unit * World * list event) : Prop :=
  exists bad,
    Forall (fun l => ~ (l = "y" \/ l = "Y" \/ l = "n" \/ l = "N")) bad /\
    ((stdin w = bad /\
      run = (end_of_input w, set_stdin w [],
             (reprompts prompt bad ++ [EInput prompt])%list))
     \/
     exists l rest, stdin w = (bad ++ l :: rest)%list /\
       (((l = "y" \/ l = "Y") /\
         run = (Ret tt, set_stdin w rest,
                (reprompts prompt bad ++ [EInput prompt; ERun rm; EPrint deleted])%list))
        \/
        ((l = "n" \/ l = "N") /\
         run = (Ret tt, set_stdin w rest,
                (reprompts prompt bad ++ [EInput prompt; EPrint kept])%list)))).

(** ** The loop that waits for the import task *)

Definition poll_cmd (self : AWSImageCreator.t) (import_task_id region : string)
  : list string :=
  [AWSImageCreator.aws_cli_path self; "ec2"; "describe-import-snapshot-tasks";
   "--import-task-ids"; import_task_id; "--region"; region].

(** A field of the task detail a reply to a status query carries. *)
Definition detail_of (dec : string -> option value) (r : Reply) (field : string)
  : option value :=
  match dec (PyStr.strip (reply_out r)) with
  | Some j =>
      match AWSImageCreator.task_detail j field with
      | Ok s => Some s
      | Err _ => None
      end
  | None => None
  end.

Definition status_of (dec : string -> option value) (r : Reply) : option value :=
  detail_of dec r "Status".

(** The task identifier the reply to the import request carries. *)
Definition task_id_of (dec : string -> option value) (r : Reply) : option string :=
  match dec (PyStr.strip (reply_out r)) with
  | Some j =>
      match Py.get j "ImportTaskId" with
      | Ok (VStr id) => Some id
      | _ => None
      end
  | None => None
  end.

Definition is_terminal (s : value) : bool :=
  Py.eq_str s "completed" || Py.eq_str s "error".

(** A reply with a status that is neither ['completed'] nor ['error']. *)
Definition active (dec : string -> option value) (r : Reply) : bool :=
  match status_of dec r with
  | Some s => negb (is_terminal s)
  | None => false
  end.

(** The line about the progress of the task. *)
Definition progress_report (j : value) : string :=
  match AWSImageCreator.task_detail j "Progress" with
  | Ok p => "Current progress: " ++ Py.str p
  | Err _ => "No more progress"
  end.

(** What one turn on an active reply does: the query, two lines, the wait. *)
Definition round (dec : string -> option value) (cmd : list string) (r : Reply)
  : list event :=
  match dec (PyStr.strip (reply_out r)) with
  | Some j =>
      match AWSImageCreator.task_detail j "Status" with
      | Ok s =>
          [ERun cmd;
           EPrint ("Import task status: " ++ Py.str s ++ ". Waiting...");
           EPrint (progress_report j);
           ESleep 10]
      | Err _ => []
      end
  | None => []
  end.

Definition rounds (dec : string -> option value) (cmd : list string)
  (pre : list Reply) : list event :=
  flat_map (round dec cmd) pre.

(** ** The import on AWS *)

Definition import_cmd (self : AWSImageCreator.t) (object bucket region : string)
  : list string :=
  [AWSImageCreator.aws_cli_path self; "ec2"; "import-snapshot"; "--disk-container";
   "Format=raw,UserBucket={S3Bucket=" ++ bucket ++ ",S3Key=" ++ object ++ "}";
   "--description"; "Imported snapshot from raw file"; "--region"; region].

Definition boot_flag (boot : option string) : list string :=
  match boot with
  | Some b => if b =? "" then [] else ["--boot-mode"; b]
  | None => []
  end.

Definition register_cmd (self : AWSImageCreator.t) (object snapshot region : string)
  (boot : option string) : list string :=
  ([AWSImageCreator.aws_cli_path self; "ec2"; "register-image"; "--name"; object;
    "--architecture"; "x86_64"; "--block-device-mappings";
    ("DeviceName=/dev/sda1,Ebs={SnapshotId=" ++ snapshot ++ "}")%string;
    "--virtualization-type"; "hvm"; "--root-device-name"; "/dev/sda1";
    "--region"; region; "--ena-support"] ++ boot_flag boot)%list.

(** The command that removes [s3://<bucket>/<key>]. *)
Definition s3_rm (self : AWSImageCreator.t) (bucket key region : string) : list string :=
  [AWSImageCreator.aws_cli_path self; "s3"; "rm";
   "s3://" ++ bucket ++ "/" ++ key; "--region"; region].

(** The reply to [register-image] as the script sees it. *)
Definition registered (cmd : list string) (reg : Reply) : CompletedProcess :=
  mkCompleted cmd (reply_code reg) (reply_out reg) (reply_err reg).

Definition already_in_use (cmd : list string) (reg : Reply) : bool :=
  PyStr.contains "already in use" (str_completed (registered cmd reg)).

(** The last step of the import, with the arguments in the order in which
    [import_snapshot_and_create_ami] passes them. *)
Definition cleanup (self : AWSImageCreator.t) (bucket object region : string)
  (delete_after_import : bool) : M unit :=
  if delete_after_import
  then AWSImageCreator.delete_s3_object self (VStr bucket) (VStr object) (VStr region)
  else AWSImageCreator.prompt_delete_s3_object self (VStr bucket) (VStr object) (VStr region).

(** The sibling on Azure removes the blob that was uploaded. *)
Definition azure_create_cmd (self : AzureImageCreator.t)
  (blob region group container account timestamp : string) : list string :=
  [AzureImageCreator.az_cli_path self; "image"; "create";
   "--resource-group"; group; "--name"; blob ++ "-" ++ timestamp;
   "--source";
   "https://" ++ account ++ ".blob.core.windows.net/" ++ container ++ "/" ++ blob;
   "--os-type"; "Linux"; "--location"; region].

Definition azure_rm (self : AzureImageCreator.t) (blob container account : string)
  : list string :=
  [AzureImageCreator.az_cli_path self; "storage"; "blob"; "delete";
   "--account-name"; account; "--container-name"; container; "--name"; blob].

(** ** The import on GCP *)

Definition gcp_create_cmd (self : GCPImageCreator.t) (object bucket : string)
  (boot : option string) : list string :=
  let basename_image := OsPath.basename object in
  ([GCPImageCreator.gcp_cli_path self; "compute"; "images"; "create";
    ("image-" ++ PyStr.replace "-image.tar" "" (fst (OsPath.splitext basename_image)))%string;
    "--source-uri"; ("gs://" ++ bucket ++ "/" ++ basename_image)%string]
   ++ (if Py.eq_str (of_option boot) "uefi"
       then ["--guest-os-features=UEFI_COMPATIBLE,VIRTIO_SCSI_MULTIQUEUE,SEV_CAPABLE"]
       else []))%list.

Definition gcp_rm (self : GCPImageCreator.t) (bucket object : string) : list string :=
  [GCPImageCreator.gcp_cli_path self; "storage"; "rm"; "gs://" ++ bucket ++ "/" ++ object].

(** ** Strings *)

Definition newline : ascii := "010"%char.

Fixpoint no_char (c : ascii) (s : string) : bool :=
  match s with
  | EmptyString => true
  | String a r => negb (Ascii.eqb a c) && no_char c r
  end.

Fixpoint all_space (s : string) : bool :=
  match s with
  | EmptyString => true
  | String a r => PyStr.is_space a && all_space r
  end.

Fixpoint no_space (s : string) : bool :=
  match s with
  | EmptyString => true
  | String a r => negb (PyStr.is_space a) && no_space r
  end.

(** No token goes on into [s]. *)
Definition ends_token (s : string) : bool := negb (PyStr.starts_token s).

(** ** The driver *)

(** An option of the command line counts as given when it is there and
    not the empty string: this is what [if args.path] tests. *)
Definition is_set (o : option string) : bool := Py.truthy (of_option o).

(** ** The names of the uploaded objects *)

(** The form of name the specification describes: the base name, then the
    time stamp, then the extension the file had, with whatever joins them. *)
Definition spec_name_form (local_file_path timestamp name : string) : Prop :=
  exists sep,
    name = fst (OsPath.splitext (OsPath.basename local_file_path))
           ++ sep ++ timestamp
           ++ snd (OsPath.splitext (OsPath.basename local_file_path)).

Definition aws_object_name (local_file_path timestamp : string) : string :=
  fst (OsPath.splitext (OsPath.basename local_file_path)) ++ "_" ++ timestamp ++ ".raw".

Definition azure_blob_name (local_file_path timestamp : string) : string :=
  fst (OsPath.splitext (OsPath.basename local_file_path)) ++ "_" ++ timestamp
  ++ snd (OsPath.splitext (OsPath.basename local_file_path)).

(** An environment in which nothing answers and the clock shows [timestamp]. *)
Definition silent_world (timestamp : string) : World :=
  mkWorld [] [] false 0 (fun _ => timestamp) (fun _ => None)
    (fun _ => BadArchive "").

(** The same environment with the console closed after its lines. *)
Definition closed_console (w : World) : World :=
  mkWorld (procs w) (stdin w) true (ticks w) (clock w) (json_loads w)
    (tarfile_open w).

(** ** The progress of the import task *)

(** Apply [f] to the value the dictionary has for [k]. *)
Fixpoint update (k : string) (f : value -> value) (kvs : list (string * value))
  : list (string * value) :=
  match kvs with
  | [] => []
  | (k', x) :: r => if k' =? k then (k', f x) :: r else (k', x) :: update k f r
  end.

Fixpoint remove_key (k : string) (kvs : list (string * value)) : list (string * value) :=
  match kvs with
  | [] => []
  | (k', x) :: r => if k' =? k then remove_key k r else (k', x) :: remove_key k r
  end.

(** A reply to a status query without the progress of its task. *)
Definition drop_progress (j : value) : value :=
  let in_detail d :=
    match d with VDict kvs => VDict (remove_key "Progress" kvs) | _ => d end in
  let in_task task :=
    match task with
    | VDict kvs => VDict (update "SnapshotTaskDetail" in_detail kvs)
    | _ => task
    end in
  let in_tasks tasks :=
    match tasks with
    | VList (task :: others) => VList (in_task task :: others)
    | _ => tasks
    end in
  match j with
  | VDict kvs => VDict (update "ImportSnapshotTasks" in_tasks kvs)
  | _ => j
  end.

(** Two replies that differ at most in the progress they report. *)
Definition same_but_progress (dec : string -> option value) (r1 r2 : Reply) : Prop :=
  exists j1 j2,
    dec (PyStr.strip (reply_out r1)) = Some j1 /\
    dec (PyStr.strip (reply_out r2)) = Some j2 /\
    drop_progress j1 = drop_progress j2.

Definition is_progress_line (e : event) : bool :=
  match e with
  | EPrint l => prefix "Current progress: " l || (l =? "No more progress")
  | _ => false
  end.

(** A trace without the lines about the progress. *)
Definition without_progress (t : list event) : list event :=
  filter (fun e => negb (is_progress_line e)) t.

(** ** A scripted run

    The replies of the example scenarios of the specification and a
    decoder that knows their texts. *)

Module Scenario.

Definition dq : string := String "034" "".
Definition nl : string := String newline "".
Definition quoted (s : string) : string := dq ++ s ++ dq.

Definition task_text : string :=
  "{" ++ quoted "ImportTaskId" ++ ": " ++ quoted "import-snap-1" ++ "}".

Definition status_text (status extra : string) : string :=
  "{" ++ quoted "ImportSnapshotTasks" ++ ": [{" ++ quoted "SnapshotTaskDetail"
  ++ ": {" ++ quoted "Status" ++ ": " ++ quoted status ++ extra ++ "}}]}".

Definition field_text (key val : string) : string :=
  ", " ++ quoted key ++ ": " ++ quoted val.

Definition status_json (status : string) (extra : list (string * value)) : value :=
  VDict [("ImportSnapshotTasks",
          VList [VDict [("SnapshotTaskDetail",
                         VDict (("Status", VStr status) :: extra))]])].

Definition loads (s : string) : option value :=
  if s =? task_text then
    Some (VDict [("ImportTaskId", VStr "import-snap-1")])
  else if s =? status_text "active" (field_text "Progress" "42") then
    Some (status_json "active" [("Progress", VStr "42")])
  else if s =? status_text "active" "" then
    Some (status_json "active" [])
  else if s =? status_text "completed" (field_text "SnapshotId" "snap-1") then
    Some (status_json "completed" [("SnapshotId", VStr "snap-1")])
  else if s =? status_text "error" "" then
    Some (status_json "error" [])
  else None.

Definition world (replies : list Reply) (lines : list string) : World :=
  mkWorld replies lines false 0 (fun _ => "20240101000000") loads
    (fun _ => BadArchive "no such file").

Definition task : Reply := mkReply 0 (task_text ++ nl) "".
Definition active_42 : Reply :=
  mkReply 0 (status_text "active" (field_text "Progress" "42") ++ nl) "".
Definition active_silent : Reply := mkReply 0 (status_text "active" "" ++ nl) "".
Definition completed : Reply :=
  mkReply 0 (status_text "completed" (field_text "SnapshotId" "snap-1") ++ nl) "".
Definition failed : Reply := mkReply 0 (status_text "error" "" ++ nl) "".
Definition ami : Reply := mkReply 0 ("ami-1" ++ nl) "".
Definition in_use : Reply :=
  mkReply 254 ""
    "An error occurred (InvalidParameterValue): snap-1 is already in use by ami-0".

(** [-i disk.raw -c aws --bucket b --region us-east-1], with and without
    [--delete]. *)
Definition args (delete : bool) : Args.t :=
  {| Args.path := None; Args.image := Some "disk.raw"; Args.cloud := "aws";
     Args.boot := None; Args.bucket := Some "b"; Args.delete := delete;
     Args.region := Some "us-east-1"; Args.resource_group := None;
     Args.storage_account_name := None |}.

Definition both : Args.t :=
  {| Args.path := Some "build.tar"; Args.image := Some "disk.raw";
     Args.cloud := "aws"; Args.boot := None; Args.bucket := Some "b";
     Args.delete := true; Args.region := Some "us-east-1";
     Args.resource_group := None; Args.storage_account_name := None |}.

Definition neither : Args.t :=
  {| Args.path := None; Args.image := None;
     Args.cloud := "gcp"; Args.boot := None; Args.bucket := Some "b";
     Args.delete := true; Args.region := None;
     Args.resource_group := None; Args.storage_account_name := None |}.

Definition upload_event : event :=
  ERun ["aws"; "s3"; "cp"; "disk.raw"; "s3://b/disk_20240101000000.raw";
        "--region"; "us-east-1"].
Definition import_event : event :=
  ERun ["aws"; "ec2"; "import-snapshot"; "--disk-container";
        "Format=raw,UserBucket={S3Bucket=b,S3Key=disk_20240101000000.raw}";
        "--description"; "Imported snapshot from raw file";
        "--region"; "us-east-1"].
Definition poll_event : event :=
  ERun ["aws"; "ec2"; "describe-import-snapshot-tasks"; "--import-task-ids";
        "import-snap-1"; "--region"; "us-east-1"].
Definition register_event : event :=
  ERun ["aws"; "ec2"; "register-image"; "--name"; "disk_20240101000000.raw";
        "--architecture"; "x86_64"; "--block-device-mappings";
        "DeviceName=/dev/sda1,Ebs={SnapshotId=snap-1}";
        "--virtualization-type"; "hvm"; "--root-device-name"; "/dev/sda1";
        "--region"; "us-east-1"; "--ena-support"].

End Scenario.

(** ** Vocabulary of the further properties *)

(** A computation that never asks the operator: no prompt in its trace,
    and the input left as it was. *)
Definition quiet {A} (m : M A) : Prop :=
  forall w,
    existsb is_input (trace_of (m w)) = false /\ stdin (world_of (m w)) = stdin w.

(** What the loop over the members of an archive decompresses. *)
Definition unxz_events (dest : string) (names : list string) : list event :=
  flat_map
    (fun name =>
       if PyStr.endswith ".xz" name
       then [EUnxz (dest ++ name) (fst (OsPath.splitext (dest ++ name)))]
       else [])
    names.

(** The suffix of the image file the unpacker of a cloud looks for. *)
Definition image_suffix (cloud : string) : string :=
  if cloud =? "aws" then ".raw" else ".vhdfixed".

(** The three commands that remove an uploaded object. *)
Definition is_delete (e : event) : bool :=
  match e with
  | ERun (_ :: a :: b :: rest) =>
      (a =? "s3") && (b =? "rm")
      || (a =? "storage") && (b =? "rm")
      || (a =? "storage") && (b =? "blob")
         && match rest with c :: _ => c =? "delete" | [] => false end
  | _ => false
  end.

(** A computation that deletes nothing as long as no line of the input
    says yes. *)
Definition keeps {A} (m : M A) : Prop :=
  forall w,
    existsb says_yes (stdin w) = false ->
    existsb is_delete (trace_of (m w)) = false /\
    existsb says_yes (stdin (world_of (m w))) = false.

(** Replies and archives for the runs that go wrong. *)
Module Edge.

Definition image_text : string :=
  "{" ++ Scenario.quoted "id" ++ ": " ++ Scenario.quoted "/subscriptions/s/images/disk"
  ++ "}".

Definition loads (s : string) : option value :=
  match Scenario.loads s with
  | Some j => Some j
  | None =>
      if s =? Scenario.status_text "completed" "" then
        Some (Scenario.status_json "completed" [])
      else if s =? "{}" then Some (VDict [])
      else if s =? "[]" then Some (VList [])
      else if s =? image_text then
        Some (VDict [("id", VStr "/subscriptions/s/images/disk")])
      else None
  end.

Definition archives (p : string) : Archive :=
  if p =? "logs.tar" then Members ["compose.log"] ["compose.log"]
  else BadArchive "no such file".

Definition world (replies : list Reply) (lines : list string) : World :=
  mkWorld replies lines false 0 (fun _ => "20240101000000") loads archives.

Definition from_archive (cloud path : string) : Args.t :=
  {| Args.path := Some path; Args.image := None; Args.cloud := cloud;
     Args.boot := None; Args.bucket := Some "b"; Args.delete := true;
     Args.region := Some "us-east-1"; Args.resource_group := Some "rg";
     Args.storage_account_name := Some "acct" |}.


Definition completed_without_snapshot : Reply :=
  mkReply 0 (Scenario.status_text "completed" "") "".
Definition garbage : Reply := mkReply 0 "<html>" "".
Definition empty_object : Reply := mkReply 0 "{}" "".
Definition denied : Reply := mkReply 1 "" "ERROR: permission denied".
Definition image : Reply := mkReply 0 image_text "".

End Edge.

(** Archives of the image composer as they are on disk for the examples:
    the members of the archive and the listing of the staging directory
    after the extraction. *)
Module Composer.

Definition archives (p : string) : Archive :=
  if p =? "aws.tar" then
    Members ["disk.raw.xz"; "compose.log"] ["compose.log"; "disk.raw"; "disk.raw.xz"]
  else if p =? "azure.tar" then
    Members ["disk.vhdfixed.xz"] ["disk.vhdfixed"; "disk.vhdfixed.xz"]
  else if p =? "gcp.tar" then
    Members ["old-image.tar.gz"; "rhel-image.tar.gz"; "compose.log"]
            ["compose.log"; "old-image.tar.gz"; "rhel-image.tar.gz"]
  else Edge.archives p.

Definition world (replies : list Reply) (lines : list string) : World :=
  mkWorld replies lines false 0 (fun _ => "20240101000000") Edge.loads archives.

End Composer.

(** * Properties *)

(** ** The string and path functions on examples *)

Example basename_ex : OsPath.basename "out/img/disk.raw" = "disk.raw".
Proof. reflexivity. Qed.
Example splitext_ex : OsPath.splitext "disk.tar.gz" = ("disk.tar", ".gz").
Proof. reflexivity. Qed.
Example splitext_hidden : OsPath.splitext "dir/.bashrc" = ("dir/.bashrc", "").
Proof. reflexivity. Qed.
Example split_ws_ex : PyStr.split_ws "  img-x   proj-y  READY " = ["img-x"; "proj-y"; "READY"].
Proof. reflexivity. Qed.
Example split_on_ex : PyStr.split_on "010" ("a" ++ String "010" "b c" ++ String "010" "") = ["a"; "b c"; ""].
Proof. reflexivity. Qed.
Example replace_ex : PyStr.replace "-image.tar" "" "rhel-image.tar-image.tarx" = "rhelx".
Proof. reflexivity. Qed.
Example strip_ex : PyStr.strip (String "010" " ami-1 " ++ String "010" "") = "ami-1".
Proof. reflexivity. Qed.
Example of_Z_ex : (PyStr.of_Z 254, PyStr.of_Z (-7), PyStr.of_Z 0)%Z = ("254", "-7", "0").
Proof. reflexivity. Qed.
Example lower_ex : PyStr.lower "Y" = "y" /\ PyStr.lower "Yes" = "yes".
Proof. split; reflexivity. Qed.
Example quote_ex :
  PyStr.quote "disk.raw" = "'disk.raw'"
  /\ PyStr.quote "it's" = String "034" ("it's" ++ String "034" "")
  /\ PyStr.quote ("it's " ++ String "034" "raw") = "'it\'s " ++ String "034" "raw'"
  /\ PyStr.quote ("ami-1" ++ String "010" "") = "'ami-1\n'"
  /\ PyStr.quote (String "026" "lready in use") = "'\x1already in use'".
Proof. repeat split. Qed.

(** ** The monad *)

Lemma after_nil {A} (r : outcome A * World * list event) : after [] r = r.
Proof. destruct r as [[o w] t]; reflexivity. Qed.

Lemma after_after {A} (t1 t2 : list event) (r : outcome A * World * list event) :
  after t1 (after t2 r) = after (t1 ++ t2)%list r.
Proof. destruct r as [[o w] t]; simpl; now rewrite app_assoc. Qed.

Lemma outcome_after {A} (t : list event) (r : outcome A * World * list event) :
  outcome_of (after t r) = outcome_of r.
Proof. destruct r as [[o w] t']; reflexivity. Qed.

Lemma world_after {A} (t : list event) (r : outcome A * World * list event) :
  world_of (after t r) = world_of r.
Proof. destruct r as [[o w] t']; reflexivity. Qed.

Lemma trace_after {A} (t : list event) (r : outcome A * World * list event) :
  trace_of (after t r) = (t ++ trace_of r)%list.
Proof. destruct r as [[o w] t']; reflexivity. Qed.

Section MonadLaws.
Context {A B : Type}.

Lemma bind_ret (m : M A) (k : A -> M B) w a w' t :
  m w = (Ret a, w', t) -> bind m k w = after t (k a w').
Proof. unfold bind; now intros ->. Qed.

Lemma bind_raise (m : M A) (k : A -> M B) w e w' t :
  m w = (Raise e, w', t) -> bind m k w = (Raise e, w', t).
Proof. unfold bind; now intros ->. Qed.

Lemma bind_blocked (m : M A) (k : A -> M B) w w' t :
  m w = (Blocked, w', t) -> bind m k w = (Blocked, w', t).
Proof. unfold bind; now intros ->. Qed.

(** A computation that starts with the events [t] and goes on as from
    [w'] does so in front of any continuation. *)
Lemma bind_after (m : M A) (k : A -> M B) w w' t :
  m w = after t (m w') -> bind m k w = after t (bind m k w').
Proof.
  unfold bind; intros E; rewrite E.
  destruct (m w') as [[[a| e | | ] w''] t']; simpl; try reflexivity.
  symmetry; apply after_after.
Qed.

End MonadLaws.

Lemma set_stdin_same w : set_stdin w (stdin w) = w.
Proof. now destruct w. Qed.

Lemma set_procs_same w : set_procs w (procs w) = w.
Proof. now destruct w. Qed.

Lemma set_procs_twice w l l' : set_procs (set_procs w l) l' = set_procs w l'.
Proof. reflexivity. Qed.

Lemma set_stdin_twice w l l' : set_stdin (set_stdin w l) l' = set_stdin w l'.
Proof. reflexivity. Qed.

(** ** Loops *)

Section Loops.
Context {A : Type} (body : M (option A)).

Hypothesis body_consuming : consuming body.

Lemma iterate_enough n m w :
  pending w < n -> pending w < m -> iterate n body w = iterate m body w.
Proof.
  revert m w; induction n as [|n IH]; intros m w Hn Hm; [lia|].
  destruct m as [|m]; [lia|]; simpl.
  destruct (body w) as [[[[a|]| e | | ] w'] t] eqn:E; try reflexivity.
  apply body_consuming in E.
  f_equal; apply IH; lia.
Qed.

Lemma iterate_S n w :
  iterate (S n) body w =
  match body w with
  | (Ret None, w', t) => after t (iterate n body w')
  | (Ret (Some a), w', t) => (Ret a, w', t)
  | (Raise e, w', t) => (Raise e, w', t)
  | (Blocked, w', t) => (Blocked, w', t)
  | (Diverge, w', t) => (Diverge, w', t)
  end.
Proof. reflexivity. Qed.

Lemma while_true_again w w' t :
  body w = (Ret None, w', t) -> while_true body w = after t (while_true body w').
Proof.
  intros E; unfold while_true; rewrite (iterate_S (pending w) w), E.
  f_equal; apply iterate_enough; [apply body_consuming in E; lia | lia].
Qed.

Lemma while_true_leave w w' t a :
  body w = (Ret (Some a), w', t) -> while_true body w = (Ret a, w', t).
Proof. intros E; unfold while_true; simpl; now rewrite E. Qed.

Lemma while_true_raise w w' t e :
  body w = (Raise e, w', t) -> while_true body w = (Raise e, w', t).
Proof. intros E; unfold while_true; simpl; now rewrite E. Qed.

Lemma while_true_blocked w w' t :
  body w = (Blocked, w', t) -> while_true body w = (Blocked, w', t).
Proof. intros E; unfold while_true; simpl; now rewrite E. Qed.

(** The bound on the turns is never what stops a loop. *)
Lemma iterate_total n w :
  (forall w0, outcome_of (body w0) <> Diverge) ->
  pending w < n -> outcome_of (iterate n body w) <> Diverge.
Proof.
  intros Hbody; revert w; induction n as [|n IH]; intros w Hn; [lia|].
  rewrite iterate_S.
  pose proof (Hbody w) as Hw.
  destruct (body w) as [[[[a|]| e | | ] w'] t] eqn:E;
    try (cbv [outcome_of fst]; discriminate).
  - rewrite outcome_after; apply IH.
    apply body_consuming in E; lia.
  - exfalso; apply Hw; reflexivity.
Qed.

Lemma while_true_total w :
  (forall w0, outcome_of (body w0) <> Diverge) ->
  outcome_of (while_true body w) <> Diverge.
Proof. intros Hbody; apply iterate_total; [assumption | lia]. Qed.

End Loops.

(** ** The confirmation prompt: one turn and the whole loop *)

Lemma aws_prompt_confirm self (object bucket region : value) :
  AWSImageCreator.prompt_delete_s3_object self object bucket region =
  while_true
    (confirm ("Do you want to delete the S3 object '" ++ Py.str object
              ++ "' after import as an AMI? (y/n): ")
       (AWSImageCreator.delete_s3_object self bucket object region)
       ("S3 object '" ++ Py.str object ++ "' deleted.")
       ("S3 object '" ++ Py.str object ++ "' not deleted.")).
Proof. reflexivity. Qed.

Lemma azure_prompt_confirm self (blob container account : value) :
  AzureImageCreator.prompt_delete self blob container account =
  while_true
    (confirm ("Do you want to delete the S3 object '" ++ Py.str blob
              ++ "' after import as an AMI? (y/n): ")
       (AzureImageCreator.delete self blob container account)
       ("Bucket object '" ++ Py.str blob ++ "' deleted.")
       ("Bucket object '" ++ Py.str blob ++ "' not deleted.")).
Proof. reflexivity. Qed.

Lemma gcp_prompt_confirm self (object bucket : value) :
  GCPImageCreator.prompt_delete self object bucket =
  while_true
    (confirm ("Do you want to delete the gcloud object '" ++ Py.str object
              ++ "' after import? (y/n): ")
       (GCPImageCreator.delete self object bucket)
       ("Google cloud object '" ++ Py.str object ++ "' deleted.")
       ("Google cloud object '" ++ Py.str object ++ "' not deleted.")).
Proof. reflexivity. Qed.

Lemma run_argv cmd c w :
  Py.argv cmd = Some c -> subprocess_run cmd w = (Ret tt, w, [ERun c]).
Proof. unfold subprocess_run; now intros ->. Qed.

Lemma capture_argv cmd c w r rest :
  Py.argv cmd = Some c -> procs w = r :: rest ->
  subprocess_run_capture cmd w =
  (Ret (mkCompleted c (reply_code r) (reply_out r) (reply_err r)),
   set_procs w rest, [ERun c]).
Proof. unfold subprocess_run_capture; now intros -> ->. Qed.

Lemma capture_blocked cmd c w :
  Py.argv cmd = Some c -> procs w = [] ->
  subprocess_run_capture cmd w = (Blocked, w, [ERun c]).
Proof. unfold subprocess_run_capture; now intros -> ->. Qed.

Lemma input_line prompt w l rest :
  stdin w = l :: rest -> input prompt w = (Ret l, set_stdin w rest, [EInput prompt]).
Proof. unfold input; now intros ->. Qed.

Lemma input_end prompt w :
  stdin w = [] -> input prompt w = (end_of_input w, w, [EInput prompt]).
Proof. unfold input; now intros ->. Qed.

Section Confirm.
Variables (prompt deleted kept : string) (on_yes : M unit).

Let turn := confirm prompt on_yes deleted kept.

Lemma confirm_rejected w l rest :
  stdin w = l :: rest -> rejected l = true ->
  turn w = (Ret None, set_stdin w rest, [EInput prompt; EPrint invalid_input]).
Proof.
  unfold rejected, says_yes, says_no; intros Hin Hbad.
  apply andb_prop in Hbad as [Hy Hn].
  apply negb_true_iff in Hy, Hn.
  unfold turn, confirm.
  rewrite (bind_ret _ _ _ (input_line prompt w Hin)); cbv zeta beta.
  now rewrite Hy, Hn.
Qed.

Lemma confirm_no w l rest :
  stdin w = l :: rest -> says_yes l = false -> says_no l = true ->
  turn w = (Ret (Some tt), set_stdin w rest, [EInput prompt; EPrint kept]).
Proof.
  unfold says_yes, says_no; intros Hin Hy Hn.
  unfold turn, confirm.
  rewrite (bind_ret _ _ _ (input_line prompt w Hin)); cbv zeta beta.
  now rewrite Hy, Hn.
Qed.

Lemma confirm_yes w l rest c :
  stdin w = l :: rest -> says_yes l = true ->
  (forall w0, on_yes w0 = (Ret tt, w0, [ERun c])) ->
  turn w = (Ret (Some tt), set_stdin w rest, [EInput prompt; ERun c; EPrint deleted]).
Proof.
  unfold says_yes; intros Hin Hy Hrun.
  unfold turn, confirm.
  rewrite (bind_ret _ _ _ (input_line prompt w Hin)); cbv zeta beta.
  rewrite Hy, (bind_ret _ _ _ (Hrun _)).
  reflexivity.
Qed.

Lemma confirm_end w :
  stdin w = [] -> turn w = (end_of_input w, w, [EInput prompt]).
Proof.
  intros Hin; unfold turn, confirm, bind.
  rewrite (input_end prompt w Hin); unfold end_of_input.
  destruct (stdin_closed w); reflexivity.
Qed.

(** At the end of the input the loop stops where its turn stops. *)
Lemma confirm_loop_end w :
  stdin w = [] -> while_true turn w = (end_of_input w, w, [EInput prompt]).
Proof.
  intros Hin; pose proof (confirm_end w Hin) as E; unfold end_of_input in *.
  destruct (stdin_closed w);
    [now apply while_true_raise | now apply while_true_blocked].
Qed.

Lemma confirm_consuming : consuming turn.
Proof.
  intros w w' t; unfold turn, confirm, bind, input.
  destruct (stdin w) as [|l rest] eqn:Hin;
    [unfold end_of_input; destruct (stdin_closed w); discriminate|].
  cbv zeta beta iota.
  destruct (PyStr.lower l =? "y").
  - destruct (on_yes (set_stdin w rest)) as [[[[]| e | | ] w1] t1];
      cbn; discriminate.
  - destruct (PyStr.lower l =? "n"); cbn; [discriminate|].
    intros [= <- _]; unfold pending; cbn; rewrite Hin; cbn; lia.
Qed.

(** Rejected answers are asked again and change nothing but the place
    in the input. *)
Lemma confirm_skip bad : forall w rest,
  Forall (fun l => rejected l = true) bad ->
  stdin w = (bad ++ rest)%list ->
  while_true turn w = after (reprompts prompt bad) (while_true turn (set_stdin w rest)).
Proof.
  induction bad as [|l bad IH]; intros w rest Hbad Hin.
  - cbn in *; rewrite after_nil, <- Hin, set_stdin_same; reflexivity.
  - inversion Hbad as [|? ? Hl Hbad']; subst.
    rewrite (while_true_again confirm_consuming _
               (confirm_rejected w (l := l) (rest := (bad ++ rest)%list) Hin Hl)).
    rewrite (IH (set_stdin w (bad ++ rest)%list) rest Hbad' eq_refl).
    rewrite after_after; reflexivity.
Qed.

End Confirm.

(** *** Which answers count *)

Lemma lower_char_y c :
  PyStr.lower_char c = "y"%char -> c = "y"%char \/ c = "Y"%char.
Proof.
  destruct c as [[] [] [] [] [] [] [] []]; vm_compute; intros H;
    try discriminate H; auto.
Qed.

Lemma lower_char_n c :
  PyStr.lower_char c = "n"%char -> c = "n"%char \/ c = "N"%char.
Proof.
  destruct c as [[] [] [] [] [] [] [] []]; vm_compute; intros H;
    try discriminate H; auto.
Qed.

Lemma says_yes_iff l : says_yes l = true <-> l = "y" \/ l = "Y".
Proof.
  unfold says_yes; rewrite String.eqb_eq; split.
  - destruct l as [|c [|c' r]]; cbn [PyStr.lower]; intros [= H]; try discriminate.
    destruct (lower_char_y c H); subst; auto.
  - intros [-> | ->]; reflexivity.
Qed.

Lemma says_no_iff l : says_no l = true <-> l = "n" \/ l = "N".
Proof.
  unfold says_no; rewrite String.eqb_eq; split.
  - destruct l as [|c [|c' r]]; cbn [PyStr.lower]; intros [= H]; try discriminate.
    destruct (lower_char_n c H); subst; auto.
  - intros [-> | ->]; reflexivity.
Qed.

Lemma says_no_not_yes l : says_no l = true -> says_yes l = false.
Proof.
  unfold says_no, says_yes; rewrite String.eqb_eq; intros ->; reflexivity.
Qed.

Lemma rejected_iff l :
  rejected l = true <-> ~ (l = "y" \/ l = "Y" \/ l = "n" \/ l = "N").
Proof.
  unfold rejected; rewrite andb_true_iff, !negb_true_iff.
  rewrite <- !not_true_iff_false, says_yes_iff, says_no_iff; tauto.
Qed.

(** Every input is a run of rejected answers, followed by nothing or by a
    first answer that says yes or no. *)
Lemma first_answer (ins : list string) :
  exists bad, Forall (fun l => rejected l = true) bad /\
    (ins = bad \/
     exists l rest, ins = (bad ++ l :: rest)%list /\
                    (says_yes l = true \/ says_no l = true)).
Proof.
  induction ins as [|l ins (bad & Hbad & IH)].
  - exists []; split; [constructor | now left].
  - destruct (rejected l) eqn:Hl.
    + exists (l :: bad); split; [now constructor|].
      destruct IH as [-> | (a & rest & -> & Ha)]; [now left|].
      right; exists a, rest; split; [reflexivity | assumption].
    + exists []; split; [constructor|].
      right; exists l, ins; split; [reflexivity|].
      unfold rejected in Hl; apply andb_false_iff in Hl.
      rewrite !negb_false_iff in Hl; exact Hl.
Qed.

Lemma confirm_loop prompt deleted kept on_yes rm w :
  (forall w0, on_yes w0 = (Ret tt, w0, [ERun rm])) ->
  confirmation w prompt rm deleted kept
    (while_true (confirm prompt on_yes deleted kept) w).
Proof.
  intros Hrun.
  destruct (first_answer (stdin w)) as (bad & Hbad & Hins).
  exists bad; split.
  { eapply Forall_impl; [|exact Hbad]; intros l; apply rejected_iff. }
  destruct Hins as [Hin | (l & rest & Hin & Hl)].
  - left; split; [assumption|].
    rewrite (@confirm_skip prompt deleted kept on_yes bad w [] Hbad)
      by (now rewrite app_nil_r).
    rewrite (@confirm_loop_end prompt deleted kept on_yes (set_stdin w []) eq_refl).
    reflexivity.
  - right; exists l, rest; split; [assumption|].
    rewrite (@confirm_skip prompt deleted kept on_yes bad w (l :: rest) Hbad Hin).
    destruct Hl as [Hy | Hn]; [left | right].
    + split; [now apply says_yes_iff|].
      rewrite (while_true_leave _ _
                 (@confirm_yes prompt deleted kept on_yes (set_stdin w (l :: rest))
                    l rest rm eq_refl Hy Hrun)).
      reflexivity.
    + split; [now apply says_no_iff|].
      rewrite (while_true_leave _ _
                 (@confirm_no prompt deleted kept on_yes (set_stdin w (l :: rest))
                    l rest eq_refl (says_no_not_yes l Hn) Hn)).
      reflexivity.
Qed.

(** C8. The confirmation prompt of each class, on every input: answers
    other than y, Y, n, N are asked again and change nothing but the place
    in the input; the delete command is run exactly when the first other
    answer is y or Y, and the loop is left without it when that answer is
    n or N; while the input holds rejected answers only, the prompt keeps
    asking and nothing is deleted: at the end of such an input it has
    asked once more, and it waits, or ends with [EOFError] when the
    console is closed. *)
Theorem prompt_deletes_only_on_yes
  (aws : AWSImageCreator.t) (az : AzureImageCreator.t) (gcp : GCPImageCreator.t)
  (s3_object_name s3_bucket_name region : string)
  (blob_name container_name storage_account_name : string)
  (gcloud_object_name gcp_bucket_name : string) (w : World) :
  confirmation w
    ("Do you want to delete the S3 object '" ++ s3_object_name
     ++ "' after import as an AMI? (y/n): ")
    [AWSImageCreator.aws_cli_path aws; "s3"; "rm";
     "s3://" ++ s3_object_name ++ "/" ++ s3_bucket_name; "--region"; region]
    ("S3 object '" ++ s3_object_name ++ "' deleted.")
    ("S3 object '" ++ s3_object_name ++ "' not deleted.")
    (AWSImageCreator.prompt_delete_s3_object aws
       (VStr s3_object_name) (VStr s3_bucket_name) (VStr region) w)
  /\
  confirmation w
    ("Do you want to delete the S3 object '" ++ blob_name
     ++ "' after import as an AMI? (y/n): ")
    [AzureImageCreator.az_cli_path az; "storage"; "blob"; "delete";
     "--account-name"; storage_account_name;
     "--container-name"; container_name; "--name"; blob_name]
    ("Bucket object '" ++ blob_name ++ "' deleted.")
    ("Bucket object '" ++ blob_name ++ "' not deleted.")
    (AzureImageCreator.prompt_delete az
       (VStr blob_name) (VStr container_name) (VStr storage_account_name) w)
  /\
  confirmation w
    ("Do you want to delete the gcloud object '" ++ gcloud_object_name
     ++ "' after import? (y/n): ")
    [GCPImageCreator.gcp_cli_path gcp; "storage"; "rm";
     "gs://" ++ gcp_bucket_name ++ "/" ++ gcloud_object_name]
    ("Google cloud object '" ++ gcloud_object_name ++ "' deleted.")
    ("Google cloud object '" ++ gcloud_object_name ++ "' not deleted.")
    (GCPImageCreator.prompt_delete gcp
       (VStr gcloud_object_name) (VStr gcp_bucket_name) w).
Proof.
  split; [|split].
  - rewrite aws_prompt_confirm; apply confirm_loop; intros w0; reflexivity.
  - rewrite azure_prompt_confirm; apply confirm_loop; intros w0; reflexivity.
  - rewrite gcp_prompt_confirm; apply confirm_loop; intros w0; reflexivity.
Qed.

(** ** The loop that waits for the import task: one turn and the whole loop *)

Lemma loads_ok s v w : json_loads w s = Some v -> loads s w = (Ret v, w, []).
Proof. unfold loads; now intros ->. Qed.

Lemma active_inv dec r :
  active dec r = true ->
  exists j s, dec (PyStr.strip (reply_out r)) = Some j /\
              AWSImageCreator.task_detail j "Status" = Ok s /\
              Py.eq_str s "completed" = false /\ Py.eq_str s "error" = false.
Proof.
  unfold active, status_of, detail_of, is_terminal.
  destruct (dec _) as [j|]; [|discriminate].
  destruct (AWSImageCreator.task_detail j "Status") as [s|] eqn:Hs; [|discriminate].
  rewrite negb_true_iff, orb_false_iff; intros [H1 H2]; exists j, s; auto.
Qed.

Section Poll.
Variables (self : AWSImageCreator.t) (import_task_id region : string).

Let cmd := poll_cmd self import_task_id region.
Let turn := AWSImageCreator.poll self (VStr import_task_id) (VStr region).

Lemma poll_query w r rest :
  procs w = r :: rest ->
  subprocess_run_capture
    [VStr (AWSImageCreator.aws_cli_path self); VStr "ec2";
     VStr "describe-import-snapshot-tasks"; VStr "--import-task-ids";
     VStr import_task_id; VStr "--region"; VStr region] w =
  (Ret (mkCompleted cmd (reply_code r) (reply_out r) (reply_err r)),
   set_procs w rest, [ERun cmd]).
Proof. intros Hp; now apply capture_argv. Qed.

Lemma poll_active w r rest :
  procs w = r :: rest -> active (json_loads w) r = true ->
  turn w = (Ret None, set_procs w rest, round (json_loads w) cmd r).
Proof.
  intros Hp Ha.
  destruct (active_inv _ _ Ha) as (j & s & Hj & Hs & Hc & He).
  unfold turn, AWSImageCreator.poll, round.
  rewrite (bind_ret _ _ _ (poll_query w Hp)).
  cbv zeta beta; cbn [stdout].
  rewrite (bind_ret _ _ _ (loads_ok _ (set_procs w rest) Hj)).
  rewrite Hj, Hs; cbn [eval]; rewrite (bind_ret _ _ _ eq_refl).
  rewrite Hc, He; unfold progress_report.
  destruct (AWSImageCreator.task_detail j "Progress") as [p|e]; reflexivity.
Qed.

Lemma poll_completed w r rest j s :
  procs w = r :: rest ->
  json_loads w (PyStr.strip (reply_out r)) = Some j ->
  AWSImageCreator.task_detail j "Status" = Ok s ->
  Py.eq_str s "completed" = true ->
  turn w = (Ret (Some (Break j)), set_procs w rest, [ERun cmd]).
Proof.
  intros Hp Hj Hs Hc.
  unfold turn, AWSImageCreator.poll.
  rewrite (bind_ret _ _ _ (poll_query w Hp)).
  cbv zeta beta; cbn [stdout].
  rewrite (bind_ret _ _ _ (loads_ok _ (set_procs w rest) Hj)).
  rewrite Hs; cbn [eval]; rewrite (bind_ret _ _ _ eq_refl).
  rewrite Hc; reflexivity.
Qed.

Lemma poll_error w r rest j s :
  procs w = r :: rest ->
  json_loads w (PyStr.strip (reply_out r)) = Some j ->
  AWSImageCreator.task_detail j "Status" = Ok s ->
  Py.eq_str s "error" = true ->
  turn w = (Ret (Some (Return VNone)), set_procs w rest,
            [ERun cmd; EPrint "Error: Import task failed. Exiting."]).
Proof.
  intros Hp Hj Hs He.
  assert (Hc : Py.eq_str s "completed" = false).
  { destruct s; try reflexivity; cbn in *.
    apply String.eqb_eq in He; subst; reflexivity. }
  unfold turn, AWSImageCreator.poll.
  rewrite (bind_ret _ _ _ (poll_query w Hp)).
  cbv zeta beta; cbn [stdout].
  rewrite (bind_ret _ _ _ (loads_ok _ (set_procs w rest) Hj)).
  rewrite Hs; cbn [eval]; rewrite (bind_ret _ _ _ eq_refl).
  rewrite Hc, He; reflexivity.
Qed.

Lemma poll_blocked w :
  procs w = [] -> turn w = (Blocked, w, [ERun cmd]).
Proof.
  intros Hp; unfold turn, AWSImageCreator.poll.
  rewrite (bind_blocked _ _ w (w' := w) (t := [ERun cmd])); [reflexivity|].
  now apply capture_blocked.
Qed.

(** Active replies are each answered by one round and nothing else. *)
Lemma poll_skip_with (Hcons : consuming turn) pre : forall w rest,
  Forall (fun r => active (json_loads w) r = true) pre ->
  procs w = (pre ++ rest)%list ->
  while_true turn w =
  after (rounds (json_loads w) cmd pre) (while_true turn (set_procs w rest)).
Proof.
  induction pre as [|r pre IH]; intros w rest Hact Hp.
  - cbn in *; rewrite after_nil, <- Hp, set_procs_same; reflexivity.
  - inversion Hact as [|? ? Hr Hact']; subst.
    rewrite (while_true_again Hcons _
               (poll_active w (r := r) (rest := (pre ++ rest)%list) Hp Hr)).
    rewrite (IH (set_procs w (pre ++ rest)%list) rest Hact' eq_refl).
    rewrite after_after; reflexivity.
Qed.

End Poll.

(** A turn of the loop that goes round again has read one reply. *)
Lemma poll_consuming self import_task_id region :
  consuming (AWSImageCreator.poll self import_task_id region).
Proof.
  intros w w' t; unfold AWSImageCreator.poll, bind, subprocess_run_capture.
  destruct (Py.argv _) as [c|]; [|discriminate].
  destruct (procs w) as [|r rest] eqn:Hp; [discriminate|].
  unfold loads; cbn [json_loads set_procs stdout].
  destruct (json_loads w _) as [j|]; [|discriminate].
  destruct (AWSImageCreator.task_detail j "Status") as [s|e]; [|discriminate].
  cbn [eval ret after].
  destruct (Py.eq_str s "completed"); [discriminate|].
  destruct (Py.eq_str s "error"); [discriminate|].
  unfold try_except, bind, print, sleep, emit, ret.
  destruct (AWSImageCreator.task_detail j "Progress") as [p|e];
    cbn [eval ret raise after app];
    intros [= <- _]; unfold pending; cbn [procs stdin set_procs];
    rewrite Hp; cbn [length]; lia.
Qed.

Lemma poll_skip self import_task_id region pre w rest :
  Forall (fun r => active (json_loads w) r = true) pre ->
  procs w = (pre ++ rest)%list ->
  while_true (AWSImageCreator.poll self (VStr import_task_id) (VStr region)) w =
  after (rounds (json_loads w) (poll_cmd self import_task_id region) pre)
    (while_true (AWSImageCreator.poll self (VStr import_task_id) (VStr region))
       (set_procs w rest)).
Proof. apply poll_skip_with, poll_consuming. Qed.

Lemma rounds_queries dec cmd pre :
  Forall (fun r => active dec r = true) pre ->
  filter is_run (rounds dec cmd pre) = repeat (ERun cmd) (length pre) /\
  filter is_sleep (rounds dec cmd pre) = repeat (ESleep 10) (length pre).
Proof.
  induction 1 as [|r pre Hr _ [IHq IHs]]; [split; reflexivity|].
  destruct (active_inv _ _ Hr) as (j & s & Hj & Hs & _).
  unfold rounds in *; cbn [flat_map length repeat]; unfold round at 1 3.
  rewrite Hj, Hs; cbn [app filter is_run is_sleep].
  now rewrite IHq, IHs.
Qed.

(** C3. The loop that waits for the import task, on every sequence of
    replies to its status queries: each reply whose status is neither
    'completed' nor 'error' is followed by a wait of 10 seconds and one
    more query; the first reply with a terminal status ends the loop and
    the replies after it are left unread; while no terminal status has
    come the loop is still asking. *)
Theorem polling_stops_at_terminal_status
  (self : AWSImageCreator.t) (import_task_id region : string) (w : World)
  (pre : list Reply) :
  Forall (fun r => active (json_loads w) r = true) pre ->
  let loop := while_true (AWSImageCreator.poll self (VStr import_task_id) (VStr region)) in
  let cmd := poll_cmd self import_task_id region in
  let waited := rounds (json_loads w) cmd pre in
  (filter is_run waited = repeat (ERun cmd) (length pre) /\
   filter is_sleep waited = repeat (ESleep 10) (length pre))
  /\
  (procs w = pre ->
   loop w = (Blocked, set_procs w [], (waited ++ [ERun cmd])%list))
  /\
  (forall t post j s,
     procs w = (pre ++ t :: post)%list ->
     json_loads w (PyStr.strip (reply_out t)) = Some j ->
     AWSImageCreator.task_detail j "Status" = Ok s ->
     (Py.eq_str s "completed" = true ->
      loop w = (Ret (Break j), set_procs w post, (waited ++ [ERun cmd])%list))
     /\
     (Py.eq_str s "error" = true ->
      loop w = (Ret (Return VNone), set_procs w post,
                (waited ++ [ERun cmd; EPrint "Error: Import task failed. Exiting."])%list))).
Proof.
  intros Hact loop cmd waited; split; [|split].
  - now apply rounds_queries.
  - intros Hp; unfold loop.
    rewrite (@poll_skip self import_task_id region pre w [] Hact)
      by (now rewrite app_nil_r).
    rewrite (while_true_blocked _ _
               (@poll_blocked self import_task_id region (set_procs w []) eq_refl)).
    reflexivity.
  - intros t post j s Hp Hj Hs; unfold loop.
    rewrite (@poll_skip self import_task_id region pre w (t :: post) Hact Hp).
    split; intros Hend.
    + rewrite (while_true_leave _ _
                 (@poll_completed self import_task_id region
                    (set_procs w (t :: post)) t post j s eq_refl Hj Hs Hend)).
      reflexivity.
    + rewrite (while_true_leave _ _
                 (@poll_error self import_task_id region
                    (set_procs w (t :: post)) t post j s eq_refl Hj Hs Hend)).
      reflexivity.
Qed.

(** ** The import on AWS: from the request to the cleanup *)

Lemma detail_of_inv dec r field v :
  detail_of dec r field = Some v ->
  exists j, dec (PyStr.strip (reply_out r)) = Some j /\
            AWSImageCreator.task_detail j field = Ok v.
Proof.
  unfold detail_of; destruct (dec _) as [j|]; [|discriminate].
  destruct (AWSImageCreator.task_detail j field) as [x|] eqn:E; [|discriminate].
  intros [= ->]; now exists j.
Qed.

Section ImportSteps.
Variables (self : AWSImageCreator.t) (object bucket region : string)
          (boot : option string) (delete_after_import : bool).

Let finish :=
  AWSImageCreator.create_ami self (VStr object) (VStr bucket) (of_option boot)
    delete_after_import (VStr region).

Lemma import_start w r0 rest import_task_id :
  procs w = r0 :: rest ->
  task_id_of (json_loads w) r0 = Some import_task_id ->
  AWSImageCreator.import_snapshot_and_create_ami self (VStr object) (VStr bucket)
    (of_option boot) delete_after_import (VStr region) w =
  after [ERun (import_cmd self object bucket region)]
    (bind (while_true (AWSImageCreator.poll self (VStr import_task_id) (VStr region)))
       finish (set_procs w rest)).
Proof.
  intros Hp Hid; unfold task_id_of in Hid.
  destruct (json_loads w _) as [j0|] eqn:Hj0; [|discriminate].
  destruct (Py.get j0 "ImportTaskId") as [[]|] eqn:Hget; try discriminate.
  injection Hid as ->.
  unfold AWSImageCreator.import_snapshot_and_create_ami.
  rewrite (bind_ret _ _ w
             (a := registered (import_cmd self object bucket region) r0)
             (w' := set_procs w rest)
             (t := [ERun (import_cmd self object bucket region)]))
    by (now apply capture_argv).
  cbv zeta beta; cbn [stdout registered].
  rewrite (bind_ret _ _ _ (loads_ok _ (set_procs w rest) Hj0)).
  rewrite Hget; cbn [eval]; rewrite (bind_ret _ _ _ eq_refl).
  rewrite !after_nil; reflexivity.
Qed.

Lemma register_argv (snapshot : string) :
  Py.argv
    ([VStr (AWSImageCreator.aws_cli_path self); VStr "ec2"; VStr "register-image";
      VStr "--name"; VStr object;
      VStr "--architecture"; VStr "x86_64";
      VStr "--block-device-mappings";
      VStr ("DeviceName=/dev/sda1,Ebs={SnapshotId=" ++ snapshot ++ "}");
      VStr "--virtualization-type"; VStr "hvm";
      VStr "--root-device-name"; VStr "/dev/sda1";
      VStr "--region"; VStr region;
      VStr "--ena-support"]
     ++ (if Py.truthy (of_option boot)
         then [VStr "--boot-mode"; of_option boot] else []))%list
  = Some (register_cmd self object snapshot region boot).
Proof.
  unfold register_cmd, boot_flag; destruct boot as [b|]; cbn [of_option Py.truthy].
  - destruct (b =? ""); reflexivity.
  - reflexivity.
Qed.

Lemma finish_return v w : finish (Return v) w = (Ret v, w, []).
Proof. reflexivity. Qed.

(** After the loop: the registration, then the cleanup, then the
    [return] of an identifier that is bound only when the reply does not
    say 'already in use'. *)
Lemma finish_break w j snapshot reg post :
  AWSImageCreator.task_detail j "SnapshotId" = Ok snapshot ->
  procs w = reg :: post ->
  let cmd := register_cmd self object (Py.str snapshot) region boot in
  finish (Break j) w =
  if already_in_use cmd reg then
    after [ERun cmd; EPrint "This snapshot is already in use:";
           EPrint (str_completed (registered cmd reg))]
      (bind (cleanup self bucket object region delete_after_import)
         (fun _ => raise UnboundLocalError) (set_procs w post))
  else
    after [ERun cmd; EPrint ("AMI ID: " ++ PyStr.strip (reply_out reg))]
      (bind (cleanup self bucket object region delete_after_import)
         (fun _ => ret (VStr (PyStr.strip (reply_out reg)))) (set_procs w post)).
Proof.
  intros Hsnap Hp cmd.
  unfold finish, AWSImageCreator.create_ami.
  rewrite Hsnap; cbn [eval]; rewrite (bind_ret _ _ _ eq_refl); cbv zeta.
  rewrite (bind_ret _ _ w (capture_argv _ w (register_argv (Py.str snapshot)) Hp)).
  fold cmd; fold (registered cmd reg); cbv beta.
  unfold already_in_use.
  destruct (PyStr.contains "already in use" (str_completed (registered cmd reg))).
  - unfold print, emit; cbn [bind after ret app].
    rewrite !after_after; reflexivity.
  - unfold print, emit; cbn [bind after ret app stdout registered].
    rewrite !after_after; reflexivity.
Qed.

End ImportSteps.

Section ImportRuns.
Variables (self : AWSImageCreator.t) (object bucket region : string)
          (boot : option string) (delete_after_import : bool).

Let import :=
  AWSImageCreator.import_snapshot_and_create_ami self (VStr object) (VStr bucket)
    (of_option boot) delete_after_import (VStr region).
Let finish :=
  AWSImageCreator.create_ami self (VStr object) (VStr bucket) (of_option boot)
    delete_after_import (VStr region).

(** The import request, then one round for every active reply. *)
Lemma import_polls w r0 pre rest import_task_id :
  procs w = r0 :: (pre ++ rest)%list ->
  task_id_of (json_loads w) r0 = Some import_task_id ->
  Forall (fun r => active (json_loads w) r = true) pre ->
  import w =
  after (ERun (import_cmd self object bucket region)
         :: rounds (json_loads w) (poll_cmd self import_task_id region) pre)
    (bind (while_true (AWSImageCreator.poll self (VStr import_task_id) (VStr region)))
       finish (set_procs w rest)).
Proof.
  intros Hp Hid Hact; unfold import.
  rewrite (@import_start self object bucket region boot delete_after_import
             w r0 (pre ++ rest)%list import_task_id Hp Hid).
  rewrite (@bind_after _ _ _ _ (set_procs w (pre ++ rest)%list)
             (set_procs w rest)
             (rounds (json_loads w) (poll_cmd self import_task_id region) pre)).
  - rewrite after_after; reflexivity.
  - apply (@poll_skip self import_task_id region pre
             (set_procs w (pre ++ rest)%list) rest Hact eq_refl).
Qed.

(** A run whose task fails. *)
Lemma import_error w r0 pre t post import_task_id s :
  procs w = r0 :: (pre ++ t :: post)%list ->
  task_id_of (json_loads w) r0 = Some import_task_id ->
  Forall (fun r => active (json_loads w) r = true) pre ->
  status_of (json_loads w) t = Some s ->
  Py.eq_str s "error" = true ->
  import w =
  (Ret VNone, set_procs w post,
   ERun (import_cmd self object bucket region)
   :: (rounds (json_loads w) (poll_cmd self import_task_id region) pre
       ++ [ERun (poll_cmd self import_task_id region);
           EPrint "Error: Import task failed. Exiting."])%list).
Proof.
  intros Hp Hid Hact Hs He.
  destruct (detail_of_inv _ _ _ Hs) as (j & Hj & Hst).
  rewrite (@import_polls w r0 pre (t :: post) import_task_id Hp Hid Hact).
  rewrite (bind_ret _ _ _
             (while_true_leave _ _
                (@poll_error self import_task_id region
                   (set_procs w (t :: post)) t post j s eq_refl Hj Hst He))).
  cbn [finish AWSImageCreator.create_ami ret after]; unfold ret; cbn [after].
  now rewrite app_nil_r.
Qed.

(** A run whose task completes and whose image is registered: what is
    left is the cleanup and the [return]. *)
Lemma import_success w r0 pre t reg post import_task_id s snapshot :
  procs w = r0 :: (pre ++ t :: reg :: post)%list ->
  task_id_of (json_loads w) r0 = Some import_task_id ->
  Forall (fun r => active (json_loads w) r = true) pre ->
  status_of (json_loads w) t = Some s ->
  Py.eq_str s "completed" = true ->
  detail_of (json_loads w) t "SnapshotId" = Some snapshot ->
  let cmd := register_cmd self object (Py.str snapshot) region boot in
  import w =
  after (ERun (import_cmd self object bucket region)
         :: rounds (json_loads w) (poll_cmd self import_task_id region) pre
         ++ [ERun (poll_cmd self import_task_id region); ERun cmd])%list
    (if already_in_use cmd reg then
       after [EPrint "This snapshot is already in use:";
              EPrint (str_completed (registered cmd reg))]
         (bind (cleanup self bucket object region delete_after_import)
            (fun _ => raise UnboundLocalError) (set_procs w post))
     else
       after [EPrint ("AMI ID: " ++ PyStr.strip (reply_out reg))]
         (bind (cleanup self bucket object region delete_after_import)
            (fun _ => ret (VStr (PyStr.strip (reply_out reg))))
            (set_procs w post))).
Proof.
  intros Hp Hid Hact Hs Hc Hsnap cmd.
  destruct (detail_of_inv _ _ _ Hs) as (j & Hj & Hst).
  destruct (detail_of_inv _ _ _ Hsnap) as (j' & Hj' & Hsn).
  assert (j' = j) by congruence; subst j'.
  rewrite (@import_polls w r0 pre (t :: reg :: post) import_task_id Hp Hid Hact).
  rewrite (bind_ret _ _ _
             (while_true_leave _ _
                (@poll_completed self import_task_id region
                   (set_procs w (t :: reg :: post)) t (reg :: post) j s
                   eq_refl Hj Hst Hc))).
  rewrite set_procs_twice; unfold finish.
  rewrite (@finish_break self object bucket region boot delete_after_import
             (set_procs w (reg :: post)) j snapshot reg post Hsn eq_refl).
  fold cmd; destruct (already_in_use cmd reg);
    rewrite !after_after; cbn [app]; rewrite <- !app_assoc; reflexivity.
Qed.

End ImportRuns.

(** The first answer that says yes runs the command and ends the prompt. *)
Lemma confirm_loop_yes prompt deleted kept on_yes rm w bad l rest :
  (forall w0, on_yes w0 = (Ret tt, w0, [ERun rm])) ->
  Forall (fun a => rejected a = true) bad ->
  stdin w = (bad ++ l :: rest)%list ->
  says_yes l = true ->
  while_true (confirm prompt on_yes deleted kept) w =
  (Ret tt, set_stdin w rest,
   (reprompts prompt bad ++ [EInput prompt; ERun rm; EPrint deleted])%list).
Proof.
  intros Hrun Hbad Hin Hy.
  rewrite (@confirm_skip prompt deleted kept on_yes bad w (l :: rest) Hbad Hin).
  rewrite (while_true_leave _ _
             (@confirm_yes prompt deleted kept on_yes (set_stdin w (l :: rest))
                l rest rm eq_refl Hy Hrun)).
  reflexivity.
Qed.

(** The rounds of the loop hold queries, lines and waits only. *)
Lemma existsb_rounds (P : event -> bool) dec cmd pre :
  P (ERun cmd) = false ->
  (forall l, P (EPrint l) = false) ->
  (forall n, P (ESleep n) = false) ->
  existsb P (rounds dec cmd pre) = false.
Proof.
  intros Hrun Hprint Hsleep; unfold rounds.
  induction pre as [|r pre IH]; [reflexivity|].
  cbn [flat_map]; rewrite existsb_app, IH, orb_false_r.
  unfold round; destruct (dec _) as [j|]; [|reflexivity].
  destruct (AWSImageCreator.task_detail j "Status"); [|reflexivity].
  cbn [existsb]; now rewrite Hrun, !Hprint, Hsleep.
Qed.

(** C4. When a poll of the import task finds the status 'error', the
    import prints the fatal message and returns [None]: no image is
    registered, nothing is deleted and the operator is not asked. *)
Theorem import_error_skips_registration_and_cleanup
  (self : AWSImageCreator.t) (object bucket region : string) (boot : option string)
  (delete_after_import : bool) (w : World) (r0 : Reply) (pre : list Reply)
  (t : Reply) (post : list Reply) (import_task_id : string) (s : value) :
  procs w = r0 :: (pre ++ t :: post)%list ->
  task_id_of (json_loads w) r0 = Some import_task_id ->
  Forall (fun r => active (json_loads w) r = true) pre ->
  status_of (json_loads w) t = Some s ->
  Py.eq_str s "error" = true ->
  let run :=
    AWSImageCreator.import_snapshot_and_create_ami self (VStr object) (VStr bucket)
      (of_option boot) delete_after_import (VStr region) w in
  run =
  (Ret VNone, set_procs w post,
   ERun (import_cmd self object bucket region)
   :: (rounds (json_loads w) (poll_cmd self import_task_id region) pre
       ++ [ERun (poll_cmd self import_task_id region);
           EPrint "Error: Import task failed. Exiting."])%list)
  /\ existsb (is_verb "ec2" "register-image") (trace_of run) = false
  /\ existsb (is_verb "s3" "rm") (trace_of run) = false
  /\ existsb is_input (trace_of run) = false.
Proof.
  intros Hp Hid Hact Hs He run.
  assert (Hrun : run = _) by
    exact (@import_error self object bucket region boot delete_after_import
             w r0 pre t post import_task_id s Hp Hid Hact Hs He).
  split; [exact Hrun|]; rewrite Hrun; unfold trace_of; cbn [snd].
  repeat split; cbn [existsb]; rewrite existsb_app, existsb_rounds;
    reflexivity || (intros; reflexivity).
Qed.

Lemma filter_none {X} (P : X -> bool) l : existsb P l = false -> filter P l = [].
Proof.
  induction l as [|x l IH]; [reflexivity|]; cbn [existsb filter].
  intros H; apply orb_false_iff in H as [Hx Hl]; rewrite Hx; now apply IH.
Qed.

Lemma existsb_reprompts (P : event -> bool) prompt bad :
  P (EInput prompt) = false -> P (EPrint invalid_input) = false ->
  existsb P (reprompts prompt bad) = false.
Proof.
  intros Hin Hpr; unfold reprompts.
  induction bad as [|l bad IH]; [reflexivity|].
  cbn [flat_map app existsb]; now rewrite Hin, Hpr, IH.
Qed.

(** C10. On AWS, when the operator is asked and answers yes, the command
    that is run removes [s3://<bucket>/<object>]: the importer passes
    (bucket, object) where the prompt expects (object, bucket), and the
    prompt passes them on swapped once more.  This is so whether the
    registration gave an identifier or read 'already in use'; in both
    cases it is the one [s3 rm] of the run. *)
Theorem aws_prompted_delete_targets_bucket_object
  (self : AWSImageCreator.t) (object bucket region : string) (boot : option string)
  (w : World) (r0 : Reply) (pre : list Reply) (t reg : Reply) (post : list Reply)
  (import_task_id : string) (s snapshot : value)
  (bad : list string) (l : string) (rest : list string) :
  procs w = r0 :: (pre ++ t :: reg :: post)%list ->
  task_id_of (json_loads w) r0 = Some import_task_id ->
  Forall (fun r => active (json_loads w) r = true) pre ->
  status_of (json_loads w) t = Some s ->
  Py.eq_str s "completed" = true ->
  detail_of (json_loads w) t "SnapshotId" = Some snapshot ->
  Forall (fun a => ~ (a = "y" \/ a = "Y" \/ a = "n" \/ a = "N")) bad ->
  stdin w = (bad ++ l :: rest)%list ->
  l = "y" \/ l = "Y" ->
  let cmd := register_cmd self object (Py.str snapshot) region boot in
  let prompt :=
    "Do you want to delete the S3 object '" ++ bucket
    ++ "' after import as an AMI? (y/n): " in
  let run :=
    AWSImageCreator.import_snapshot_and_create_ami self (VStr object) (VStr bucket)
      (of_option boot) false (VStr region) w in
  run =
  ((if already_in_use cmd reg then Raise UnboundLocalError
    else Ret (VStr (PyStr.strip (reply_out reg)))),
   set_stdin (set_procs w post) rest,
   (ERun (import_cmd self object bucket region)
    :: rounds (json_loads w) (poll_cmd self import_task_id region) pre
    ++ [ERun (poll_cmd self import_task_id region); ERun cmd]
    ++ (if already_in_use cmd reg
        then [EPrint "This snapshot is already in use:";
              EPrint (str_completed (registered cmd reg))]
        else [EPrint ("AMI ID: " ++ PyStr.strip (reply_out reg))%string])
    ++ reprompts prompt bad
    ++ [EInput prompt;
        ERun (s3_rm self bucket object region);
        EPrint ("S3 object '" ++ bucket ++ "' deleted.")%string])%list)
  /\ filter (is_verb "s3" "rm") (trace_of run)
     = [ERun (s3_rm self bucket object region)].
Proof.
  intros Hp Hid Hact Hs Hc Hsnap Hbad Hin Hl cmd prompt run.
  match goal with |- ?L = ?R /\ _ => assert (Hrun : L = R) end.
  { unfold run.
    rewrite (@import_success self object bucket region boot false
               w r0 pre t reg post import_task_id s snapshot Hp Hid Hact Hs Hc Hsnap).
    fold cmd; unfold cleanup; rewrite aws_prompt_confirm.
    pose proof (@confirm_loop_yes
                  ("Do you want to delete the S3 object '" ++ Py.str (VStr bucket)
                   ++ "' after import as an AMI? (y/n): ")
                  ("S3 object '" ++ Py.str (VStr bucket) ++ "' deleted.")
                  ("S3 object '" ++ Py.str (VStr bucket) ++ "' not deleted.")
                  (AWSImageCreator.delete_s3_object self (VStr object) (VStr bucket)
                     (VStr region))
                  (s3_rm self bucket object region)
                  (set_procs w post) bad l rest
                  (fun w0 => eq_refl)
                  (Forall_impl _ (fun a => proj2 (rejected_iff a)) Hbad)
                  Hin (proj2 (says_yes_iff l) Hl)) as Hloop.
    destruct (already_in_use cmd reg);
      rewrite (bind_ret _ _ _ Hloop);
      unfold ret, raise; cbn [after Py.str]; fold prompt;
      rewrite app_nil_r, <- app_comm_cons, <- !app_assoc; reflexivity. }
  split; [exact Hrun|].
  rewrite Hrun; unfold trace_of; cbn [snd].
  change (ERun (import_cmd self object bucket region)
          :: rounds (json_loads w) (poll_cmd self import_task_id region) pre
          ++ ?l)%list
    with ([ERun (import_cmd self object bucket region)]
          ++ rounds (json_loads w) (poll_cmd self import_task_id region) pre
          ++ l)%list.
  rewrite !filter_app.
  rewrite (filter_none _ _
             (@existsb_rounds (is_verb "s3" "rm") (json_loads w)
                (poll_cmd self import_task_id region) pre
                eq_refl (fun _ => eq_refl) (fun _ => eq_refl))).
  rewrite (filter_none _ _
             (@existsb_reprompts (is_verb "s3" "rm") prompt bad eq_refl eq_refl)).
  destruct (already_in_use cmd reg); reflexivity.
Qed.

(** ** Facts about strings *)

Section StringFacts.

Lemma append_nil_r s : s ++ "" = s.
Proof. induction s as [|a s IH]; cbn; [reflexivity | now rewrite IH]. Qed.

Lemma append_assoc s1 s2 s3 : (s1 ++ s2) ++ s3 = s1 ++ (s2 ++ s3).
Proof. induction s1 as [|a s1 IH]; cbn; [reflexivity | now rewrite IH]. Qed.

Lemma length_append s1 s2 :
  String.length (s1 ++ s2) = String.length s1 + String.length s2.
Proof. induction s1 as [|a s1 IH]; cbn; [reflexivity | now rewrite IH]. Qed.

Lemma chars_append s1 s2 :
  list_ascii_of_string (s1 ++ s2)
  = (list_ascii_of_string s1 ++ list_ascii_of_string s2)%list.
Proof. induction s1 as [|a s1 IH]; cbn; [reflexivity | now rewrite IH]. Qed.

Lemma chars_inj s1 s2 :
  list_ascii_of_string s1 = list_ascii_of_string s2 -> s1 = s2.
Proof.
  intros H; rewrite <- (string_of_list_ascii_of_string s1),
                    <- (string_of_list_ascii_of_string s2); now rewrite H.
Qed.

Lemma append_inv_head s a b : s ++ a = s ++ b -> a = b.
Proof. induction s as [|c s IH]; cbn; [auto | intros [= H]; auto]. Qed.

Lemma append_inv_tail s a b : a ++ s = b ++ s -> a = b.
Proof.
  intros H; apply chars_inj.
  apply (f_equal list_ascii_of_string) in H.
  rewrite !chars_append in H; now apply app_inv_tail in H.
Qed.

Lemma prefix_append s t : prefix s (s ++ t) = true.
Proof.
  induction s as [|a s IH]; cbn; [now destruct t|].
  destruct (ascii_dec a a); [exact IH | congruence].
Qed.

(** [split('\n')] *)

Lemma split_on_whole c s : no_char c s = true -> PyStr.split_on c s = [s].
Proof.
  induction s as [|a s IH]; cbn; [reflexivity|].
  intros H; apply andb_prop in H as [Ha Hs]; apply negb_true_iff in Ha.
  now rewrite Ha, IH.
Qed.

Lemma split_on_first c h t :
  no_char c h = true ->
  PyStr.split_on c (h ++ String c t) = h :: PyStr.split_on c t.
Proof.
  induction h as [|a h IH]; cbn.
  - intros _; now rewrite Ascii.eqb_refl.
  - intros H; apply andb_prop in H as [Ha Hs]; apply negb_true_iff in Ha.
    now rewrite Ha, IH.
Qed.

(** The second line of a text whose first two lines are [h] and [l]. *)
Lemma second_line h l tail :
  no_char newline h = true -> no_char newline l = true ->
  tail = "" \/ (exists tail', tail = String newline tail') ->
  Py.index (PyStr.split_on newline (h ++ String newline (l ++ tail))) 1 = Ok l.
Proof.
  intros Hh Hl Htail; rewrite split_on_first by assumption.
  destruct Htail as [-> | (tail' & ->)].
  - now rewrite append_nil_r, split_on_whole by assumption.
  - now rewrite split_on_first by assumption.
Qed.

(** [split()] *)

Lemma split_ws_lead lead s :
  all_space lead = true -> PyStr.split_ws (lead ++ s) = PyStr.split_ws s.
Proof.
  induction lead as [|a lead IH]; cbn; [reflexivity|].
  intros H; apply andb_prop in H as [Ha Hs]; now rewrite Ha, IH.
Qed.

Lemma split_ws_token tok rest :
  tok <> "" -> no_space tok = true -> ends_token rest = true ->
  PyStr.split_ws (tok ++ rest) = tok :: PyStr.split_ws rest.
Proof.
  unfold ends_token; rewrite negb_true_iff; intros Hne Htok Hrest.
  induction tok as [|a tok IH]; [congruence|].
  cbn [no_space] in Htok; apply andb_prop in Htok as [Ha Htok];
    apply negb_true_iff in Ha.
  cbn [append PyStr.split_ws]; rewrite Ha.
  destruct tok as [|b tok].
  - cbn [append]; now rewrite Hrest.
  - assert (Hb : PyStr.starts_token (String b tok ++ rest) = true).
    { cbn [no_space] in Htok; cbn [append PyStr.starts_token].
      now apply andb_prop in Htok as [-> _]. }
    rewrite Hb, IH by (congruence || assumption); reflexivity.
Qed.

Lemma ends_token_gap gap s :
  gap <> "" -> all_space gap = true -> ends_token (gap ++ s) = true.
Proof.
  destruct gap as [|a gap]; [congruence|].
  cbn [all_space append]; unfold ends_token; cbn [PyStr.starts_token]; intros _ H.
  apply andb_prop in H as [-> _]; reflexivity.
Qed.

(** The tokens of a line that starts with two of them. *)
Lemma two_tokens lead name gap project trail :
  all_space lead = true ->
  name <> "" -> no_space name = true ->
  gap <> "" -> all_space gap = true ->
  project <> "" -> no_space project = true ->
  ends_token trail = true ->
  PyStr.split_ws (lead ++ name ++ gap ++ project ++ trail)
  = name :: project :: PyStr.split_ws trail.
Proof.
  intros Hlead Hn1 Hn2 Hg1 Hg2 Hp1 Hp2 Htrail.
  rewrite split_ws_lead by assumption.
  rewrite split_ws_token by (assumption || now apply ends_token_gap).
  rewrite split_ws_lead by assumption.
  now rewrite split_ws_token by assumption.
Qed.

End StringFacts.

(** ** The import on GCP: the reply and the resource path *)

(** The first answer that says no ends the prompt as well. *)
Lemma confirm_loop_no prompt deleted kept on_yes w bad l rest :
  Forall (fun a => rejected a = true) bad ->
  stdin w = (bad ++ l :: rest)%list ->
  says_no l = true ->
  while_true (confirm prompt on_yes deleted kept) w =
  (Ret tt, set_stdin w rest, (reprompts prompt bad ++ [EInput prompt; EPrint kept])%list).
Proof.
  intros Hbad Hin Hn.
  rewrite (@confirm_skip prompt deleted kept on_yes bad w (l :: rest) Hbad Hin).
  rewrite (while_true_leave _ _
             (@confirm_no prompt deleted kept on_yes (set_stdin w (l :: rest))
                l rest eq_refl (says_no_not_yes l Hn) Hn)).
  reflexivity.
Qed.

Lemma confirm_loop_answered prompt deleted kept on_yes rm w bad l rest :
  (forall w0, on_yes w0 = (Ret tt, w0, [ERun rm])) ->
  Forall (fun a => ~ (a = "y" \/ a = "Y" \/ a = "n" \/ a = "N")) bad ->
  stdin w = (bad ++ l :: rest)%list ->
  l = "y" \/ l = "Y" \/ l = "n" \/ l = "N" ->
  exists t,
    while_true (confirm prompt on_yes deleted kept) w = (Ret tt, set_stdin w rest, t).
Proof.
  intros Hrun Hbad Hin Hl.
  assert (Hbad' : Forall (fun a => rejected a = true) bad)
    by (eapply Forall_impl; [|exact Hbad]; intros a; apply rejected_iff).
  assert (Hl' : (l = "y" \/ l = "Y") \/ (l = "n" \/ l = "N")) by tauto.
  destruct Hl' as [Hy | Hn].
  - eexists; apply (@confirm_loop_yes prompt deleted kept on_yes rm w bad l rest);
      auto; now apply says_yes_iff.
  - eexists; apply (@confirm_loop_no prompt deleted kept on_yes w bad l rest);
      auto; now apply says_no_iff.
Qed.

Section GcpImport.
Variables (self : GCPImageCreator.t) (object bucket : string) (boot : option string).

Lemma gcp_create_argv :
  Py.argv
    (if Py.eq_str (of_option boot) "uefi" then
       [VStr (GCPImageCreator.gcp_cli_path self); VStr "compute"; VStr "images";
        VStr "create";
        VStr ("image-" ++ PyStr.replace "-image.tar" ""
                (fst (OsPath.splitext (OsPath.basename object))));
        VStr "--source-uri";
        VStr ("gs://" ++ Py.str (VStr bucket) ++ "/" ++ OsPath.basename object);
        VStr "--guest-os-features=UEFI_COMPATIBLE,VIRTIO_SCSI_MULTIQUEUE,SEV_CAPABLE"]
     else
       [VStr (GCPImageCreator.gcp_cli_path self); VStr "compute"; VStr "images";
        VStr "create";
        VStr ("image-" ++ PyStr.replace "-image.tar" ""
                (fst (OsPath.splitext (OsPath.basename object))));
        VStr "--source-uri";
        VStr ("gs://" ++ Py.str (VStr bucket) ++ "/" ++ OsPath.basename object)])
  = Some (gcp_create_cmd self object bucket boot).
Proof. unfold gcp_create_cmd; destruct (Py.eq_str _ _); reflexivity. Qed.

(** A reply with exit status 0 whose second line starts with the name
    and the project of the image: what is left is the cleanup and the
    [return] of the resource path. *)
Lemma gcp_create_image_run delete_after_import w r post
      header lead name gap project trail tail :
  procs w = r :: post ->
  reply_code r = 0%Z ->
  reply_out r
  = header ++ String newline ((lead ++ name ++ gap ++ project ++ trail) ++ tail) ->
  no_char newline header = true ->
  no_char newline (lead ++ name ++ gap ++ project ++ trail) = true ->
  tail = "" \/ (exists tail', tail = String newline tail') ->
  all_space lead = true ->
  name <> "" -> no_space name = true ->
  gap <> "" -> all_space gap = true ->
  project <> "" -> no_space project = true ->
  ends_token trail = true ->
  GCPImageCreator.create_image self (VStr object) (VStr bucket) (of_option boot)
    delete_after_import w =
  after [ERun (gcp_create_cmd self object bucket boot);
         EPrint ("Image created: " ++ name)]
    (bind
       (if delete_after_import
        then GCPImageCreator.delete self (VStr (OsPath.basename object)) (VStr bucket)
        else GCPImageCreator.prompt_delete self (VStr (OsPath.basename object))
               (VStr bucket))
       (fun _ => ret (VStr ("projects/" ++ project ++ "/global/images/" ++ name)))
       (set_procs w post)).
Proof.
  intros Hp Hcode Hout Hh Hl Htail Hlead Hn1 Hn2 Hg1 Hg2 Hp1 Hp2 Htrail.
  unfold GCPImageCreator.create_image.
  cbn [basename_of eval]; rewrite (bind_ret _ _ _ eq_refl); cbv zeta.
  rewrite (bind_ret _ _ w (capture_argv _ w gcp_create_argv Hp)).
  cbv beta; cbn [returncode stdout]; rewrite Hcode; cbn [Z.eqb negb].
  pose proof (@second_line header _ tail Hh Hl Htail) as Hsecond.
  unfold newline in Hout, Hsecond; rewrite Hout, Hsecond.
  cbn [eval]; rewrite (bind_ret _ _ _ eq_refl).
  rewrite (@two_tokens lead name gap project trail
             Hlead Hn1 Hn2 Hg1 Hg2 Hp1 Hp2 Htrail).
  cbn [Py.index nth_error eval].
  rewrite !(bind_ret _ _ _ eq_refl).
  rewrite !after_nil, !after_after; reflexivity.
Qed.

End GcpImport.

(** C6. On GCP, when the create-image command exits with status 0 and
    prints a text whose first line is a header and whose second line
    starts with the name of the image and its project, separated by white
    space, the import returns [projects/<project>/global/images/<name>]:
    at once when the object is deleted without asking, and as soon as the
    operator has answered when he is asked. *)
Theorem gcp_create_image_returns_resource_path
  (self : GCPImageCreator.t) (object bucket : string) (boot : option string)
  (delete_after_import : bool) (w : World) (r : Reply) (post : list Reply)
  (header lead name gap project trail tail : string) :
  procs w = r :: post ->
  reply_code r = 0%Z ->
  reply_out r
  = header ++ String newline ((lead ++ name ++ gap ++ project ++ trail) ++ tail) ->
  no_char newline header = true ->
  no_char newline (lead ++ name ++ gap ++ project ++ trail) = true ->
  tail = "" \/ (exists tail', tail = String newline tail') ->
  all_space lead = true ->
  name <> "" -> no_space name = true ->
  gap <> "" -> all_space gap = true ->
  project <> "" -> no_space project = true ->
  ends_token trail = true ->
  let run :=
    GCPImageCreator.create_image self (VStr object) (VStr bucket) (of_option boot)
      delete_after_import w in
  let path := "projects/" ++ project ++ "/global/images/" ++ name in
  (delete_after_import = true ->
   run = (Ret (VStr path), set_procs w post,
          [ERun (gcp_create_cmd self object bucket boot);
           EPrint ("Image created: " ++ name);
           ERun (gcp_rm self bucket (OsPath.basename object))]))
  /\
  (delete_after_import = false ->
   forall bad l rest,
     Forall (fun a => ~ (a = "y" \/ a = "Y" \/ a = "n" \/ a = "N")) bad ->
     stdin w = (bad ++ l :: rest)%list ->
     l = "y" \/ l = "Y" \/ l = "n" \/ l = "N" ->
     outcome_of run = Ret (VStr path) /\
     world_of run = set_stdin (set_procs w post) rest).
Proof.
  intros Hp Hcode Hout Hh Hl Htail Hlead Hn1 Hn2 Hg1 Hg2 Hp1 Hp2 Htrail run path.
  assert (Hrun : run = _) by
    exact (@gcp_create_image_run self object bucket boot delete_after_import w r post
             header lead name gap project trail tail
             Hp Hcode Hout Hh Hl Htail Hlead Hn1 Hn2 Hg1 Hg2 Hp1 Hp2 Htrail).
  split; intros Hdel; rewrite Hdel in Hrun.
  - rewrite Hrun; reflexivity.
  - intros bad l rest Hbad Hin Hanswer.
    rewrite gcp_prompt_confirm in Hrun; cbn [Py.str] in Hrun.
    destruct (@confirm_loop_answered
                ("Do you want to delete the gcloud object '"
                 ++ OsPath.basename object ++ "' after import? (y/n): ")
                ("Google cloud object '" ++ OsPath.basename object ++ "' deleted.")
                ("Google cloud object '" ++ OsPath.basename object ++ "' not deleted.")
                (GCPImageCreator.delete self (VStr (OsPath.basename object)) (VStr bucket))
                (gcp_rm self bucket (OsPath.basename object))
                (set_procs w post) bad l rest (fun w0 => eq_refl) Hbad Hin Hanswer)
      as (t & Hprompt).
    rewrite (bind_ret _ _ _ Hprompt) in Hrun.
    rewrite Hrun; split; reflexivity.
Qed.

(** ** The driver checks its input first *)

Lemma is_set_iff o : is_set o = true <-> exists s, o = Some s /\ s <> "".
Proof.
  unfold is_set; destruct o as [s|]; cbn [of_option Py.truthy].
  - rewrite negb_true_iff, String.eqb_neq; split.
    + intros H; now exists s.
    + intros (s' & [= <-] & H); exact H.
  - split; [discriminate | intros (s & [=] & _)].
Qed.

(** C7. When the archive and the raw image are both given, or neither
    is, [main] prints the message about the input and returns: no
    archive is unpacked, no command is run, the operator is not asked and
    the environment is as it was. *)
Theorem main_rejects_both_or_neither (args : Args.t) (w : World) :
  (is_set (Args.path args) = false -> is_set (Args.image args) = false ->
   main args w =
   (Ret tt, w,
    [EPrint "Either -p or -i option is required. Use --help for more information."]))
  /\
  (is_set (Args.path args) = true -> is_set (Args.image args) = true ->
   main args w =
   (Ret tt, w,
    [EPrint "Both -p and -i options cannot be used together. Use --help for more information."]))
  /\
  (is_set (Args.path args) = is_set (Args.image args) ->
   existsb is_backend (trace_of (main args w)) = false /\
   world_of (main args w) = w /\ outcome_of (main args w) = Ret tt).
Proof.
  unfold is_set, main; split; [|split].
  - intros -> ->; reflexivity.
  - intros -> ->; reflexivity.
  - intros ->; destruct (Py.truthy (of_option (Args.image args)));
      cbn [negb andb]; repeat split.
Qed.

(** ** The names the uploads return *)

Lemma aws_upload_run self path bucket region w :
  AWSImageCreator.upload_to_s3 self (VStr path) (VStr bucket) (VStr region) w =
  (Ret (VStr (aws_object_name path (clock w (ticks w)))),
   set_ticks w (S (ticks w)),
   [ERun [AWSImageCreator.aws_cli_path self; "s3"; "cp"; path;
          "s3://" ++ bucket ++ "/" ++ aws_object_name path (clock w (ticks w));
          "--region"; region]]).
Proof. reflexivity. Qed.

Lemma azure_upload_run self path container account w :
  AzureImageCreator.upload self (VStr path) (VStr container) (VStr account) w =
  (Ret (VStr (azure_blob_name path (clock w (ticks w)))),
   set_ticks w (S (ticks w)),
   [ERun [AzureImageCreator.az_cli_path self; "storage"; "blob"; "upload";
          "--account-name"; account; "--file"; path;
          "--container-name"; container;
          "--name"; azure_blob_name path (clock w (ticks w))]]).
Proof. reflexivity. Qed.

Lemma gcp_upload_run self path bucket w :
  GCPImageCreator.upload_to_bucket self (VStr path) (VStr bucket) w =
  (Ret (VStr path), w,
   [ERun [GCPImageCreator.gcp_util_path self; "-m"; "cp"; "-n"; path;
          "gs://" ++ bucket]]).
Proof. reflexivity. Qed.

Lemma aws_object_name_inj path ts ts' :
  aws_object_name path ts = aws_object_name path ts' -> ts = ts'.
Proof.
  unfold aws_object_name; intros H.
  apply append_inv_head in H; apply append_inv_head in H.
  now apply append_inv_tail in H.
Qed.

Lemma azure_blob_name_inj path ts ts' :
  azure_blob_name path ts = azure_blob_name path ts' -> ts = ts'.
Proof.
  unfold azure_blob_name; intros H.
  apply append_inv_head in H; apply append_inv_head in H.
  now apply append_inv_tail in H.
Qed.

(** C5, as the code has it. The name the upload returns is, on AWS, the
    base name without its extension, an underscore, the time stamp and
    [.raw]; on Azure, the base name without its extension, an underscore,
    the time stamp and the extension of the file; on GCP, the path it was
    given, unchanged.  On AWS and on Azure two uploads of one file at
    distinct time stamps return distinct names. *)
Theorem upload_object_names
  (aws : AWSImageCreator.t) (az : AzureImageCreator.t) (gcp : GCPImageCreator.t)
  (local_file_path bucket region storage_account_name : string) (w : World) :
  let timestamp := clock w (ticks w) in
  let s3 w0 :=
    outcome_of (AWSImageCreator.upload_to_s3 aws (VStr local_file_path)
                  (VStr bucket) (VStr region) w0) in
  let blob w0 :=
    outcome_of (AzureImageCreator.upload az (VStr local_file_path)
                  (VStr bucket) (VStr storage_account_name) w0) in
  s3 w = Ret (VStr (fst (OsPath.splitext (OsPath.basename local_file_path))
                    ++ "_" ++ timestamp ++ ".raw"))
  /\ blob w = Ret (VStr (fst (OsPath.splitext (OsPath.basename local_file_path))
                         ++ "_" ++ timestamp
                         ++ snd (OsPath.splitext (OsPath.basename local_file_path))))
  /\ outcome_of (GCPImageCreator.upload_to_bucket gcp (VStr local_file_path)
                   (VStr bucket) w) = Ret (VStr local_file_path)
  /\ (forall w', clock w' (ticks w') <> timestamp -> s3 w' <> s3 w /\ blob w' <> blob w).
Proof.
  intros timestamp s3 blob; unfold s3, blob.
  repeat split; try reflexivity.
  - rewrite !aws_upload_run; cbv [outcome_of fst]; intros [= E].
    now apply aws_object_name_inj in E.
  - rewrite !azure_upload_run; cbv [outcome_of fst]; intros [= E].
    now apply azure_blob_name_inj in E.
Qed.

Lemma upload_object_names_witness :
  clock (silent_world "20240101000001") 0 <> "20240101000000" /\
  outcome_of (AWSImageCreator.upload_to_s3 AWSImageCreator.init (VStr "out/disk.raw")
                (VStr "b") (VStr "us-east-1") (silent_world "20240101000001"))
  <> outcome_of (AWSImageCreator.upload_to_s3 AWSImageCreator.init (VStr "out/disk.raw")
                   (VStr "b") (VStr "us-east-1") (silent_world "20240101000000")).
Proof.
  assert (H : clock (silent_world "20240101000001") 0 <> "20240101000000")
    by (cbn; discriminate).
  split; [exact H|].
  exact (proj1 (proj2 (proj2 (proj2
           (upload_object_names AWSImageCreator.init AzureImageCreator.init
              GCPImageCreator.init "out/disk.raw" "b" "us-east-1" "acct"
              (silent_world "20240101000000"))))
           (silent_world "20240101000001") H)).
Defined.

(** C5, as the specification has it, fails: on GCP the name that comes
    back carries no time stamp, so that two uploads at distinct time
    stamps return the same name; on AWS the extension of the file is not
    kept. *)
Lemma upload_name_not_of_spec_form :
  (outcome_of (GCPImageCreator.upload_to_bucket GCPImageCreator.init
                 (VStr "disk.tar.gz") (VStr "b") (silent_world "20240101000000"))
   = Ret (VStr "disk.tar.gz")
   /\ ~ spec_name_form "disk.tar.gz" "20240101000000" "disk.tar.gz"
   /\ outcome_of (GCPImageCreator.upload_to_bucket GCPImageCreator.init
                    (VStr "disk.tar.gz") (VStr "b") (silent_world "20240101000001"))
      = Ret (VStr "disk.tar.gz"))
  /\
  (outcome_of (AWSImageCreator.upload_to_s3 AWSImageCreator.init
                 (VStr "disk.vhd") (VStr "b") (VStr "us-east-1")
                 (silent_world "20240101000000"))
   = Ret (VStr "disk_20240101000000.raw")
   /\ ~ spec_name_form "disk.vhd" "20240101000000" "disk_20240101000000.raw").
Proof.
  repeat split.
  - intros (sep & H); apply (f_equal String.length) in H.
    cbn [OsPath.basename OsPath.splitext] in H; vm_compute fst in H; vm_compute snd in H.
    rewrite !length_append in H; cbn [String.length] in H; lia.
  - intros (sep & H); apply (f_equal list_ascii_of_string) in H.
    vm_compute fst in H; vm_compute snd in H.
    rewrite !chars_append in H; apply (f_equal (@rev ascii)) in H.
    rewrite !rev_app_distr in H; cbn in H; discriminate H.
Qed.

(** ** What the cleanup on AWS removes *)

Lemma bind_raise_never_returns {A B} (m : M A) (e : exn) w (v : B) :
  outcome_of (bind m (fun _ => raise e) w) <> Ret v.
Proof.
  unfold bind, raise; destruct (m w) as [[[a| e' | | ] w'] t];
    cbv [outcome_of fst after]; discriminate.
Qed.

Section AwsCleanup.
Variables (self : AWSImageCreator.t) (object bucket region : string)
          (boot : option string).
Variables (w : World) (r0 : Reply) (pre : list Reply) (t reg : Reply)
          (post : list Reply) (import_task_id : string) (s snapshot : value).

Hypothesis script : procs w = r0 :: (pre ++ t :: reg :: post)%list.
Hypothesis started : task_id_of (json_loads w) r0 = Some import_task_id.
Hypothesis waited : Forall (fun r => active (json_loads w) r = true) pre.
Hypothesis status : status_of (json_loads w) t = Some s.
Hypothesis completed : Py.eq_str s "completed" = true.
Hypothesis snapshot_id : detail_of (json_loads w) t "SnapshotId" = Some snapshot.

Let cmd := register_cmd self object (Py.str snapshot) region boot.
Let import del :=
  AWSImageCreator.import_snapshot_and_create_ami self (VStr object) (VStr bucket)
    (of_option boot) del (VStr region) w.
Let before :=
  (ERun (import_cmd self object bucket region)
   :: rounds (json_loads w) (poll_cmd self import_task_id region) pre
   ++ [ERun (poll_cmd self import_task_id region); ERun cmd])%list.

(** With [--delete] the command that is run removes
    [s3://<object>/<bucket>]: [delete_s3_object] takes the object first
    and the importer passes the bucket first. *)
Lemma aws_auto_delete_swaps :
  already_in_use cmd reg = false ->
  import true =
  (Ret (VStr (PyStr.strip (reply_out reg))), set_procs w post,
   (before ++ [EPrint ("AMI ID: " ++ PyStr.strip (reply_out reg));
               ERun (s3_rm self object bucket region)])%list).
Proof.
  intros Huse; unfold import.
  rewrite (@import_success self object bucket region boot true
             w r0 pre t reg post import_task_id s snapshot
             script started waited status completed snapshot_id).
  fold cmd; rewrite Huse; reflexivity.
Qed.

(** When the reply to the registration says 'already in use' the two
    lines are printed and the cleanup is run, but the import never
    returns: the identifier it is to return was not bound. *)
Lemma aws_already_in_use_never_returns del v :
  already_in_use cmd reg = true ->
  outcome_of (import del) <> Ret v.
Proof.
  intros Huse; unfold import.
  rewrite (@import_success self object bucket region boot del
             w r0 pre t reg post import_task_id s snapshot
             script started waited status completed snapshot_id).
  fold cmd; rewrite Huse, !outcome_after.
  apply bind_raise_never_returns.
Qed.

Lemma aws_already_in_use_raises :
  already_in_use cmd reg = true ->
  import true =
  (Raise UnboundLocalError, set_procs w post,
   (before ++ [EPrint "This snapshot is already in use:";
               EPrint (str_completed (registered cmd reg));
               ERun (s3_rm self object bucket region)])%list).
Proof.
  intros Huse; unfold import.
  rewrite (@import_success self object bucket region boot true
             w r0 pre t reg post import_task_id s snapshot
             script started waited status completed snapshot_id).
  fold cmd; rewrite Huse; reflexivity.
Qed.

End AwsCleanup.

Lemma azure_auto_delete_run self (blob region group container account : string)
      w r post j id :
  procs w = r :: post ->
  reply_code r = 0%Z ->
  json_loads w (reply_out r) = Some j ->
  Py.getitem j "id" = Ok id ->
  AzureImageCreator.create_image_from_blob self (VStr blob) true (VStr region)
    (VStr group) (VStr container) (VStr account) w =
  (Ret id, set_procs (set_ticks w (S (ticks w))) post,
   [ERun (azure_create_cmd self blob region group container account
            (clock w (ticks w)));
    EPrint "Resulting blob ID:"; EPrint (Py.str id);
    ERun (azure_rm self blob container account)]).
Proof.
  intros Hp Hcode Hj Hid.
  unfold AzureImageCreator.create_image_from_blob.
  rewrite (bind_ret _ _ _ eq_refl); cbv zeta.
  rewrite (bind_ret _ _ (set_ticks w (S (ticks w)))
             (a := registered (azure_create_cmd self blob region group container
                                 account (clock w (ticks w))) r)
             (w' := set_procs (set_ticks w (S (ticks w))) post)
             (t := [ERun (azure_create_cmd self blob region group container
                            account (clock w (ticks w)))]))
    by (now apply capture_argv).
  cbv beta; cbn [returncode stdout registered]; rewrite Hcode; cbn [Z.eqb negb].
  rewrite (bind_ret _ _ _ (loads_ok _ (set_procs (set_ticks w (S (ticks w))) post) Hj)).
  rewrite (bind_ret _ _ _ eq_refl), Hid; cbn [eval].
  rewrite (bind_ret _ _ _ eq_refl), (bind_ret _ _ _ eq_refl).
  rewrite (bind_ret _ _ _ (a := tt) (t := [ERun (azure_rm self blob container account)])
             eq_refl).
  rewrite (bind_ret _ _ _ eq_refl).
  reflexivity.
Qed.

(** ** The scenarios of the specification *)

(** C1. The scenario of the specification for AWS with [--delete]: the
    image is uploaded as [s3://b/disk_20240101000000.raw], and the command
    that is to delete it names [s3://disk_20240101000000.raw/b], bucket
    and object swapped. *)
Theorem aws_auto_delete_names_swapped_url :
  main (Scenario.args true)
    (Scenario.world [Scenario.task; Scenario.active_42; Scenario.completed;
                     Scenario.ami] []) =
  (Ret tt,
   set_ticks (Scenario.world [] []) 1,
   [Scenario.upload_event;
    EPrint "Uploaded as: disk_20240101000000.raw";
    Scenario.import_event;
    Scenario.poll_event;
    EPrint "Import task status: active. Waiting...";
    EPrint "Current progress: 42";
    ESleep 10;
    Scenario.poll_event;
    Scenario.register_event;
    EPrint "AMI ID: ami-1";
    ERun ["aws"; "s3"; "rm"; "s3://disk_20240101000000.raw/b";
          "--region"; "us-east-1"];
    EPrint "Resulting AMI ID: ami-1"]).
Proof. vm_compute; reflexivity. Qed.

(** C2. When the reply to the registration says 'already in use', the
    two lines are printed and the cleanup is run, and then the job ends
    with an [UnboundLocalError]. *)
Theorem aws_already_in_use_ends_in_error :
  main (Scenario.args true)
    (Scenario.world [Scenario.task; Scenario.active_silent; Scenario.completed;
                     Scenario.in_use] []) =
  (Raise UnboundLocalError,
   set_ticks (Scenario.world [] []) 1,
   [Scenario.upload_event;
    EPrint "Uploaded as: disk_20240101000000.raw";
    Scenario.import_event;
    Scenario.poll_event;
    EPrint "Import task status: active. Waiting...";
    EPrint "No more progress";
    ESleep 10;
    Scenario.poll_event;
    Scenario.register_event;
    EPrint "This snapshot is already in use:";
    EPrint "CompletedProcess(args=['aws', 'ec2', 'register-image', '--name', 'disk_20240101000000.raw', '--architecture', 'x86_64', '--block-device-mappings', 'DeviceName=/dev/sda1,Ebs={SnapshotId=snap-1}', '--virtualization-type', 'hvm', '--root-device-name', '/dev/sda1', '--region', 'us-east-1', '--ena-support'], returncode=254, stdout='', stderr='An error occurred (InvalidParameterValue): snap-1 is already in use by ami-0')";
    ERun ["aws"; "s3"; "rm"; "s3://disk_20240101000000.raw/b";
          "--region"; "us-east-1"]]).
Proof. vm_compute; reflexivity. Qed.

Lemma polling_stops_at_terminal_status_witness :
  Forall (fun r => active Scenario.loads r = true)
    [Scenario.active_42; Scenario.active_silent] /\
  while_true (AWSImageCreator.poll AWSImageCreator.init (VStr "import-snap-1")
                (VStr "us-east-1"))
    (Scenario.world [Scenario.active_42; Scenario.active_silent; Scenario.completed;
                     Scenario.ami] []) =
  (Ret (Break (Scenario.status_json "completed" [("SnapshotId", VStr "snap-1")])),
   Scenario.world [Scenario.ami] [],
   (rounds Scenario.loads (poll_cmd AWSImageCreator.init "import-snap-1" "us-east-1")
      [Scenario.active_42; Scenario.active_silent]
    ++ [Scenario.poll_event])%list).
Proof.
  assert (Hact : Forall (fun r => active Scenario.loads r = true)
                   [Scenario.active_42; Scenario.active_silent])
    by (repeat constructor).
  split; [exact Hact|].
  exact (proj1
           (proj2 (proj2
              (polling_stops_at_terminal_status AWSImageCreator.init
                 "import-snap-1" "us-east-1"
                 (Scenario.world [Scenario.active_42; Scenario.active_silent;
                                  Scenario.completed; Scenario.ami] [])
                 Hact))
              Scenario.completed [Scenario.ami]
              (Scenario.status_json "completed" [("SnapshotId", VStr "snap-1")])
              (VStr "completed") eq_refl eq_refl eq_refl)
           eq_refl).
Defined.

Lemma import_error_skips_registration_and_cleanup_witness :
  existsb (is_verb "ec2" "register-image")
    (trace_of
       (AWSImageCreator.import_snapshot_and_create_ami AWSImageCreator.init
          (VStr "disk_20240101000000.raw") (VStr "b") (of_option None) true
          (VStr "us-east-1")
          (Scenario.world [Scenario.task; Scenario.failed; Scenario.ami] []))) = false.
Proof.
  exact (proj1 (proj2
           (@import_error_skips_registration_and_cleanup AWSImageCreator.init
              "disk_20240101000000.raw" "b" "us-east-1" None true
              (Scenario.world [Scenario.task; Scenario.failed; Scenario.ami] [])
              Scenario.task [] Scenario.failed [Scenario.ami] "import-snap-1"
              (VStr "error") eq_refl eq_refl (Forall_nil _) eq_refl eq_refl))).
Defined.

Lemma aws_prompted_delete_targets_bucket_object_witness :
  trace_of
    (AWSImageCreator.import_snapshot_and_create_ami AWSImageCreator.init
       (VStr "disk_20240101000000.raw") (VStr "b") (of_option None) false
       (VStr "us-east-1")
       (Scenario.world [Scenario.task; Scenario.active_42; Scenario.completed;
                        Scenario.ami] ["maybe"; "Y"; "n"])) =
  [Scenario.import_event;
   Scenario.poll_event;
   EPrint "Import task status: active. Waiting...";
   EPrint "Current progress: 42";
   ESleep 10;
   Scenario.poll_event;
   Scenario.register_event;
   EPrint "AMI ID: ami-1";
   EInput "Do you want to delete the S3 object 'b' after import as an AMI? (y/n): ";
   EPrint "Invalid input. Please enter 'y' for yes or 'n' for no.";
   EInput "Do you want to delete the S3 object 'b' after import as an AMI? (y/n): ";
   ERun ["aws"; "s3"; "rm"; "s3://b/disk_20240101000000.raw"; "--region"; "us-east-1"];
   EPrint "S3 object 'b' deleted."]
  /\
  (outcome_of
     (AWSImageCreator.import_snapshot_and_create_ami AWSImageCreator.init
        (VStr "disk_20240101000000.raw") (VStr "b") (of_option None) false
        (VStr "us-east-1")
        (Scenario.world [Scenario.task; Scenario.completed; Scenario.in_use] ["y"]))
   = Raise UnboundLocalError
   /\
   filter (is_verb "s3" "rm")
     (trace_of
        (AWSImageCreator.import_snapshot_and_create_ami AWSImageCreator.init
           (VStr "disk_20240101000000.raw") (VStr "b") (of_option None) false
           (VStr "us-east-1")
           (Scenario.world [Scenario.task; Scenario.completed; Scenario.in_use]
              ["y"])))
   = [ERun ["aws"; "s3"; "rm"; "s3://b/disk_20240101000000.raw";
            "--region"; "us-east-1"]]).
Proof.
  assert (Hbad : Forall (fun a => ~ (a = "y" \/ a = "Y" \/ a = "n" \/ a = "N"))
                   ["maybe"]).
  { constructor; [|constructor]; intros [H | [H | [H | H]]]; discriminate H. }
  assert (Hact : Forall (fun r => active Scenario.loads r = true) [Scenario.active_42])
    by (repeat constructor).
  split.
  - exact (f_equal (@trace_of value)
             (proj1
                (@aws_prompted_delete_targets_bucket_object AWSImageCreator.init
                   "disk_20240101000000.raw" "b" "us-east-1" None
                   (Scenario.world [Scenario.task; Scenario.active_42;
                                    Scenario.completed; Scenario.ami]
                      ["maybe"; "Y"; "n"])
                   Scenario.task [Scenario.active_42] Scenario.completed Scenario.ami
                   [] "import-snap-1" (VStr "completed") (VStr "snap-1")
                   ["maybe"] "Y" ["n"]
                   eq_refl eq_refl Hact
                   eq_refl eq_refl eq_refl Hbad eq_refl (or_intror eq_refl)))).
  - pose proof
      (@aws_prompted_delete_targets_bucket_object AWSImageCreator.init
         "disk_20240101000000.raw" "b" "us-east-1" None
         (Scenario.world [Scenario.task; Scenario.completed; Scenario.in_use] ["y"])
         Scenario.task [] Scenario.completed Scenario.in_use
         [] "import-snap-1" (VStr "completed") (VStr "snap-1")
         [] "y" []
         eq_refl eq_refl (Forall_nil _)
         eq_refl eq_refl eq_refl (Forall_nil _) eq_refl (or_introl eq_refl))
      as [Hrun Hrm].
    split; [exact (f_equal (@outcome_of value) Hrun) | exact Hrm].
Defined.

Lemma gcp_create_image_returns_resource_path_witness :
  GCPImageCreator.create_image GCPImageCreator.init (VStr "out/disk-image.tar.gz")
    (VStr "b") (of_option (Some "uefi")) true
    (Scenario.world
       [mkReply 0 ("NAME  PROJECT  STATUS" ++ String newline "img-x proj-y") ""] []) =
  (Ret (VStr "projects/proj-y/global/images/img-x"),
   Scenario.world [] [],
   [ERun ["gcloud"; "compute"; "images"; "create"; "image-disk"; "--source-uri";
          "gs://b/disk-image.tar.gz";
          "--guest-os-features=UEFI_COMPATIBLE,VIRTIO_SCSI_MULTIQUEUE,SEV_CAPABLE"];
    EPrint "Image created: img-x";
    ERun ["gcloud"; "storage"; "rm"; "gs://b/disk-image.tar.gz"]]).
Proof.
  exact (proj1
           (@gcp_create_image_returns_resource_path GCPImageCreator.init
              "out/disk-image.tar.gz" "b" (Some "uefi") true
              (Scenario.world
                 [mkReply 0 ("NAME  PROJECT  STATUS" ++ String newline "img-x proj-y") ""]
                 [])
              (mkReply 0 ("NAME  PROJECT  STATUS" ++ String newline "img-x proj-y") "")
              [] "NAME  PROJECT  STATUS" "" "img-x" " " "proj-y" "" ""
              eq_refl eq_refl eq_refl eq_refl eq_refl (or_introl eq_refl) eq_refl
              ltac:(discriminate) eq_refl ltac:(discriminate) eq_refl
              ltac:(discriminate) eq_refl eq_refl)
           eq_refl).
Defined.

Lemma main_rejects_both_or_neither_witness :
  main Scenario.neither (Scenario.world [Scenario.task] ["y"]) =
  (Ret tt, Scenario.world [Scenario.task] ["y"],
   [EPrint "Either -p or -i option is required. Use --help for more information."])
  /\
  main Scenario.both (Scenario.world [Scenario.task] ["y"]) =
  (Ret tt, Scenario.world [Scenario.task] ["y"],
   [EPrint "Both -p and -i options cannot be used together. Use --help for more information."])
  /\
  existsb is_backend
    (trace_of (main Scenario.both (Scenario.world [Scenario.task] ["y"]))) = false.
Proof.
  split; [|split].
  - exact (proj1 (main_rejects_both_or_neither Scenario.neither
                    (Scenario.world [Scenario.task] ["y"])) eq_refl eq_refl).
  - exact (proj1 (proj2 (main_rejects_both_or_neither Scenario.both
                           (Scenario.world [Scenario.task] ["y"]))) eq_refl eq_refl).
  - exact (proj1 (proj2 (proj2 (main_rejects_both_or_neither Scenario.both
                                  (Scenario.world [Scenario.task] ["y"]))) eq_refl)).
Defined.

(** ** The progress of the import task is only shown *)

Lemma lookup_update k f kvs :
  Py.lookup k (update k f kvs) = option_map f (Py.lookup k kvs).
Proof.
  induction kvs as [|[k' x] r IH]; [reflexivity|]; cbn [update Py.lookup].
  destruct (k' =? k) eqn:E; cbn [Py.lookup]; rewrite E; [reflexivity | exact IH].
Qed.

Lemma lookup_remove_key k k' kvs :
  k' <> k -> Py.lookup k' (remove_key k kvs) = Py.lookup k' kvs.
Proof.
  intros Hne; induction kvs as [|[k0 x] r IH]; [reflexivity|].
  cbn [remove_key Py.lookup].
  destruct (k0 =? k) eqn:E; cbn [Py.lookup].
  - apply String.eqb_eq in E; subst k0.
    apply not_eq_sym, String.eqb_neq in Hne; now rewrite Hne.
  - now rewrite IH.
Qed.

Lemma task_detail_drop_progress j field :
  field <> "Progress" ->
  AWSImageCreator.task_detail (drop_progress j) field
  = AWSImageCreator.task_detail j field.
Proof.
  intros Hne; unfold AWSImageCreator.task_detail, drop_progress.
  destruct j as [| | | | |? |kvs]; try reflexivity.
  cbn [Py.getitem]; rewrite lookup_update.
  destruct (Py.lookup "ImportSnapshotTasks" kvs) as [tasks|]; [|reflexivity].
  cbn [option_map].
  destruct tasks as [| | | | |[|task others] |?]; try reflexivity.
  cbn [Py.getitem0].
  destruct task as [| | | | |? |tk]; try reflexivity.
  cbn [Py.getitem]; rewrite lookup_update.
  destruct (Py.lookup "SnapshotTaskDetail" tk) as [d|]; [|reflexivity].
  cbn [option_map].
  destruct d as [| | | | |? |dk]; try reflexivity.
  cbn [Py.getitem]; now rewrite lookup_remove_key.
Qed.

Lemma same_but_progress_detail dec r1 r2 field :
  same_but_progress dec r1 r2 -> field <> "Progress" ->
  detail_of dec r1 field = detail_of dec r2 field.
Proof.
  intros (j1 & j2 & H1 & H2 & Hdrop) Hne; unfold detail_of; rewrite H1, H2.
  rewrite <- (task_detail_drop_progress j1 Hne), <- (task_detail_drop_progress j2 Hne).
  now rewrite Hdrop.
Qed.

Lemma same_but_progress_active dec r1 r2 :
  same_but_progress dec r1 r2 -> active dec r1 = true -> active dec r2 = true.
Proof.
  intros Hsim; unfold active, status_of.
  rewrite (same_but_progress_detail (field := "Status") Hsim); [auto | discriminate].
Qed.

Lemma progress_report_is_progress_line j :
  is_progress_line (EPrint (progress_report j)) = true.
Proof.
  unfold progress_report, is_progress_line.
  destruct (AWSImageCreator.task_detail j "Progress") as [p|e].
  - now rewrite prefix_append.
  - reflexivity.
Qed.

Lemma without_progress_round dec cmd r1 r2 :
  same_but_progress dec r1 r2 ->
  without_progress (round dec cmd r1) = without_progress (round dec cmd r2).
Proof.
  intros Hsim.
  pose proof (same_but_progress_detail (field := "Status") Hsim) as Hstatus.
  destruct Hsim as (j1 & j2 & H1 & H2 & _).
  unfold detail_of in Hstatus; rewrite H1, H2 in Hstatus.
  unfold round; rewrite H1, H2.
  destruct (AWSImageCreator.task_detail j1 "Status") as [s1|];
    destruct (AWSImageCreator.task_detail j2 "Status") as [s2|];
    try reflexivity; try (specialize (Hstatus ltac:(discriminate)); discriminate).
  specialize (Hstatus ltac:(discriminate)); injection Hstatus as ->.
  unfold without_progress; cbn [filter].
  rewrite !progress_report_is_progress_line; reflexivity.
Qed.

Lemma without_progress_rounds dec cmd ps1 ps2 :
  Forall2 (same_but_progress dec) ps1 ps2 ->
  without_progress (rounds dec cmd ps1) = without_progress (rounds dec cmd ps2).
Proof.
  unfold rounds, without_progress; induction 1 as [|r1 r2 ps1 ps2 Hr _ IH];
    [reflexivity|].
  cbn [flat_map]; rewrite !filter_app, IH.
  f_equal; now apply without_progress_round.
Qed.

Lemma Forall2_active dec ps1 ps2 :
  Forall2 (same_but_progress dec) ps1 ps2 ->
  Forall (fun r => active dec r = true) ps1 ->
  Forall (fun r => active dec r = true) ps2.
Proof.
  induction 1 as [|r1 r2 ps1 ps2 Hr _ IH]; intros Hact; [constructor|].
  inversion Hact; subst; constructor; [|auto].
  now apply (same_but_progress_active Hr).
Qed.

(** C9. Two runs of the import whose replies to the status queries, while
    the task is neither completed nor failed, differ at most in the
    progress they report (present in one, absent or different in the
    other) end alike: the same value returned or the same exception, the
    same replies and input left, and the same trace but for the lines
    about the progress. *)
Theorem progress_does_not_change_the_outcome
  (self : AWSImageCreator.t) (object bucket region : string) (boot : option string)
  (delete_after_import : bool) (w : World) (r0 : Reply) (ps1 ps2 rest : list Reply)
  (import_task_id : string) :
  procs w = r0 :: (ps1 ++ rest)%list ->
  task_id_of (json_loads w) r0 = Some import_task_id ->
  Forall (fun r => active (json_loads w) r = true) ps1 ->
  Forall2 (same_but_progress (json_loads w)) ps1 ps2 ->
  let import :=
    AWSImageCreator.import_snapshot_and_create_ami self (VStr object) (VStr bucket)
      (of_option boot) delete_after_import (VStr region) in
  let run1 := import w in
  let run2 := import (set_procs w (r0 :: (ps2 ++ rest)%list)) in
  outcome_of run1 = outcome_of run2
  /\ world_of run1 = world_of run2
  /\ without_progress (trace_of run1) = without_progress (trace_of run2).
Proof.
  intros Hp Hid Hact Hsim import run1 run2.
  assert (H1 : run1 = _) by
    exact (@import_polls self object bucket region boot delete_after_import
             w r0 ps1 rest import_task_id Hp Hid Hact).
  assert (H2 : run2 = _) by
    exact (@import_polls self object bucket region boot delete_after_import
             (set_procs w (r0 :: (ps2 ++ rest)%list)) r0 ps2 rest import_task_id
             eq_refl Hid (Forall2_active Hsim Hact)).
  rewrite set_procs_twice in H2; cbn [json_loads set_procs] in H2.
  rewrite H1, H2, !outcome_after, !world_after, !trace_after.
  repeat split.
  unfold without_progress; rewrite !filter_app; f_equal.
  cbn [filter is_progress_line negb]; f_equal.
  exact (without_progress_rounds _ Hsim).
Qed.

Lemma progress_does_not_change_the_outcome_witness :
  same_but_progress Scenario.loads Scenario.active_42 Scenario.active_silent /\
  outcome_of
    (AWSImageCreator.import_snapshot_and_create_ami AWSImageCreator.init
       (VStr "disk_20240101000000.raw") (VStr "b") (of_option None) true
       (VStr "us-east-1")
       (Scenario.world [Scenario.task; Scenario.active_42; Scenario.completed;
                        Scenario.ami] []))
  = outcome_of
      (AWSImageCreator.import_snapshot_and_create_ami AWSImageCreator.init
         (VStr "disk_20240101000000.raw") (VStr "b") (of_option None) true
         (VStr "us-east-1")
         (Scenario.world [Scenario.task; Scenario.active_silent; Scenario.completed;
                          Scenario.ami] [])).
Proof.
  assert (Hsim : same_but_progress Scenario.loads Scenario.active_42
                   Scenario.active_silent).
  { exists (Scenario.status_json "active" [("Progress", VStr "42")]),
           (Scenario.status_json "active" []).
    repeat split. }
  assert (Hact : Forall (fun r => active Scenario.loads r = true) [Scenario.active_42])
    by (repeat constructor).
  split; [exact Hsim|].
  exact (proj1
           (@progress_does_not_change_the_outcome AWSImageCreator.init
              "disk_20240101000000.raw" "b" "us-east-1" None true
              (Scenario.world [Scenario.task; Scenario.active_42; Scenario.completed;
                               Scenario.ami] [])
              Scenario.task [Scenario.active_42] [Scenario.active_silent]
              [Scenario.completed; Scenario.ami] "import-snap-1"
              eq_refl eq_refl Hact (Forall2_cons _ _ Hsim (Forall2_nil _)))).
Defined.


(** ** The loops always end or wait *)

Lemma confirm_never_diverges prompt deleted kept cmd w :
  outcome_of (while_true (confirm prompt (subprocess_run cmd) deleted kept) w)
  <> Diverge.
Proof.
  apply while_true_total; [apply confirm_consuming|].
  intros w0; unfold confirm, bind, input, subprocess_run.
  destruct (stdin w0) as [|l rest];
    [unfold end_of_input; destruct (stdin_closed w0); cbv [outcome_of fst];
     discriminate|].
  cbv zeta beta iota.
  destruct (PyStr.lower l =? "y").
  - destruct (Py.argv cmd); cbv [outcome_of fst after emit raise print ret];
      discriminate.
  - destruct (PyStr.lower l =? "n"); cbv [outcome_of fst after emit print ret];
      discriminate.
Qed.

Lemma poll_never_diverges self import_task_id region w :
  outcome_of (while_true (AWSImageCreator.poll self import_task_id region) w)
  <> Diverge.
Proof.
  apply while_true_total; [apply poll_consuming|].
  intros w0; unfold AWSImageCreator.poll, bind, subprocess_run_capture.
  destruct (Py.argv _) as [c|]; [|cbv [outcome_of fst raise]; discriminate].
  destruct (procs w0) as [|r rest]; [cbv [outcome_of fst]; discriminate|].
  unfold loads; cbn [json_loads set_procs stdout].
  destruct (json_loads w0 _) as [j|]; [|cbv [outcome_of fst]; discriminate].
  destruct (AWSImageCreator.task_detail j "Status") as [s|e];
    [|cbv [outcome_of fst eval raise after]; discriminate].
  cbn [eval ret after].
  destruct (Py.eq_str s "completed");
    [cbv [outcome_of fst after ret]; discriminate|].
  destruct (Py.eq_str s "error");
    [cbv [outcome_of fst after ret print emit bind]; discriminate|].
  unfold try_except, bind, print, sleep, emit, ret.
  destruct (AWSImageCreator.task_detail j "Progress") as [p|e];
    cbv [outcome_of fst eval ret raise after]; discriminate.
Qed.

(** ** Further runs *)

(** The prompt on AWS, called as the importer calls it, on the answers
    x, Yes, Y, n: two answers are rejected, the third deletes, the fourth
    is left unread. *)
Example aws_prompt_run :
  AWSImageCreator.prompt_delete_s3_object AWSImageCreator.init
    (VStr "b") (VStr "disk.raw") (VStr "us-east-1")
    (Scenario.world [] ["x"; "Yes"; "Y"; "n"]) =
  (Ret tt, Scenario.world [] ["n"],
   [EInput "Do you want to delete the S3 object 'b' after import as an AMI? (y/n): ";
    EPrint invalid_input;
    EInput "Do you want to delete the S3 object 'b' after import as an AMI? (y/n): ";
    EPrint invalid_input;
    EInput "Do you want to delete the S3 object 'b' after import as an AMI? (y/n): ";
    ERun ["aws"; "s3"; "rm"; "s3://b/disk.raw"; "--region"; "us-east-1"];
    EPrint "S3 object 'b' deleted."]).
Proof. vm_compute; reflexivity. Qed.

(** The prompt at a closed console: the answer is rejected, the prompt
    is shown again, and the end of the input ends the run. *)
Example aws_prompt_closed_console :
  AWSImageCreator.prompt_delete_s3_object AWSImageCreator.init
    (VStr "b") (VStr "disk.raw") (VStr "us-east-1")
    (closed_console (Scenario.world [] ["x"])) =
  (Raise EOFError, closed_console (Scenario.world [] []),
   [EInput "Do you want to delete the S3 object 'b' after import as an AMI? (y/n): ";
    EPrint invalid_input;
    EInput "Do you want to delete the S3 object 'b' after import as an AMI? (y/n): "]).
Proof. vm_compute; reflexivity. Qed.

(** A reply that reads 'already in use' only in the way [repr] shows it:
    the character 26 is shown as [\x1a]. *)
Example already_in_use_in_repr :
  already_in_use ["aws"; "ec2"; "register-image"]
    (mkReply 0 (String "026" "lready in use") "") = true.
Proof. reflexivity. Qed.

(** The import that fails at the first poll, as [main] shows it. *)
Example aws_error_run :
  main (Scenario.args true) (Scenario.world [Scenario.task; Scenario.failed] []) =
  (Ret tt, set_ticks (Scenario.world [] []) 1,
   [Scenario.upload_event;
    EPrint "Uploaded as: disk_20240101000000.raw";
    Scenario.import_event;
    Scenario.poll_event;
    EPrint "Error: Import task failed. Exiting.";
    EPrint "Resulting AMI ID: None"]).
Proof. vm_compute; reflexivity. Qed.

(** An archive path that is the empty string counts as not given: with a
    raw image next to it the run goes on to the upload. *)
Example main_empty_path_is_not_set :
  trace_of
    (main {| Args.path := Some ""; Args.image := Some "disk.raw"; Args.cloud := "gcp";
             Args.boot := None; Args.bucket := Some "b"; Args.delete := true;
             Args.region := None; Args.resource_group := None;
             Args.storage_account_name := None |}
       (Scenario.world [] [])) =
  [ERun ["gsutil"; "-m"; "cp"; "-n"; "disk.raw"; "gs://b"];
   EPrint "Uploaded as: disk.raw";
   ERun ["gcloud"; "compute"; "images"; "create"; "image-disk"; "--source-uri";
         "gs://b/disk.raw"]].
Proof. vm_compute; reflexivity. Qed.

(** * Further properties

    What the code does on the paths the properties above leave out: the
    imports that fail, the archives without an image, and what no run
    ever does. *)

(** ** The imports on Azure and GCP that fail *)

Lemma azure_create_query self (blob region group container account : string) w r post :
  procs w = r :: post ->
  subprocess_run_capture
    [VStr (AzureImageCreator.az_cli_path self); VStr "image"; VStr "create";
     VStr "--resource-group"; VStr group;
     VStr "--name"; VStr (Py.str (VStr blob) ++ "-" ++ clock w (ticks w));
     VStr "--source";
     VStr ("https://" ++ Py.str (VStr account) ++ ".blob.core.windows.net/"
           ++ Py.str (VStr container) ++ "/" ++ Py.str (VStr blob));
     VStr "--os-type"; VStr "Linux";
     VStr "--location"; VStr region] (set_ticks w (S (ticks w))) =
  (Ret (registered (azure_create_cmd self blob region group container account
                      (clock w (ticks w))) r),
   set_procs (set_ticks w (S (ticks w))) post,
   [ERun (azure_create_cmd self blob region group container account
            (clock w (ticks w)))]).
Proof. intros Hp; now apply capture_argv. Qed.

(** X1. When [az image create] exits with a status other than 0, the
    import on Azure prints the error output and returns [None]: the reply
    is not decoded, the blob is not deleted and the operator is not asked,
    whatever the cleanup policy. *)
Theorem azure_create_failure_returns_none
  (self : AzureImageCreator.t) (blob region group container account : string)
  (delete_after_import : bool) (w : World) (r : Reply) (post : list Reply) :
  procs w = r :: post ->
  reply_code r <> 0%Z ->
  AzureImageCreator.create_image_from_blob self (VStr blob) delete_after_import
    (VStr region) (VStr group) (VStr container) (VStr account) w =
  (Ret VNone, set_procs (set_ticks w (S (ticks w))) post,
   [ERun (azure_create_cmd self blob region group container account
            (clock w (ticks w)));
    EPrint ("Error creating the image: " ++ reply_err r)]).
Proof.
  intros Hp Hcode.
  unfold AzureImageCreator.create_image_from_blob.
  rewrite (bind_ret _ _ _ eq_refl); cbv zeta.
  rewrite (bind_ret _ _ _ (@azure_create_query self blob region group container
                             account w r post Hp)).
  cbv beta; cbn [returncode stderr registered].
  apply Z.eqb_neq in Hcode; rewrite Hcode; cbn [negb].
  reflexivity.
Qed.

(** X2. The same on GCP: a status other than 0 from [gcloud compute images
    create] gives the error output and [None], and the uploaded object is
    neither deleted nor asked about. *)
Theorem gcp_create_failure_returns_none
  (self : GCPImageCreator.t) (object bucket : string) (boot : option string)
  (delete_after_import : bool) (w : World) (r : Reply) (post : list Reply) :
  procs w = r :: post ->
  reply_code r <> 0%Z ->
  GCPImageCreator.create_image self (VStr object) (VStr bucket) (of_option boot)
    delete_after_import w =
  (Ret VNone, set_procs w post,
   [ERun (gcp_create_cmd self object bucket boot);
    EPrint ("Error creating the image: " ++ reply_err r)]).
Proof.
  intros Hp Hcode.
  unfold GCPImageCreator.create_image.
  cbn [basename_of eval]; rewrite (bind_ret _ _ _ eq_refl); cbv zeta.
  rewrite (bind_ret _ _ w (capture_argv _ w (gcp_create_argv self object bucket boot) Hp)).
  cbv beta; cbn [returncode stderr].
  apply Z.eqb_neq in Hcode; rewrite Hcode; cbn [negb].
  reflexivity.
Qed.

(** X3. A reply with status 0 that does not have the expected shape ends
    the import on GCP with an [IndexError] right after the command: when
    the output is a single line, and when its second line holds fewer than
    two words.  The image exists by then, and the uploaded object is not
    deleted. *)
Theorem gcp_create_short_output_raises
  (self : GCPImageCreator.t) (object bucket : string) (boot : option string)
  (delete_after_import : bool) (w : World) (r : Reply) (post : list Reply) :
  procs w = r :: post ->
  reply_code r = 0%Z ->
  let run :=
    GCPImageCreator.create_image self (VStr object) (VStr bucket) (of_option boot)
      delete_after_import w in
  let failed :=
    (Raise IndexError, set_procs w post,
     [ERun (gcp_create_cmd self object bucket boot)]) in
  (no_char newline (reply_out r) = true -> run = failed)
  /\
  (forall header line tail,
     reply_out r = header ++ String newline (line ++ tail) ->
     no_char newline header = true -> no_char newline line = true ->
     tail = "" \/ (exists tail', tail = String newline tail') ->
     length (PyStr.split_ws line) < 2 ->
     run = failed).
Proof.
  intros Hp Hcode run failed; unfold run, failed.
  unfold GCPImageCreator.create_image.
  cbn [basename_of eval]; rewrite (bind_ret _ _ _ eq_refl); cbv zeta.
  rewrite (bind_ret _ _ w (capture_argv _ w (gcp_create_argv self object bucket boot) Hp)).
  cbv beta; cbn [returncode stdout]; rewrite Hcode; cbn [Z.eqb negb].
  split.
  - intros Hone.
    pose proof (split_on_whole newline (reply_out r) Hone) as Hsplit.
    unfold newline in Hsplit; rewrite Hsplit; reflexivity.
  - intros header line tail Hout Hh Hl Htail Hshort.
    pose proof (@second_line header line tail Hh Hl Htail) as Hsecond.
    unfold newline in Hout, Hsecond; rewrite Hout, Hsecond.
    cbn [eval]; rewrite (bind_ret _ _ _ eq_refl).
    destruct (PyStr.split_ws line) as [|a [|b l]]; cbn [length] in Hshort;
      try lia; reflexivity.
Qed.

(** X5. When the reply of [az image create] has status 0 but cannot be
    decoded, or is decoded to something without the key ['id'], the import
    on Azure ends with the exception before the cleanup: the blob stays. *)
Theorem azure_create_bad_reply_raises
  (self : AzureImageCreator.t) (blob region group container account : string)
  (delete_after_import : bool) (w : World) (r : Reply) (post : list Reply) :
  procs w = r :: post ->
  reply_code r = 0%Z ->
  let run :=
    AzureImageCreator.create_image_from_blob self (VStr blob) delete_after_import
      (VStr region) (VStr group) (VStr container) (VStr account) w in
  let create :=
    ERun (azure_create_cmd self blob region group container account
            (clock w (ticks w))) in
  let w' := set_procs (set_ticks w (S (ticks w))) post in
  (json_loads w (reply_out r) = None ->
   run = (Raise JSONDecodeError, w', [create]))
  /\
  (forall j e,
     json_loads w (reply_out r) = Some j ->
     Py.getitem j "id" = Err e ->
     run = (Raise e, w', [create; EPrint "Resulting blob ID:"])).
Proof.
  intros Hp Hcode run create w'; unfold run, create, w'.
  unfold AzureImageCreator.create_image_from_blob.
  rewrite (bind_ret _ _ _ eq_refl); cbv zeta.
  rewrite (bind_ret _ _ _ (@azure_create_query self blob region group container
                             account w r post Hp)).
  cbv beta; cbn [returncode stdout registered]; rewrite Hcode; cbn [Z.eqb negb].
  split.
  - intros Hj.
    rewrite (bind_raise _ _ (set_procs (set_ticks w (S (ticks w))) post)
               (e := JSONDecodeError)
               (w' := set_procs (set_ticks w (S (ticks w))) post) (t := []))
      by (unfold loads; cbn [json_loads set_procs set_ticks]; now rewrite Hj).
    reflexivity.
  - intros j e Hj Hid.
    rewrite (bind_ret _ _ _ (loads_ok _ (set_procs (set_ticks w (S (ticks w))) post) Hj)).
    rewrite (bind_ret _ _ _ eq_refl), Hid; cbn [eval].
    reflexivity.
Qed.

(** ** The imports on AWS that end with an exception *)

Lemma poll_argv_not_string self (v : value) (region : string) :
  (forall s, v <> VStr s) ->
  Py.argv
    [VStr (AWSImageCreator.aws_cli_path self); VStr "ec2";
     VStr "describe-import-snapshot-tasks"; VStr "--import-task-ids";
     v; VStr "--region"; VStr region] = None.
Proof. intros Hv; destruct v; try reflexivity; now destruct (Hv s). Qed.

Lemma import_request self (object bucket region : string) w r0 rest :
  procs w = r0 :: rest ->
  subprocess_run_capture
    [VStr (AWSImageCreator.aws_cli_path self); VStr "ec2"; VStr "import-snapshot";
     VStr "--disk-container";
     VStr ("Format=raw,UserBucket={S3Bucket=" ++ Py.str (VStr bucket)
           ++ ",S3Key=" ++ Py.str (VStr object) ++ "}");
     VStr "--description"; VStr "Imported snapshot from raw file";
     VStr "--region"; VStr region] w =
  (Ret (registered (import_cmd self object bucket region) r0),
   set_procs w rest, [ERun (import_cmd self object bucket region)]).
Proof. intros Hp; now apply capture_argv. Qed.

(** X6. What the reply to the import request must hold. If it cannot be
    decoded the import ends with the decoder's error; if it is decoded to
    something that is not a dictionary, with an [AttributeError]; if the
    dictionary has no ['ImportTaskId'], or one that is not a string, with
    a [TypeError] when the first status query is built.  In each case the
    import request is the only command that was run. *)
Theorem aws_import_needs_task_id
  (self : AWSImageCreator.t) (object bucket region : string) (boot : option string)
  (delete_after_import : bool) (w : World) (r0 : Reply) (rest : list Reply) :
  procs w = r0 :: rest ->
  let run :=
    AWSImageCreator.import_snapshot_and_create_ami self (VStr object) (VStr bucket)
      (of_option boot) delete_after_import (VStr region) w in
  let ends_with (e : exn) :=
    run = (Raise e, set_procs w rest, [ERun (import_cmd self object bucket region)]) in
  (json_loads w (PyStr.strip (reply_out r0)) = None -> ends_with JSONDecodeError)
  /\
  (forall j0,
     json_loads w (PyStr.strip (reply_out r0)) = Some j0 ->
     (forall kvs, j0 <> VDict kvs) ->
     ends_with AttributeError)
  /\
  (forall kvs,
     json_loads w (PyStr.strip (reply_out r0)) = Some (VDict kvs) ->
     (forall s, Py.lookup "ImportTaskId" kvs <> Some (VStr s)) ->
     ends_with TypeError).
Proof.
  intros Hp run ends_with; unfold ends_with, run.
  unfold AWSImageCreator.import_snapshot_and_create_ami.
  rewrite (bind_ret _ _ _ (@import_request self object bucket region w r0 rest Hp)).
  cbv zeta beta; cbn [stdout registered].
  split; [|split].
  - intros Hj.
    rewrite (bind_raise _ _ (set_procs w rest) (e := JSONDecodeError)
               (w' := set_procs w rest) (t := []))
      by (unfold loads; cbn [json_loads set_procs]; now rewrite Hj).
    reflexivity.
  - intros j0 Hj Hdict.
    rewrite (bind_ret _ _ _ (loads_ok _ (set_procs w rest) Hj)).
    assert (Hget : Py.get j0 "ImportTaskId" = Err AttributeError)
      by (destruct j0; try reflexivity; now destruct (Hdict kvs)).
    rewrite Hget; reflexivity.
  - intros kvs Hj Hid.
    rewrite (bind_ret _ _ _ (loads_ok _ (set_procs w rest) Hj)).
    cbn [Py.get].
    assert (Hv : forall s,
               match Py.lookup "ImportTaskId" kvs with
               | Some x => x | None => VNone end <> VStr s).
    { intros s; destruct (Py.lookup "ImportTaskId" kvs) as [x|] eqn:E;
        [intros ->; now apply (Hid s) | discriminate]. }
    destruct (Py.lookup "ImportTaskId" kvs) as [x|]; cbn [eval];
      rewrite (bind_ret _ _ _ eq_refl);
      (rewrite (bind_raise _ _ (set_procs w rest) (e := TypeError)
                  (w' := set_procs w rest) (t := []));
       [reflexivity|]);
      apply while_true_raise; unfold AWSImageCreator.poll, subprocess_run_capture;
      rewrite (poll_argv_not_string self region Hv); reflexivity.
Qed.

(** X8. A reply to a status query that cannot be decoded, or that lacks
    the path to the status, ends the import with the exception: the loop
    does not go on, nothing is registered and the uploaded object stays. *)
Theorem aws_bad_status_reply_raises
  (self : AWSImageCreator.t) (object bucket region : string) (boot : option string)
  (delete_after_import : bool) (w : World) (r0 : Reply) (pre : list Reply)
  (t : Reply) (post : list Reply) (import_task_id : string) :
  procs w = r0 :: (pre ++ t :: post)%list ->
  task_id_of (json_loads w) r0 = Some import_task_id ->
  Forall (fun r => active (json_loads w) r = true) pre ->
  let run :=
    AWSImageCreator.import_snapshot_and_create_ami self (VStr object) (VStr bucket)
      (of_option boot) delete_after_import (VStr region) w in
  let ends_with (e : exn) :=
    run =
    (Raise e, set_procs w post,
     ERun (import_cmd self object bucket region)
     :: (rounds (json_loads w) (poll_cmd self import_task_id region) pre
         ++ [ERun (poll_cmd self import_task_id region)])%list) in
  (json_loads w (PyStr.strip (reply_out t)) = None -> ends_with JSONDecodeError)
  /\
  (forall j e,
     json_loads w (PyStr.strip (reply_out t)) = Some j ->
     AWSImageCreator.task_detail j "Status" = Err e ->
     ends_with e).
Proof.
  intros script started waited run ends_with; unfold ends_with, run.
  rewrite (@import_polls self object bucket region boot delete_after_import
             w r0 pre (t :: post) import_task_id script started waited).
  split.
  - intros Hj.
    rewrite (bind_raise _ _ (set_procs w (t :: post)) (e := JSONDecodeError)
               (w' := set_procs w post)
               (t := [ERun (poll_cmd self import_task_id region)])).
    + reflexivity.
    + apply while_true_raise; unfold AWSImageCreator.poll.
      rewrite (bind_ret _ _ _ (@poll_query self import_task_id region
                                 (set_procs w (t :: post)) t post eq_refl)).
      cbv zeta beta; cbn [stdout].
      rewrite (bind_raise _ _ (set_procs (set_procs w (t :: post)) post)
                 (e := JSONDecodeError)
                 (w' := set_procs (set_procs w (t :: post)) post) (t := []))
        by (unfold loads; cbn [json_loads set_procs]; now rewrite Hj).
      reflexivity.
  - intros j e Hj Hs.
    rewrite (bind_raise _ _ (set_procs w (t :: post)) (e := e)
               (w' := set_procs w post)
               (t := [ERun (poll_cmd self import_task_id region)])).
    + reflexivity.
    + apply while_true_raise; unfold AWSImageCreator.poll.
      rewrite (bind_ret _ _ _ (@poll_query self import_task_id region
                                 (set_procs w (t :: post)) t post eq_refl)).
      cbv zeta beta; cbn [stdout].
      rewrite (bind_ret _ _ _ (loads_ok _ (set_procs (set_procs w (t :: post)) post) Hj)).
      rewrite Hs; reflexivity.
Qed.

(** X7. A reply that says 'completed' but names no snapshot ends the
    import with the exception of the missing key: the image is not
    registered and the cleanup is not reached. *)
Theorem aws_completed_without_snapshot_raises
  (self : AWSImageCreator.t) (object bucket region : string) (boot : option string)
  (delete_after_import : bool) (w : World) (r0 : Reply) (pre : list Reply)
  (t : Reply) (post : list Reply) (import_task_id : string) (j s : value) (e : exn) :
  procs w = r0 :: (pre ++ t :: post)%list ->
  task_id_of (json_loads w) r0 = Some import_task_id ->
  Forall (fun r => active (json_loads w) r = true) pre ->
  json_loads w (PyStr.strip (reply_out t)) = Some j ->
  AWSImageCreator.task_detail j "Status" = Ok s ->
  Py.eq_str s "completed" = true ->
  AWSImageCreator.task_detail j "SnapshotId" = Err e ->
  AWSImageCreator.import_snapshot_and_create_ami self (VStr object) (VStr bucket)
    (of_option boot) delete_after_import (VStr region) w =
  (Raise e, set_procs w post,
   ERun (import_cmd self object bucket region)
   :: (rounds (json_loads w) (poll_cmd self import_task_id region) pre
       ++ [ERun (poll_cmd self import_task_id region)])%list).
Proof.
  intros script started waited Hj Hs Hc Hsnap.
  rewrite (@import_polls self object bucket region boot delete_after_import
             w r0 pre (t :: post) import_task_id script started waited).
  rewrite (bind_ret _ _ _
             (while_true_leave _ _
                (@poll_completed self import_task_id region
                   (set_procs w (t :: post)) t post j s eq_refl Hj Hs Hc))).
  cbn [AWSImageCreator.create_ami]; rewrite Hsnap; cbn [eval].
  reflexivity.
Qed.

(** ** Runs that never ask the operator *)

Section Quiet.
Context {A B : Type}.

Lemma quiet_ret (a : A) : quiet (ret a).
Proof. intros w; split; reflexivity. Qed.

Lemma quiet_raise (e : exn) : quiet (@raise A e).
Proof. intros w; split; reflexivity. Qed.

Lemma quiet_eval (r : res A) : quiet (eval r).
Proof. destruct r; [apply quiet_ret | apply quiet_raise]. Qed.

Lemma quiet_bind (m : M A) (k : A -> M B) :
  quiet m -> (forall a, quiet (k a)) -> quiet (bind m k).
Proof.
  intros Hm Hk w; destruct (Hm w) as [Ht Hs]; unfold bind.
  destruct (m w) as [[[a| e | | ] w'] t]; cbn [trace_of world_of fst snd] in *;
    try (split; assumption).
  destruct (Hk a w') as [Ht' Hs'].
  destruct (k a w') as [[o w''] t']; cbn [after trace_of world_of fst snd] in *.
  rewrite existsb_app, Ht, Ht'; split; [reflexivity | congruence].
Qed.

Lemma quiet_try (m h : M A) : quiet m -> quiet h -> quiet (try_except m h).
Proof.
  intros Hm Hh w; destruct (Hm w) as [Ht Hs]; unfold try_except.
  destruct (m w) as [[[a| e | | ] w'] t]; cbn [trace_of world_of fst snd] in *;
    try (split; assumption).
  destruct (Hh w') as [Ht' Hs'].
  destruct (h w') as [[o w''] t']; cbn [after trace_of world_of fst snd] in *.
  rewrite existsb_app, Ht, Ht'; split; [reflexivity | congruence].
Qed.

Lemma quiet_iterate (body : M (option A)) n : quiet body -> quiet (iterate n body).
Proof.
  intros Hb; induction n as [|n IH]; intros w; [split; reflexivity|].
  rewrite iterate_S; destruct (Hb w) as [Ht Hs].
  destruct (body w) as [[[[a|]| e | | ] w'] t]; cbn [trace_of world_of fst snd] in *;
    try (split; assumption).
  destruct (IH w') as [Ht' Hs'].
  destruct (iterate n body w') as [[o w''] t'];
    cbn [after trace_of world_of fst snd] in *.
  rewrite existsb_app, Ht, Ht'; split; [reflexivity | congruence].
Qed.

Lemma quiet_while_true (body : M (option A)) : quiet body -> quiet (while_true body).
Proof. intros Hb w; unfold while_true; now apply quiet_iterate. Qed.

End Quiet.

Lemma quiet_emit e : is_input e = false -> quiet (emit e).
Proof. intros He w; cbn; now rewrite He. Qed.

Lemma quiet_print line : quiet (print line).
Proof. now apply quiet_emit. Qed.

Lemma quiet_sleep n : quiet (sleep n).
Proof. now apply quiet_emit. Qed.

Lemma quiet_now : quiet now_strftime.
Proof. intros w; split; reflexivity. Qed.

Lemma quiet_loads s : quiet (loads s).
Proof. intros w; unfold loads; destruct (json_loads w s); split; reflexivity. Qed.

Lemma quiet_run cmd : quiet (subprocess_run cmd).
Proof.
  unfold subprocess_run; destruct (Py.argv cmd);
    [now apply quiet_emit | apply quiet_raise].
Qed.

Lemma quiet_capture cmd : quiet (subprocess_run_capture cmd).
Proof.
  unfold subprocess_run_capture; destruct (Py.argv cmd); [|apply quiet_raise].
  intros w; destruct (procs w); split; reflexivity.
Qed.

Lemma quiet_unxz dest names : quiet (unxz_members dest names).
Proof.
  induction names as [|name names IH]; [apply quiet_ret|]; cbn [unxz_members].
  apply quiet_bind; [|intros _; exact IH].
  destruct (PyStr.endswith ".xz" name); [now apply quiet_emit | apply quiet_ret].
Qed.

Create HintDb quiet.
#[local] Hint Resolve quiet_ret quiet_raise quiet_eval quiet_print quiet_sleep
  quiet_now quiet_loads quiet_run quiet_capture quiet_unxz : quiet.

Ltac quiet_steps :=
  repeat match goal with
    | |- quiet (bind _ _) => apply quiet_bind; [|intro]
    | |- quiet (try_except _ _) => apply quiet_try
    | |- quiet (while_true _) => apply quiet_while_true
    | |- quiet (emit _) => apply quiet_emit; reflexivity
    | |- quiet (if ?b then _ else _) => destruct b
    | |- quiet (match ?x with _ => _ end) => destruct x
    | |- _ => solve [auto with quiet]
    end.

Lemma quiet_aws_unpack self path : quiet (AWSImageCreator.unpack self path).
Proof.
  intros w; unfold AWSImageCreator.unpack.
  destruct (open_archive w path) as [e | names files];
    refine ((_ : quiet _) w); quiet_steps.
Qed.

Lemma quiet_azure_unpack self path : quiet (AzureImageCreator.unpack self path).
Proof.
  intros w; unfold AzureImageCreator.unpack.
  destruct (open_archive w path) as [e | names files];
    refine ((_ : quiet _) w); quiet_steps.
Qed.

Lemma quiet_gcp_unpack self path : quiet (GCPImageCreator.unpack self path).
Proof.
  intros w; unfold GCPImageCreator.unpack.
  destruct (open_archive w path) as [e | names files];
    refine ((_ : quiet _) w); quiet_steps.
Qed.

Lemma quiet_aws_upload self path bucket region :
  quiet (AWSImageCreator.upload_to_s3 self path bucket region).
Proof. unfold AWSImageCreator.upload_to_s3; quiet_steps. Qed.

Lemma quiet_azure_upload self path container account :
  quiet (AzureImageCreator.upload self path container account).
Proof. unfold AzureImageCreator.upload; quiet_steps. Qed.

Lemma quiet_gcp_upload self path bucket :
  quiet (GCPImageCreator.upload_to_bucket self path bucket).
Proof. unfold GCPImageCreator.upload_to_bucket; quiet_steps. Qed.

Lemma quiet_poll self import_task_id region :
  quiet (AWSImageCreator.poll self import_task_id region).
Proof. unfold AWSImageCreator.poll; quiet_steps. Qed.

Lemma quiet_aws_import self object bucket boot region :
  quiet (AWSImageCreator.import_snapshot_and_create_ami self object bucket boot
           true region).
Proof.
  unfold AWSImageCreator.import_snapshot_and_create_ami; quiet_steps.
  - apply quiet_poll.
  - unfold AWSImageCreator.create_ami, AWSImageCreator.delete_s3_object; quiet_steps.
Qed.

Lemma quiet_azure_import self blob region group container account :
  quiet (AzureImageCreator.create_image_from_blob self blob true region group
           container account).
Proof.
  unfold AzureImageCreator.create_image_from_blob, AzureImageCreator.delete.
  quiet_steps.
Qed.

Lemma quiet_gcp_import self object bucket boot :
  quiet (GCPImageCreator.create_image self object bucket boot true).
Proof.
  unfold GCPImageCreator.create_image, GCPImageCreator.delete; quiet_steps.
Qed.

(** X9. With [--delete] the script never asks the operator: whatever the
    command line, the replies of the tools and the archive, [main] shows
    no prompt and reads nothing from the console. *)
Theorem main_with_delete_never_prompts (args : Args.t) (w : World) :
  Args.delete args = true ->
  existsb is_input (trace_of (main args w)) = false /\
  stdin (world_of (main args w)) = stdin w.
Proof.
  intros Hdel; refine ((_ : quiet _) w).
  unfold main; rewrite Hdel; cbv zeta.
  pose proof quiet_aws_unpack; pose proof quiet_azure_unpack;
    pose proof quiet_gcp_unpack; pose proof quiet_aws_upload;
    pose proof quiet_azure_upload; pose proof quiet_gcp_upload;
    pose proof quiet_aws_import; pose proof quiet_azure_import;
    pose proof quiet_gcp_import.
  quiet_steps.
Qed.

(** ** What [main] hands from the upload to the import *)

Lemma trace_bind_begins {A B} (m : M A) (k : A -> M B) w p t :
  trace_of (m w) = (p ++ t)%list ->
  exists t', trace_of (bind m k w) = (p ++ t')%list.
Proof.
  unfold bind; destruct (m w) as [[[a| e | | ] w'] t0]; cbn [trace_of snd];
    intros ->; try (now eexists).
  rewrite trace_after, <- app_assoc; now eexists.
Qed.

Lemma aws_import_begins self (object bucket region : string) boot del w :
  exists t,
    trace_of (AWSImageCreator.import_snapshot_and_create_ami self (VStr object)
                (VStr bucket) boot del (VStr region) w)
    = ([ERun (import_cmd self object bucket region)] ++ t)%list.
Proof.
  unfold AWSImageCreator.import_snapshot_and_create_ami.
  apply trace_bind_begins with (t := []).
  unfold subprocess_run_capture; cbn [Py.argv option_map Py.str].
  destruct (procs w); reflexivity.
Qed.

Lemma azure_import_begins self (blob region group container account : string) del w :
  exists t,
    trace_of (AzureImageCreator.create_image_from_blob self (VStr blob) del
                (VStr region) (VStr group) (VStr container) (VStr account) w)
    = ([ERun (azure_create_cmd self blob region group container account
                (clock w (ticks w)))] ++ t)%list.
Proof.
  unfold AzureImageCreator.create_image_from_blob.
  rewrite (bind_ret _ _ _ eq_refl), trace_after, app_nil_l; cbv zeta.
  apply trace_bind_begins with (t := []).
  unfold subprocess_run_capture; cbn [Py.argv option_map Py.str].
  destruct (procs (set_ticks w (S (ticks w)))); reflexivity.
Qed.

Lemma gcp_import_begins self (object bucket : string) (boot : option string)
      (boot_mode : value) del w :
  Py.eq_str boot_mode "uefi" = Py.eq_str (of_option boot) "uefi" ->
  exists t,
    trace_of (GCPImageCreator.create_image self (VStr object) (VStr bucket)
                boot_mode del w)
    = ([ERun (gcp_create_cmd self object bucket boot)] ++ t)%list.
Proof.
  intros Hboot; unfold GCPImageCreator.create_image.
  cbn [basename_of eval]; rewrite (bind_ret _ _ _ eq_refl), trace_after, app_nil_l.
  cbv zeta; rewrite Hboot.
  apply trace_bind_begins with (t := []).
  unfold subprocess_run_capture; rewrite gcp_create_argv.
  destruct (procs w); reflexivity.
Qed.

Lemma boot_mode_of_args (boot : option string) :
  Py.eq_str (if Py.truthy (of_option boot) then of_option boot else VNone) "uefi"
  = Py.eq_str (of_option boot) "uefi".
Proof. destruct boot as [[|c s]|]; reflexivity. Qed.


(** ** Archives without an image *)

Lemma unxz_members_run dest names w :
  unxz_members dest names w = (Ret tt, w, unxz_events dest names).
Proof.
  induction names as [|name names IH]; [reflexivity|].
  cbn [unxz_members unxz_events flat_map].
  destruct (PyStr.endswith ".xz" name).
  - rewrite (bind_ret _ _ _ eq_refl), IH; reflexivity.
  - rewrite (bind_ret _ _ _ eq_refl), IH; reflexivity.
Qed.

Lemma unxz_events_no_run dest names :
  existsb is_run (unxz_events dest names) = false.
Proof.
  unfold unxz_events; induction names as [|name names IH]; [reflexivity|].
  cbn [flat_map]; rewrite existsb_app, IH.
  destruct (PyStr.endswith ".xz" name); reflexivity.
Qed.

Lemma aws_unpack_none self p w :
  match tarfile_open w p with
  | BadArchive e =>
      AWSImageCreator.unpack self (VStr p) w
      = (Ret VNone, w, [EPrint ("Unpacking error: " ++ e)])
  | Members names files =>
      first_with_suffix ".raw" files = None ->
      AWSImageCreator.unpack self (VStr p) w
      = (Ret VNone, w,
         EExtract p (AWSImageCreator.path_to_images self)
         :: unxz_events (AWSImageCreator.path_to_images self) names)
  end.
Proof.
  unfold AWSImageCreator.unpack; cbn [open_archive].
  destruct (tarfile_open w p) as [e | names files]; [reflexivity|].
  intros ->.
  rewrite (bind_ret _ _ _ eq_refl), (bind_ret _ _ _ (unxz_members_run _ _ _)).
  cbn [after ret Py.str app]; now rewrite app_nil_r.
Qed.

Lemma azure_unpack_none self p w :
  match tarfile_open w p with
  | BadArchive e =>
      AzureImageCreator.unpack self (VStr p) w
      = (Ret VNone, w, [EPrint ("Unpacking error: " ++ e)])
  | Members names files =>
      first_with_suffix ".vhdfixed" files = None ->
      AzureImageCreator.unpack self (VStr p) w
      = (Ret VNone, w,
         EExtract p (AzureImageCreator.path_to_images self)
         :: unxz_events (AzureImageCreator.path_to_images self) names)
  end.
Proof.
  unfold AzureImageCreator.unpack; cbn [open_archive].
  destruct (tarfile_open w p) as [e | names files]; [reflexivity|].
  intros ->.
  rewrite (bind_ret _ _ _ eq_refl), (bind_ret _ _ _ (unxz_members_run _ _ _)).
  cbn [after ret Py.str app]; now rewrite app_nil_r.
Qed.

(** X11. On AWS and on Azure, an archive that cannot be read, or that
    leaves no file with the suffix of the image in the staging directory,
    makes the unpacker return [None]; [main] passes it on to the upload,
    which ends with a [TypeError] when it takes the base name.  No command
    was run by then: after a failed extraction the trace holds the line
    about the error only, and otherwise the extraction and nothing else. *)
Theorem main_without_image_in_archive_raises
  (args : Args.t) (w : World) (p : string) :
  Args.path args = Some p -> p <> "" ->
  is_set (Args.image args) = false ->
  Args.cloud args = "aws" \/ Args.cloud args = "azure" ->
  (forall e,
     tarfile_open w p = BadArchive e ->
     outcome_of (main args w) = Raise TypeError /\
     trace_of (main args w) = [EPrint ("Unpacking error: " ++ e)])
  /\
  (forall names files,
     tarfile_open w p = Members names files ->
     first_with_suffix (image_suffix (Args.cloud args)) files = None ->
     outcome_of (main args w) = Raise TypeError /\
     trace_of (main args w)
     = EExtract p "cloud_images_val_shared/image/"
       :: unxz_events "cloud_images_val_shared/image/" names /\
     existsb is_run (trace_of (main args w)) = false).
Proof.
  intros Hpath Hne Himage Hcloud; unfold is_set in Himage.
  assert (Hp : Py.truthy (of_option (Args.path args)) = true).
  { rewrite Hpath; cbn; now apply negb_true_iff, String.eqb_neq. }
  assert (Haws := aws_unpack_none AWSImageCreator.init p w).
  assert (Haz := azure_unpack_none AzureImageCreator.init p w).
  split.
  - intros e He; rewrite He in Haws, Haz.
    unfold main; rewrite Hp, Himage, Hpath.
    cbn [negb andb of_option]; cbv zeta.
    destruct Hcloud as [-> | ->]; cbn [String.eqb Ascii.eqb Bool.eqb].
    + rewrite (bind_raise _ _ w (e := TypeError) (w' := set_ticks w (S (ticks w)))
                 (t := [EPrint ("Unpacking error: " ++ e)])); [split; reflexivity|].
      rewrite (bind_ret _ _ _ Haws); reflexivity.
    + rewrite (bind_raise _ _ w (e := TypeError) (w' := w)
                 (t := [EPrint ("Unpacking error: " ++ e)])); [split; reflexivity|].
      rewrite (bind_ret _ _ _ Haz); reflexivity.
  - intros names files Hm Hnone; rewrite Hm in Haws, Haz.
    unfold main; rewrite Hp, Himage, Hpath.
    cbn [negb andb of_option]; cbv zeta.
    destruct Hcloud as [Hc | Hc]; rewrite Hc in *;
      cbn [String.eqb Ascii.eqb Bool.eqb]; unfold image_suffix in Hnone;
      cbn [String.eqb Ascii.eqb Bool.eqb] in Hnone.
    + rewrite (bind_raise _ _ w (e := TypeError) (w' := set_ticks w (S (ticks w)))
                 (t := EExtract p "cloud_images_val_shared/image/"
                       :: unxz_events "cloud_images_val_shared/image/" names)).
      * repeat split; cbn [trace_of snd existsb is_run orb].
        apply unxz_events_no_run.
      * rewrite (bind_ret _ _ _ (Haws Hnone)).
        rewrite (bind_raise _ _ w (e := TypeError) (w' := set_ticks w (S (ticks w)))
                   (t := [])) by reflexivity.
        cbn [after]; now rewrite app_nil_r.
    + rewrite (bind_raise _ _ w (e := TypeError) (w' := w)
                 (t := EExtract p "cloud_images_val_shared/image/"
                       :: unxz_events "cloud_images_val_shared/image/" names)).
      * repeat split; cbn [trace_of snd existsb is_run orb].
        apply unxz_events_no_run.
      * rewrite (bind_ret _ _ _ (Haz Hnone)).
        rewrite (bind_raise _ _ w (e := TypeError) (w' := w) (t := []))
          by reflexivity.
        cbn [after]; now rewrite app_nil_r.
Qed.

Lemma last_tar_gz_none dest names image :
  existsb (PyStr.endswith ".tar.gz") names = false ->
  GCPImageCreator.last_tar_gz dest names image = image.
Proof.
  revert image; induction names as [|name names IH]; intros image; [reflexivity|].
  cbn [existsb GCPImageCreator.last_tar_gz]; intros H.
  apply orb_false_iff in H as [Hn Hs]; rewrite Hn; now apply IH.
Qed.

(** X12. On GCP the unpacker catches nothing and never returns [None].
    An archive that cannot be read ends [main] with the exception, with
    nothing printed and no command run.  An archive without a member that
    ends in [.tar.gz] gives the empty string, and [main] goes on with it:
    it copies the empty path to the bucket and asks for an image called
    [image-] from [gs://<bucket>/]. *)
Theorem main_gcp_archive_without_image
  (args : Args.t) (w : World) (p bucket : string) :
  Args.path args = Some p -> p <> "" ->
  is_set (Args.image args) = false ->
  Args.cloud args = "gcp" ->
  Args.bucket args = Some bucket ->
  (forall e,
     tarfile_open w p = BadArchive e ->
     main args w = (Raise (OSError e), w, []))
  /\
  (forall names files,
     tarfile_open w p = Members names files ->
     existsb (PyStr.endswith ".tar.gz") names = false ->
     exists t,
       trace_of (main args w) =
       ([EExtract p "cloud_images_val_shared/image/";
         EPrint "image_name:";
         ERun ["gsutil"; "-m"; "cp"; "-n"; ""; ("gs://" ++ bucket)%string];
         EPrint "Uploaded as: ";
         ERun (["gcloud"; "compute"; "images"; "create"; "image-"; "--source-uri";
                ("gs://" ++ bucket ++ "/")%string]
               ++ (if Py.eq_str (of_option (Args.boot args)) "uefi"
                   then ["--guest-os-features=UEFI_COMPATIBLE,VIRTIO_SCSI_MULTIQUEUE,SEV_CAPABLE"]
                   else []))] ++ t)%list).
Proof.
  intros Hpath Hne Himage Hcloud Hbucket; unfold is_set in Himage.
  assert (Hp : Py.truthy (of_option (Args.path args)) = true).
  { rewrite Hpath; cbn; now apply negb_true_iff, String.eqb_neq. }
  split.
  - intros e He.
    unfold main; rewrite Hp, Himage, Hpath, Hcloud, Hbucket.
    cbn [negb andb of_option String.eqb Ascii.eqb Bool.eqb]; cbv zeta.
    rewrite (bind_raise _ _ w (e := OSError e) (w' := w) (t := [])); [reflexivity|].
    rewrite (bind_raise _ _ w (e := OSError e) (w' := w) (t := [])); [reflexivity|].
    unfold GCPImageCreator.unpack; cbn [open_archive]; now rewrite He.
  - intros names files Hm Hnone.
    unfold main; rewrite Hp, Himage, Hpath, Hcloud, Hbucket.
    cbn [negb andb of_option String.eqb Ascii.eqb Bool.eqb]; cbv zeta.
    rewrite (bind_ret _ _ w
               (a := VStr "") (w' := w)
               (t := [EExtract p "cloud_images_val_shared/image/";
                      EPrint "image_name:";
                      ERun ["gsutil"; "-m"; "cp"; "-n"; ""; "gs://" ++ bucket];
                      EPrint "Uploaded as: "])).
    + rewrite trace_after.
      destruct (@gcp_import_begins GCPImageCreator.init "" bucket (Args.boot args)
                  (if Py.truthy (of_option (Args.boot args))
                   then of_option (Args.boot args) else VNone)
                  (Args.delete args) w (boot_mode_of_args (Args.boot args)))
        as (t & Ht).
      destruct (@trace_bind_begins _ _ _
                  (fun gcp_name => print ("Resulting image name: " ++ Py.str gcp_name))
                  _ _ _ Ht) as (t' & Ht').
      rewrite Ht'; exists t'; reflexivity.
    + rewrite (bind_ret _ _ w (a := VStr "") (w' := w)
                 (t := [EExtract p "cloud_images_val_shared/image/";
                        EPrint "image_name:"])); [reflexivity|].
      unfold GCPImageCreator.unpack; cbn [open_archive]; rewrite Hm.
      cbn [GCPImageCreator.path_to_images GCPImageCreator.init].
      rewrite (last_tar_gz_none _ _ _ Hnone); reflexivity.
Qed.

(** ** Slashes in base names and extensions *)

Lemma no_char_append c a b : no_char c (a ++ b) = no_char c a && no_char c b.
Proof.
  induction a as [|x a IH]; cbn [append no_char]; [reflexivity|].
  now rewrite IH, andb_assoc.
Qed.

Lemma no_char_substring c s : forall n m,
  no_char c s = true -> no_char c (substring n m s) = true.
Proof.
  induction s as [|a s IH]; intros n m H; [now destruct n, m|].
  cbn [no_char] in H; apply andb_prop in H as [Ha Hs].
  destruct n as [|n]; cbn [substring].
  - destruct m as [|m]; [reflexivity|]; cbn [no_char]; now rewrite Ha, IH.
  - now apply IH.
Qed.

Lemma substring_whole s : substring 0 (String.length s) s = s.
Proof. induction s as [|a s IH]; cbn; [reflexivity | now rewrite IH]. Qed.

Lemma take_drop s : forall n, PyStr.take n s ++ PyStr.drop n s = s.
Proof.
  unfold PyStr.take, PyStr.drop; induction s as [|a s IH]; intros n.
  - now destruct n.
  - destruct n as [|n]; cbn [substring String.length Nat.sub append].
    + rewrite substring_whole; reflexivity.
    + now rewrite IH.
Qed.

Lemma rfind_none c s : PyStr.rfind c s = None -> no_char c s = true.
Proof.
  induction s as [|a s IH]; [reflexivity|]; cbn [PyStr.rfind no_char].
  destruct (PyStr.rfind c s); [discriminate|].
  destruct (Ascii.eqb a c); [discriminate|]; intros _; now rewrite IH.
Qed.

Lemma rfind_drop c s : forall i,
  PyStr.rfind c s = Some i -> no_char c (PyStr.drop (S i) s) = true.
Proof.
  unfold PyStr.drop; induction s as [|a s IH]; intros i; [discriminate|].
  cbn [PyStr.rfind String.length Nat.sub substring].
  destruct (PyStr.rfind c s) as [k|] eqn:E.
  - intros [= <-]; now apply IH.
  - destruct (Ascii.eqb a c); [|discriminate]; intros [= <-].
    rewrite Nat.sub_0_r, substring_whole; now apply rfind_none.
Qed.

Lemma basename_no_slash p : no_char "/" (OsPath.basename p) = true.
Proof.
  unfold OsPath.basename; destruct (PyStr.rfind "/" p) as [i|] eqn:E.
  - now apply rfind_drop.
  - now apply rfind_none.
Qed.

(** [root + ext == path], as the documentation of [os.path.splitext] has it. *)
Lemma splitext_join p : fst (OsPath.splitext p) ++ snd (OsPath.splitext p) = p.
Proof.
  unfold OsPath.splitext; destruct (PyStr.rfind "." p) as [d|];
    [|apply append_nil_r].
  destruct (_ && _); cbn [fst snd]; [apply take_drop | apply append_nil_r].
Qed.

Lemma splitext_no_slash p :
  no_char "/" p = true ->
  no_char "/" (fst (OsPath.splitext p)) = true /\
  no_char "/" (snd (OsPath.splitext p)) = true.
Proof.
  intros H; unfold OsPath.splitext; destruct (PyStr.rfind "." p) as [d|];
    [|now split].
  destruct (_ && _); cbn [fst snd]; [|now split].
  unfold PyStr.take, PyStr.drop; split; now apply no_char_substring.
Qed.

(** ** Words inside a text, and inside what [repr] shows of it *)

Lemma prefix_append_l a s t : prefix a s = true -> prefix a (s ++ t) = true.
Proof.
  revert s; induction a as [|x a IH]; intros s; [intros _; now destruct (s ++ t)|].
  destruct s as [|y s]; cbn [prefix append]; [discriminate|].
  destruct (ascii_dec x y); [apply IH | discriminate].
Qed.

Lemma contains_append_l sub s t :
  PyStr.contains sub s = true -> PyStr.contains sub (s ++ t) = true.
Proof.
  induction s as [|y s IH]; cbn [PyStr.contains append].
  - rewrite orb_false_r; intros H.
    destruct sub; [now destruct t | discriminate].
  - intros H; apply orb_prop in H as [H | H].
    + pose proof (@prefix_append_l sub (String y s) t H) as Hp.
      cbn [append] in Hp; now rewrite Hp.
    + rewrite (IH H); apply orb_true_r.
Qed.

Lemma contains_append_r sub s t :
  PyStr.contains sub t = true -> PyStr.contains sub (s ++ t) = true.
Proof.
  intros H; induction s as [|y s IH]; [exact H|].
  cbn [append PyStr.contains]; rewrite IH; apply orb_true_r.
Qed.

Lemma contains_join sub sep x l :
  In x l -> PyStr.contains sub x = true ->
  PyStr.contains sub (PyStr.join sep l) = true.
Proof.
  unfold PyStr.join; intros Hin Hx; induction l as [|y l IH]; [destruct Hin|].
  cbn [String.concat]; destruct l as [|z l].
  - destruct Hin as [-> | []]; exact Hx.
  - destruct Hin as [-> | Hin].
    + now apply contains_append_l.
    + apply contains_append_r, contains_append_r; now apply IH.
Qed.

Lemma prefix_inv a : forall s, prefix a s = true -> exists t, s = a ++ t.
Proof.
  induction a as [|x a IH]; intros s H; [now exists s|].
  destruct s as [|y s]; cbn [prefix] in H; [discriminate|].
  destruct (ascii_dec x y) as [->|]; [|discriminate].
  destruct (IH s H) as (t & ->); now exists t.
Qed.

Lemma prefix_contains sub s : prefix sub s = true -> PyStr.contains sub s = true.
Proof. intros H; destruct s; cbn [PyStr.contains]; now rewrite H. Qed.

Lemma escape_append q a b :
  PyStr.escape q (a ++ b) = PyStr.escape q a ++ PyStr.escape q b.
Proof.
  induction a as [|x a IH]; [reflexivity|].
  cbn [append PyStr.escape]; now rewrite IH, append_assoc.
Qed.

(** Words that [repr] shows as they are stay where they are. *)
Lemma contains_escape q sub s :
  PyStr.escape q sub = sub ->
  PyStr.contains sub s = true -> PyStr.contains sub (PyStr.escape q s) = true.
Proof.
  intros Hsub; induction s as [|a s IH]; intros H.
  - cbn [PyStr.contains] in H; rewrite orb_false_r in H.
    destruct (prefix_inv _ _ H) as (t & Ht).
    destruct sub; [reflexivity | discriminate].
  - cbn [PyStr.contains] in H; apply orb_prop in H as [H | H].
    + destruct (prefix_inv _ _ H) as (t & ->).
      rewrite escape_append, Hsub.
      apply prefix_contains, prefix_append.
    + cbn [PyStr.escape]; now apply contains_append_r, IH.
Qed.

Lemma contains_quote sub s :
  PyStr.escape "'" sub = sub -> PyStr.escape PyStr.double_quote sub = sub ->
  PyStr.contains sub s = true -> PyStr.contains sub (PyStr.quote s) = true.
Proof.
  intros H1 H2 H; unfold PyStr.quote; cbv zeta.
  destruct (_ && _); cbn [PyStr.contains]; apply orb_true_iff; right;
    now apply contains_append_l, contains_escape.
Qed.

(** ** What the import on GCP can return *)

Lemma split_ws_tokens s :
  Forall (fun tok => tok <> "" /\ no_space tok = true) (PyStr.split_ws s).
Proof.
  induction s as [|a s IH]; [constructor|]; cbn [PyStr.split_ws].
  destruct (PyStr.is_space a) eqn:Ha; [exact IH|].
  destruct (PyStr.starts_token s).
  - destruct (PyStr.split_ws s) as [|h l]; cbn [PyStr.cons_head].
    + constructor; [|constructor]; split; [discriminate|].
      cbn [no_space]; now rewrite Ha.
    + inversion IH as [|? ? [_ Hh] Hl]; subst.
      constructor; [|exact Hl]; split; [discriminate|].
      cbn [no_space]; now rewrite Ha, Hh.
  - constructor; [|exact IH]; split; [discriminate|].
    cbn [no_space]; now rewrite Ha.
Qed.

Lemma index_in l i tok : Py.index l i = Ok tok -> In tok l.
Proof.
  unfold Py.index; destruct (nth_error l i) eqn:E; [|discriminate].
  intros [= <-]; now apply nth_error_In in E.
Qed.

Lemma bind_returns {A B} (m : M A) (k : A -> M B) w v :
  outcome_of (bind m k w) = Ret v ->
  exists a w' t, m w = (Ret a, w', t) /\ outcome_of (k a w') = Ret v.
Proof.
  unfold bind; destruct (m w) as [[[a| e | | ] w'] t];
    try (cbv [outcome_of fst]; discriminate).
  rewrite outcome_after; intros H; now exists a, w', t.
Qed.

(** X15. Whatever the arguments, the replies and the answers of the
    operator, what the import on GCP returns is [None] or a string
    [projects/<project>/global/images/<name>] in which the name and the
    project are not empty and hold no white space. *)
Theorem gcp_create_image_result
  (self : GCPImageCreator.t) (gcloud_object_name gcp_bucket_name boot_mode : value)
  (delete_after_import : bool) (w : World) (v : value) :
  outcome_of (GCPImageCreator.create_image self gcloud_object_name gcp_bucket_name
                boot_mode delete_after_import w) = Ret v ->
  v = VNone \/
  exists name project,
    v = VStr ("projects/" ++ project ++ "/global/images/" ++ name)
    /\ name <> "" /\ no_space name = true
    /\ project <> "" /\ no_space project = true.
Proof.
  unfold GCPImageCreator.create_image; intros H.
  apply bind_returns in H as (base & w1 & t1 & _ & H); cbv zeta in H.
  apply bind_returns in H as (resp & w2 & t2 & _ & H).
  destruct (negb (returncode resp =? 0)%Z).
  - left; apply bind_returns in H as (u3 & w3 & t3 & _ & H).
    cbv [ret outcome_of fst] in H; congruence.
  - right.
    apply bind_returns in H as (line & w3 & t3 & _ & H).
    apply bind_returns in H as (name & w4 & t4 & Hname & H).
    apply bind_returns in H as (project & w5 & t5 & Hproject & H).
    apply bind_returns in H as (u6 & w6 & t6 & _ & H).
    apply bind_returns in H as (u7 & w7 & t7 & _ & H).
    cbv [ret outcome_of fst] in H; injection H as <-.
    assert (Htok : forall i tok w0 w0' t0,
               eval (Py.index (PyStr.split_ws line) i) w0 = (Ret tok, w0', t0) ->
               tok <> "" /\ no_space tok = true).
    { intros i tok w0 w0' t0 E.
      destruct (Py.index (PyStr.split_ws line) i) as [tok'|e] eqn:Ei;
        cbv [eval ret raise] in E; [|discriminate].
      injection E as <- _ _.
      apply index_in in Ei.
      pose proof (split_ws_tokens line) as Hall.
      rewrite Forall_forall in Hall; now apply Hall. }
    destruct (Htok _ _ _ _ _ Hname) as [Hn1 Hn2].
    destruct (Htok _ _ _ _ _ Hproject) as [Hp1 Hp2].
    now exists name, project.
Qed.

(** ** What a run that returns went through *)

Lemma bind_returns_trace {A B} (m : M A) (k : A -> M B) w v w'' t :
  bind m k w = (Ret v, w'', t) ->
  exists a w' t1 t2,
    m w = (Ret a, w', t1) /\ k a w' = (Ret v, w'', t2) /\ t = (t1 ++ t2)%list.
Proof.
  unfold bind; destruct (m w) as [[[a| e | | ] w'] t1]; try discriminate.
  destruct (k a w') as [[o w3] t2] eqn:E; cbn [after].
  intros [= -> -> <-]; now exists a, w', t1, t2.
Qed.

Lemma iterate_returns {A} (body : M (option A)) n : forall w a w' t,
  iterate n body w = (Ret a, w', t) ->
  exists w0 t0 t1, body w0 = (Ret (Some a), w', t1) /\ t = (t0 ++ t1)%list.
Proof.
  induction n as [|n IH]; intros w a w' t; [discriminate|].
  rewrite iterate_S.
  destruct (body w) as [[[[x|]| e | | ] w1] t1] eqn:E; try discriminate.
  - intros [= -> -> ->]; now exists w, [], t.
  - destruct (iterate n body w1) as [[o w2] t2] eqn:E2; cbn [after].
    intros [= -> -> <-].
    destruct (IH _ _ _ _ E2) as (w0 & t0 & t3 & Hb & ->).
    exists w0, (t1 ++ t0)%list, t3; split; [exact Hb | now rewrite app_assoc].
Qed.

(** ** Runs that delete nothing *)

Section Keeps.
Context {A B : Type}.

Lemma keeps_ret (a : A) : keeps (ret a).
Proof. intros w H; split; [reflexivity | exact H]. Qed.

Lemma keeps_raise (e : exn) : keeps (@raise A e).
Proof. intros w H; split; [reflexivity | exact H]. Qed.

Lemma keeps_eval (r : res A) : keeps (eval r).
Proof. destruct r; [apply keeps_ret | apply keeps_raise]. Qed.

Lemma keeps_bind (m : M A) (k : A -> M B) :
  keeps m -> (forall a, keeps (k a)) -> keeps (bind m k).
Proof.
  intros Hm Hk w H; destruct (Hm w H) as [Ht Hs]; unfold bind.
  destruct (m w) as [[[a| e | | ] w'] t]; cbn [trace_of world_of fst snd] in *;
    try (split; assumption).
  destruct (Hk a w' Hs) as [Ht' Hs'].
  destruct (k a w') as [[o w''] t']; cbn [after trace_of world_of fst snd] in *.
  rewrite existsb_app, Ht, Ht'; split; [reflexivity | assumption].
Qed.

Lemma keeps_try (m h : M A) : keeps m -> keeps h -> keeps (try_except m h).
Proof.
  intros Hm Hh w H; destruct (Hm w H) as [Ht Hs]; unfold try_except.
  destruct (m w) as [[[a| e | | ] w'] t]; cbn [trace_of world_of fst snd] in *;
    try (split; assumption).
  destruct (Hh w' Hs) as [Ht' Hs'].
  destruct (h w') as [[o w''] t']; cbn [after trace_of world_of fst snd] in *.
  rewrite existsb_app, Ht, Ht'; split; [reflexivity | assumption].
Qed.

Lemma keeps_iterate (body : M (option A)) n : keeps body -> keeps (iterate n body).
Proof.
  intros Hb; induction n as [|n IH]; intros w H; [split; [reflexivity | exact H]|].
  rewrite iterate_S; destruct (Hb w H) as [Ht Hs].
  destruct (body w) as [[[[a|]| e | | ] w'] t]; cbn [trace_of world_of fst snd] in *;
    try (split; assumption).
  destruct (IH w' Hs) as [Ht' Hs'].
  destruct (iterate n body w') as [[o w''] t'];
    cbn [after trace_of world_of fst snd] in *.
  rewrite existsb_app, Ht, Ht'; split; [reflexivity | assumption].
Qed.

Lemma keeps_while_true (body : M (option A)) : keeps body -> keeps (while_true body).
Proof. intros Hb w; unfold while_true; now apply keeps_iterate. Qed.

End Keeps.

Lemma keeps_emit e : is_delete e = false -> keeps (emit e).
Proof. intros He w H; cbn; rewrite He; now split. Qed.

Lemma keeps_print line : keeps (print line).
Proof. now apply keeps_emit. Qed.

Lemma keeps_sleep n : keeps (sleep n).
Proof. now apply keeps_emit. Qed.

Lemma keeps_now : keeps now_strftime.
Proof. intros w H; split; [reflexivity | exact H]. Qed.

Lemma keeps_loads s : keeps (loads s).
Proof.
  intros w H; unfold loads; destruct (json_loads w s); split;
    reflexivity || exact H.
Qed.

Lemma keeps_run cmd :
  (forall c, Py.argv cmd = Some c -> is_delete (ERun c) = false) ->
  keeps (subprocess_run cmd).
Proof.
  intros Hc; unfold subprocess_run; destruct (Py.argv cmd) as [c|];
    [apply keeps_emit; now apply Hc | apply keeps_raise].
Qed.

Lemma keeps_capture cmd :
  (forall c, Py.argv cmd = Some c -> is_delete (ERun c) = false) ->
  keeps (subprocess_run_capture cmd).
Proof.
  intros Hc; unfold subprocess_run_capture; destruct (Py.argv cmd) as [c|];
    [|apply keeps_raise].
  intros w H; destruct (procs w); cbn [trace_of world_of fst snd existsb];
    rewrite (Hc c eq_refl); now split.
Qed.

Lemma keeps_unxz dest names : keeps (unxz_members dest names).
Proof.
  induction names as [|name names IH]; [apply keeps_ret|]; cbn [unxz_members].
  apply keeps_bind; [|intros _; exact IH].
  destruct (PyStr.endswith ".xz" name); [now apply keeps_emit | apply keeps_ret].
Qed.

(** One turn of the prompt on an input without a yes: whatever the
    deletion is, it is not reached. *)
Lemma keeps_confirm prompt on_yes deleted kept :
  keeps (confirm prompt on_yes deleted kept).
Proof.
  intros w H; unfold confirm, bind, input.
  destruct (stdin w) as [|l rest] eqn:Hin;
    [unfold end_of_input; destruct (stdin_closed w);
     (split; [reflexivity | cbn [world_of fst snd]; now rewrite Hin])|].
  cbn [existsb] in H; apply orb_false_iff in H as [Hl Hrest].
  unfold says_yes in Hl; cbv zeta beta iota; rewrite Hl.
  destruct (PyStr.lower l =? "n"); cbn; now split.
Qed.

Create HintDb keeps.
#[local] Hint Resolve keeps_ret keeps_raise keeps_eval keeps_print keeps_sleep
  keeps_now keeps_loads keeps_unxz keeps_confirm : keeps.

(** The words of a command that are not literals do not matter. *)
Ltac not_a_delete :=
  let c := fresh "c" in
  let Hc := fresh "Hc" in
  intros c Hc; cbn [Py.argv option_map app] in Hc;
  repeat match type of Hc with
    | context [match ?v with _ => _ end] =>
        destruct v; cbn [Py.argv option_map app] in Hc; try discriminate Hc
    end;
  injection Hc as <-; reflexivity.

Ltac keeps_steps :=
  repeat match goal with
    | |- keeps (bind _ _) => apply keeps_bind; [|intro]
    | |- keeps (try_except _ _) => apply keeps_try
    | |- keeps (while_true _) => apply keeps_while_true
    | |- keeps (emit _) => apply keeps_emit; reflexivity
    | |- keeps (subprocess_run _) => apply keeps_run; not_a_delete
    | |- keeps (subprocess_run_capture _) => apply keeps_capture; not_a_delete
    | |- keeps (if ?b then _ else _) => destruct b
    | |- keeps (match ?x with _ => _ end) => destruct x
    | |- _ => solve [auto with keeps]
    end.

Lemma keeps_aws_upload self path bucket region :
  keeps (AWSImageCreator.upload_to_s3 self path bucket region).
Proof. unfold AWSImageCreator.upload_to_s3; keeps_steps. Qed.

Lemma keeps_azure_upload self path container account :
  keeps (AzureImageCreator.upload self path container account).
Proof. unfold AzureImageCreator.upload; keeps_steps. Qed.

Lemma keeps_gcp_upload self path bucket :
  keeps (GCPImageCreator.upload_to_bucket self path bucket).
Proof. unfold GCPImageCreator.upload_to_bucket; keeps_steps. Qed.

Lemma keeps_aws_unpack self path : keeps (AWSImageCreator.unpack self path).
Proof.
  intros w; unfold AWSImageCreator.unpack.
  destruct (open_archive w path) as [e | names files];
    refine ((_ : keeps _) w); keeps_steps.
Qed.

Lemma keeps_azure_unpack self path : keeps (AzureImageCreator.unpack self path).
Proof.
  intros w; unfold AzureImageCreator.unpack.
  destruct (open_archive w path) as [e | names files];
    refine ((_ : keeps _) w); keeps_steps.
Qed.

Lemma keeps_gcp_unpack self path : keeps (GCPImageCreator.unpack self path).
Proof.
  intros w; unfold GCPImageCreator.unpack.
  destruct (open_archive w path) as [e | names files];
    refine ((_ : keeps _) w); keeps_steps.
Qed.

Lemma keeps_poll self import_task_id region :
  keeps (AWSImageCreator.poll self import_task_id region).
Proof. unfold AWSImageCreator.poll; keeps_steps. Qed.

Lemma keeps_aws_import self object bucket boot region :
  keeps (AWSImageCreator.import_snapshot_and_create_ami self object bucket boot
           false region).
Proof.
  unfold AWSImageCreator.import_snapshot_and_create_ami; keeps_steps.
  - apply keeps_poll.
  - unfold AWSImageCreator.create_ami; rewrite aws_prompt_confirm; keeps_steps.
Qed.

Lemma keeps_azure_import self blob region group container account :
  keeps (AzureImageCreator.create_image_from_blob self blob false region group
           container account).
Proof.
  unfold AzureImageCreator.create_image_from_blob; rewrite azure_prompt_confirm.
  keeps_steps.
Qed.

Lemma keeps_gcp_import self object bucket boot :
  keeps (GCPImageCreator.create_image self object bucket boot false).
Proof.
  unfold GCPImageCreator.create_image.
  keeps_steps; rewrite gcp_prompt_confirm; keeps_steps.
Qed.

(** X17. Without [--delete], and as long as no line the operator types
    is y or Y, the script deletes nothing: whatever the command line, the
    replies of the tools and the archive, the trace of [main] holds none
    of the three delete commands. *)
Theorem main_without_yes_deletes_nothing (args : Args.t) (w : World) :
  Args.delete args = false ->
  existsb says_yes (stdin w) = false ->
  existsb is_delete (trace_of (main args w)) = false.
Proof.
  intros Hdel Hin; refine (proj1 ((_ : keeps _) w Hin)).
  unfold main; rewrite Hdel; cbv zeta.
  pose proof keeps_aws_unpack; pose proof keeps_azure_unpack;
    pose proof keeps_gcp_unpack; pose proof keeps_aws_upload;
    pose proof keeps_azure_upload; pose proof keeps_gcp_upload;
    pose proof keeps_aws_import; pose proof keeps_azure_import;
    pose proof keeps_gcp_import.
  keeps_steps.
Qed.

(** ** The theorems above on runs *)

Lemma azure_create_failure_returns_none_witness :
  AzureImageCreator.create_image_from_blob AzureImageCreator.init
    (VStr "disk_20240101000000.vhd") false (VStr "westeurope") (VStr "rg")
    (VStr "b") (VStr "acct") (Edge.world [Edge.denied] ["y"]) =
  (Ret VNone, set_ticks (Edge.world [] ["y"]) 1,
   [ERun ["az"; "image"; "create"; "--resource-group"; "rg"; "--name";
          "disk_20240101000000.vhd-20240101000000"; "--source";
          "https://acct.blob.core.windows.net/b/disk_20240101000000.vhd";
          "--os-type"; "Linux"; "--location"; "westeurope"];
    EPrint "Error creating the image: ERROR: permission denied"]).
Proof.
  exact (@azure_create_failure_returns_none AzureImageCreator.init
           "disk_20240101000000.vhd" "westeurope" "rg" "b" "acct" false
           (Edge.world [Edge.denied] ["y"]) Edge.denied [] eq_refl
           ltac:(discriminate)).
Defined.

Lemma gcp_create_failure_returns_none_witness :
  GCPImageCreator.create_image GCPImageCreator.init (VStr "out/disk-image.tar.gz")
    (VStr "b") (of_option None) false (Edge.world [Edge.denied] ["y"]) =
  (Ret VNone, Edge.world [] ["y"],
   [ERun ["gcloud"; "compute"; "images"; "create"; "image-disk"; "--source-uri";
          "gs://b/disk-image.tar.gz"];
    EPrint "Error creating the image: ERROR: permission denied"]).
Proof.
  exact (@gcp_create_failure_returns_none GCPImageCreator.init
           "out/disk-image.tar.gz" "b" None false
           (Edge.world [Edge.denied] ["y"]) Edge.denied [] eq_refl
           ltac:(discriminate)).
Defined.

Lemma gcp_create_short_output_raises_witness :
  GCPImageCreator.create_image GCPImageCreator.init (VStr "out/disk-image.tar.gz")
    (VStr "b") (of_option None) true (Edge.world [Edge.garbage] []) =
  (Raise IndexError, Edge.world [] [],
   [ERun ["gcloud"; "compute"; "images"; "create"; "image-disk"; "--source-uri";
          "gs://b/disk-image.tar.gz"]]).
Proof.
  exact (proj1
           (@gcp_create_short_output_raises GCPImageCreator.init
              "out/disk-image.tar.gz" "b" None true
              (Edge.world [Edge.garbage] []) Edge.garbage [] eq_refl eq_refl)
           eq_refl).
Defined.

Lemma azure_create_bad_reply_raises_witness :
  AzureImageCreator.create_image_from_blob AzureImageCreator.init
    (VStr "disk_20240101000000.vhd") true (VStr "westeurope") (VStr "rg")
    (VStr "b") (VStr "acct") (Edge.world [Edge.empty_object] []) =
  (Raise KeyError, set_ticks (Edge.world [] []) 1,
   [ERun ["az"; "image"; "create"; "--resource-group"; "rg"; "--name";
          "disk_20240101000000.vhd-20240101000000"; "--source";
          "https://acct.blob.core.windows.net/b/disk_20240101000000.vhd";
          "--os-type"; "Linux"; "--location"; "westeurope"];
    EPrint "Resulting blob ID:"]).
Proof.
  exact (proj2
           (@azure_create_bad_reply_raises AzureImageCreator.init
              "disk_20240101000000.vhd" "westeurope" "rg" "b" "acct" true
              (Edge.world [Edge.empty_object] []) Edge.empty_object []
              eq_refl eq_refl)
           (VDict []) KeyError eq_refl eq_refl).
Defined.

Lemma aws_import_needs_task_id_witness :
  AWSImageCreator.import_snapshot_and_create_ami AWSImageCreator.init
    (VStr "disk_20240101000000.raw") (VStr "b") (of_option None) true
    (VStr "us-east-1") (Edge.world [Edge.empty_object; Scenario.completed] []) =
  (Raise TypeError, Edge.world [Scenario.completed] [], [Scenario.import_event]).
Proof.
  exact (proj2 (proj2
           (@aws_import_needs_task_id AWSImageCreator.init
              "disk_20240101000000.raw" "b" "us-east-1" None true
              (Edge.world [Edge.empty_object; Scenario.completed] [])
              Edge.empty_object [Scenario.completed] eq_refl))
           [] eq_refl ltac:(discriminate)).
Defined.

Lemma aws_completed_without_snapshot_raises_witness :
  AWSImageCreator.import_snapshot_and_create_ami AWSImageCreator.init
    (VStr "disk_20240101000000.raw") (VStr "b") (of_option None) true
    (VStr "us-east-1")
    (Edge.world [Scenario.task; Edge.completed_without_snapshot; Scenario.ami] []) =
  (Raise KeyError, Edge.world [Scenario.ami] [],
   [Scenario.import_event; Scenario.poll_event]).
Proof.
  exact (@aws_completed_without_snapshot_raises AWSImageCreator.init
           "disk_20240101000000.raw" "b" "us-east-1" None true
           (Edge.world [Scenario.task; Edge.completed_without_snapshot; Scenario.ami] [])
           Scenario.task [] Edge.completed_without_snapshot [Scenario.ami]
           "import-snap-1" (Scenario.status_json "completed" []) (VStr "completed")
           KeyError eq_refl eq_refl (Forall_nil _) eq_refl eq_refl eq_refl eq_refl).
Defined.

Lemma aws_bad_status_reply_raises_witness :
  AWSImageCreator.import_snapshot_and_create_ami AWSImageCreator.init
    (VStr "disk_20240101000000.raw") (VStr "b") (of_option None) false
    (VStr "us-east-1")
    (Edge.world [Scenario.task; Edge.garbage; Scenario.ami] ["y"]) =
  (Raise JSONDecodeError, Edge.world [Scenario.ami] ["y"],
   [Scenario.import_event; Scenario.poll_event]).
Proof.
  exact (proj1
           (@aws_bad_status_reply_raises AWSImageCreator.init
              "disk_20240101000000.raw" "b" "us-east-1" None false
              (Edge.world [Scenario.task; Edge.garbage; Scenario.ami] ["y"])
              Scenario.task [] Edge.garbage [Scenario.ami] "import-snap-1"
              eq_refl eq_refl (Forall_nil _))
           eq_refl).
Defined.

Lemma main_with_delete_never_prompts_witness :
  existsb is_input
    (trace_of (main (Scenario.args true)
                 (Scenario.world [Scenario.task; Scenario.completed; Scenario.ami]
                    ["y"]))) = false.
Proof.
  exact (proj1 (main_with_delete_never_prompts (Scenario.args true)
                  (Scenario.world [Scenario.task; Scenario.completed; Scenario.ami]
                     ["y"]) eq_refl)).
Defined.


Lemma main_without_image_in_archive_raises_witness :
  outcome_of (main (Edge.from_archive "aws" "logs.tar") (Edge.world [] []))
  = Raise TypeError /\
  trace_of (main (Edge.from_archive "aws" "logs.tar") (Edge.world [] []))
  = [EExtract "logs.tar" "cloud_images_val_shared/image/"] /\
  existsb is_run
    (trace_of (main (Edge.from_archive "aws" "logs.tar") (Edge.world [] []))) = false.
Proof.
  exact (proj2
           (@main_without_image_in_archive_raises (Edge.from_archive "aws" "logs.tar")
              (Edge.world [] []) "logs.tar" eq_refl ltac:(discriminate) eq_refl
              (or_introl eq_refl))
           ["compose.log"] ["compose.log"] eq_refl eq_refl).
Defined.

Lemma main_gcp_archive_without_image_witness :
  main (Edge.from_archive "gcp" "missing.tar") (Edge.world [] []) =
  (Raise (OSError "no such file"), Edge.world [] [], []).
Proof.
  exact (proj1
           (@main_gcp_archive_without_image (Edge.from_archive "gcp" "missing.tar")
              (Edge.world [] []) "missing.tar" "b" eq_refl ltac:(discriminate)
              eq_refl eq_refl eq_refl)
           "no such file" eq_refl).
Defined.

Lemma gcp_create_image_result_witness :
  VStr "projects/proj-y/global/images/img-x" = VNone \/
  exists name project,
    VStr "projects/proj-y/global/images/img-x"
    = VStr ("projects/" ++ project ++ "/global/images/" ++ name)
    /\ name <> "" /\ no_space name = true
    /\ project <> "" /\ no_space project = true.
Proof.
  exact (@gcp_create_image_result GCPImageCreator.init (VStr "out/disk-image.tar.gz")
           (VStr "b") (VStr "uefi") true
           (Scenario.world
              [mkReply 0 ("NAME  PROJECT  STATUS" ++ String newline "img-x proj-y") ""]
              [])
           (VStr "projects/proj-y/global/images/img-x") eq_refl).
Defined.

(** The commands [is_delete] is about are the ones the three classes run. *)
Lemma delete_commands_are_deletes aws az gcp (a b c : string) :
  is_delete (ERun (s3_rm aws a b c)) = true
  /\ is_delete (ERun (azure_rm az a b c)) = true
  /\ is_delete (ERun (gcp_rm gcp a b)) = true.
Proof. repeat split. Qed.

Lemma main_without_yes_deletes_nothing_witness :
  existsb is_delete
    (trace_of (main (Scenario.args false)
                 (Scenario.world [Scenario.task; Scenario.completed; Scenario.ami]
                    ["maybe"; "n"; "later"]))) = false.
Proof.
  exact (main_without_yes_deletes_nothing (Scenario.args false)
           (Scenario.world [Scenario.task; Scenario.completed; Scenario.ami]
              ["maybe"; "n"; "later"]) eq_refl eq_refl).
Defined.

(** ** The import on Azure that succeeds *)

(** X4. On Azure, when the image was created and the reply holds its
    ['id'], the import returns that identifier and the blob that is
    deleted is the one that was imported: the same name, in the same
    container of the same account, with [--delete] at once and otherwise
    after the first answer of the operator that says yes. *)
Theorem azure_import_deletes_uploaded_blob
  (self : AzureImageCreator.t) (blob region group container account : string)
  (w : World) (r : Reply) (post : list Reply) (j id : value) :
  procs w = r :: post ->
  reply_code r = 0%Z ->
  json_loads w (reply_out r) = Some j ->
  Py.getitem j "id" = Ok id ->
  let import del :=
    AzureImageCreator.create_image_from_blob self (VStr blob) del (VStr region)
      (VStr group) (VStr container) (VStr account) w in
  let created :=
    [ERun (azure_create_cmd self blob region group container account
             (clock w (ticks w)));
     EPrint "Resulting blob ID:"; EPrint (Py.str id)] in
  let w' := set_procs (set_ticks w (S (ticks w))) post in
  let prompt :=
    "Do you want to delete the S3 object '" ++ blob
    ++ "' after import as an AMI? (y/n): " in
  import true
  = (Ret id, w', (created ++ [ERun (azure_rm self blob container account)])%list)
  /\
  (forall bad l rest,
     Forall (fun a => ~ (a = "y" \/ a = "Y" \/ a = "n" \/ a = "N")) bad ->
     stdin w = (bad ++ l :: rest)%list ->
     l = "y" \/ l = "Y" ->
     import false
     = (Ret id, set_stdin w' rest,
        (created ++ reprompts prompt bad
         ++ [EInput prompt; ERun (azure_rm self blob container account);
             EPrint ("Bucket object '" ++ blob ++ "' deleted.")])%list)).
Proof.
  intros Hp Hcode Hj Hid import created w' prompt.
  split.
  - exact (@azure_auto_delete_run self blob region group container account
             w r post j id Hp Hcode Hj Hid).
  - intros bad l rest Hbad Hin Hl; unfold import, created, w'.
    unfold AzureImageCreator.create_image_from_blob.
    rewrite (bind_ret _ _ _ eq_refl); cbv zeta.
    rewrite (bind_ret _ _ _ (@azure_create_query self blob region group container
                               account w r post Hp)).
    cbv beta; cbn [returncode stdout registered]; rewrite Hcode; cbn [Z.eqb negb].
    rewrite (bind_ret _ _ _ (loads_ok _ (set_procs (set_ticks w (S (ticks w))) post) Hj)).
    rewrite (bind_ret _ _ _ eq_refl), Hid; cbn [eval].
    rewrite (bind_ret _ _ _ eq_refl), (bind_ret _ _ _ eq_refl).
    rewrite azure_prompt_confirm; cbn [Py.str].
    rewrite (bind_ret _ _ _
               (@confirm_loop_yes prompt _ _ _
                  (azure_rm self blob container account)
                  (set_procs (set_ticks w (S (ticks w))) post) bad l rest
                  (fun w0 => eq_refl)
                  (Forall_impl _ (fun a => proj2 (rejected_iff a)) Hbad)
                  Hin (proj2 (says_yes_iff l) Hl))).
    rewrite (bind_ret _ _ _ eq_refl).
    unfold ret; cbn [after app].
    rewrite !app_nil_r; reflexivity.
Qed.

Lemma azure_import_deletes_uploaded_blob_witness :
  AzureImageCreator.create_image_from_blob AzureImageCreator.init
    (VStr "disk_20240101000000.vhd") false (VStr "westeurope") (VStr "rg")
    (VStr "b") (VStr "acct") (Edge.world [Edge.image] ["Y"]) =
  (Ret (VStr "/subscriptions/s/images/disk"), set_ticks (Edge.world [] []) 1,
   [ERun ["az"; "image"; "create"; "--resource-group"; "rg"; "--name";
          "disk_20240101000000.vhd-20240101000000"; "--source";
          "https://acct.blob.core.windows.net/b/disk_20240101000000.vhd";
          "--os-type"; "Linux"; "--location"; "westeurope"];
    EPrint "Resulting blob ID:";
    EPrint "/subscriptions/s/images/disk";
    EInput "Do you want to delete the S3 object 'disk_20240101000000.vhd' after import as an AMI? (y/n): ";
    ERun ["az"; "storage"; "blob"; "delete"; "--account-name"; "acct";
          "--container-name"; "b"; "--name"; "disk_20240101000000.vhd"];
    EPrint "Bucket object 'disk_20240101000000.vhd' deleted."]).
Proof.
  exact (proj2
           (@azure_import_deletes_uploaded_blob AzureImageCreator.init
              "disk_20240101000000.vhd" "westeurope" "rg" "b" "acct"
              (Edge.world [Edge.image] ["Y"]) Edge.image []
              (VDict [("id", VStr "/subscriptions/s/images/disk")])
              (VStr "/subscriptions/s/images/disk") eq_refl eq_refl eq_refl eq_refl)
           [] "Y" [] (Forall_nil _) eq_refl (or_intror eq_refl)).
Defined.

(** ** Paths and names of the unpacked images *)

Lemma no_char_rfind c s : no_char c s = true -> PyStr.rfind c s = None.
Proof.
  induction s as [|a r IH]; cbn [no_char PyStr.rfind]; [reflexivity|].
  intros H; apply andb_true_iff in H; destruct H as [Ha Hr].
  rewrite (IH Hr). apply negb_true_iff in Ha. rewrite Ha. reflexivity.
Qed.

Lemma rfind_append_char c a f :
  no_char c f = true ->
  PyStr.rfind c (a ++ String c f) = Some (String.length a).
Proof.
  intros Hf. induction a as [|x a IH]; cbn [append PyStr.rfind String.length].
  - rewrite (no_char_rfind _ _ Hf), Ascii.eqb_refl. reflexivity.
  - rewrite IH. reflexivity.
Qed.

Lemma substring_append_skip a b : forall n,
  substring (String.length a) n (a ++ b) = substring 0 n b.
Proof.
  induction a as [|x a IH]; intros n; cbn [append String.length]; [reflexivity|].
  cbn [substring]. apply IH.
Qed.

Lemma drop_append a b : PyStr.drop (String.length a) (a ++ b) = b.
Proof.
  unfold PyStr.drop. rewrite substring_append_skip, length_append.
  replace (String.length a + String.length b - String.length a)
    with (String.length b) by lia.
  apply substring_whole.
Qed.

Lemma take_append a b : PyStr.take (String.length a) (a ++ b) = a.
Proof.
  unfold PyStr.take. induction a as [|x a IH]; cbn [append String.length substring].
  - destruct b; reflexivity.
  - rewrite IH. reflexivity.
Qed.

Lemma all_dots_append a b :
  PyStr.all_dots (a ++ b) = PyStr.all_dots a && PyStr.all_dots b.
Proof.
  induction a as [|x a IH]; cbn [append PyStr.all_dots]; [reflexivity|].
  rewrite IH, andb_assoc. reflexivity.
Qed.

(** The base name of a file in a directory. *)
Lemma basename_in_dir d f :
  no_char "/" f = true -> OsPath.basename (d ++ String "/" f) = f.
Proof.
  intros Hf. unfold OsPath.basename. rewrite (rfind_append_char _ d _ Hf).
  change (d ++ String "/" f) with (d ++ (String "/" "" ++ f)).
  rewrite <- append_assoc.
  replace (S (String.length d)) with (String.length (d ++ String "/" ""))
    by (rewrite length_append; cbn [String.length]; lia).
  apply drop_append.
Qed.

(** The extension of a name without slash is what follows its last dot,
    as long as the part before it is not made of dots only. *)
Lemma splitext_suffix stem ext :
  no_char "/" stem = true -> no_char "/" ext = true ->
  no_char "." ext = true ->
  PyStr.all_dots stem = false ->
  OsPath.splitext (stem ++ String "." ext) = (stem, String "." ext).
Proof.
  intros Hs He Hd Hdots. unfold OsPath.splitext.
  rewrite (@no_char_rfind "/" (stem ++ String "." ext)).
  2:{ rewrite no_char_append, Hs. cbn [no_char andb]. rewrite He. reflexivity. }
  rewrite (rfind_append_char _ stem _ Hd).
  replace (String.length stem - 0) with (String.length stem) by lia.
  fold (PyStr.take (String.length stem) (stem ++ String "." ext)).
  rewrite take_append, Hdots, drop_append. reflexivity.
Qed.

(** *** [replace] on a name that holds the pattern once, at its end *)

Lemma replace_from_skip_all old new s :
  PyStr.replace_from old new s (String.length s) = "".
Proof.
  induction s as [|c r IH]; cbn [PyStr.replace_from String.length]; auto.
Qed.

Lemma prefix_refl s : prefix s s = true.
Proof.
  induction s as [|c r IH]; cbn [prefix]; [reflexivity|].
  destruct (ascii_dec c c); [exact IH|congruence].
Qed.

Lemma prefix_split a : forall s b,
  prefix a (s ++ b) = true ->
  prefix a s = true \/ exists a2, a = s ++ a2 /\ prefix a2 b = true.
Proof.
  induction a as [|x a IH]; intros s b H.
  - left. destruct s; reflexivity.
  - destruct s as [|y s].
    + right. exists (String x a). split; [reflexivity|exact H].
    + cbn [append prefix] in H |- *.
      destruct (ascii_dec x y) as [->|]; [|discriminate].
      destruct (IH _ _ H) as [Hp|[a2 [-> Hp]]]; [left; exact Hp|].
      right. exists a2. split; [reflexivity|exact Hp].
Qed.

Lemma replace_suffix c0 old' new stem :
  no_char c0 old' = true ->
  PyStr.contains (String c0 old') stem = false ->
  PyStr.replace (String c0 old') new (stem ++ String c0 old') = stem ++ new.
Proof.
  intros Hold. unfold PyStr.replace.
  induction stem as [|c r IH]; intros Hc.
  - cbn [append]. cbn [PyStr.replace_from].
    rewrite (prefix_refl (String c0 old')).
    cbn [String.length]. replace (S (String.length old') - 1) with (String.length old') by lia.
    rewrite replace_from_skip_all, append_nil_r. reflexivity.
  - cbn [PyStr.contains] in Hc. apply orb_false_iff in Hc. destruct Hc as [Hp Hr].
    cbn [append]. cbn [PyStr.replace_from].
    change (String c (r ++ String c0 old')) with (String c r ++ String c0 old').
    destruct (prefix (String c0 old') (String c r ++ String c0 old')) eqn:Hpre.
    + exfalso. apply prefix_split in Hpre. destruct Hpre as [Hpre|[a2 [Ha2 Hpre]]].
      * congruence.
      * cbn [append] in Ha2. injection Ha2 as -> Hold'.
        destruct a2 as [|x a2].
        -- rewrite append_nil_r in Hold'. subst old'.
           rewrite prefix_refl in Hp. discriminate.
        -- cbn [prefix] in Hpre. destruct (ascii_dec x c) as [->|]; [|discriminate].
           subst old'. rewrite no_char_append in Hold.
           cbn [no_char] in Hold. rewrite Ascii.eqb_refl in Hold.
           cbn [negb andb] in Hold. rewrite andb_false_r in Hold. discriminate.
    + cbn [append]. rewrite (IH Hr). reflexivity.
Qed.

(** ** Archives with an image *)

Lemma aws_unpack_some self p w names files file :
  tarfile_open w p = Members names files ->
  first_with_suffix ".raw" files = Some file ->
  AWSImageCreator.unpack self (VStr p) w
  = (Ret (VStr (AWSImageCreator.path_to_images self ++ file)), w,
     EExtract p (AWSImageCreator.path_to_images self)
     :: unxz_events (AWSImageCreator.path_to_images self) names).
Proof.
  intros Hopen Hfile. unfold AWSImageCreator.unpack; cbn [open_archive].
  rewrite Hopen, Hfile.
  rewrite (bind_ret _ _ _ eq_refl), (bind_ret _ _ _ (unxz_members_run _ _ _)).
  cbn [after ret Py.str app]; now rewrite app_nil_r.
Qed.

Lemma azure_unpack_some self p w names files file :
  tarfile_open w p = Members names files ->
  first_with_suffix ".vhdfixed" files = Some file ->
  let dir := AzureImageCreator.path_to_images self in
  AzureImageCreator.unpack self (VStr p) w
  = (Ret (VStr (dir ++ PyStr.replace ".vhdfixed" ".vhd" file)), w,
     (EExtract p dir :: unxz_events dir names
      ++ [ERename (dir ++ file) (dir ++ PyStr.replace ".vhdfixed" ".vhd" file)])%list).
Proof.
  intros Hopen Hfile dir. unfold AzureImageCreator.unpack; cbn [open_archive].
  rewrite Hopen, Hfile.
  rewrite (bind_ret _ _ _ eq_refl), (bind_ret _ _ _ (unxz_members_run _ _ _)).
  cbv zeta. rewrite (bind_ret _ _ _ eq_refl).
  unfold ret; cbn [after Py.str app]. reflexivity.
Qed.

Lemma last_tar_gz_last dest before m rest : forall image,
  PyStr.endswith ".tar.gz" m = true ->
  existsb (PyStr.endswith ".tar.gz") rest = false ->
  GCPImageCreator.last_tar_gz dest (before ++ m :: rest)%list image = dest ++ m.
Proof.
  induction before as [|b before IH]; intros image Hm Hrest.
  - cbn [app GCPImageCreator.last_tar_gz]. rewrite Hm.
    now apply last_tar_gz_none.
  - cbn [app GCPImageCreator.last_tar_gz]. now apply IH.
Qed.

Lemma gcp_unpack_some self p w names files :
  tarfile_open w p = Members names files ->
  let image := GCPImageCreator.last_tar_gz (GCPImageCreator.path_to_images self) names "" in
  GCPImageCreator.unpack self (VStr p) w
  = (Ret (VStr image), w,
     [EExtract p (GCPImageCreator.path_to_images self); EPrint ("image_name:" ++ image)]).
Proof.
  intros Hopen image. unfold GCPImageCreator.unpack; cbn [open_archive].
  rewrite Hopen. reflexivity.
Qed.

Lemma truthy_set (s : string) : s <> "" -> Py.truthy (VStr s) = true.
Proof. intros H; cbn; now apply negb_true_iff, String.eqb_neq. Qed.

Lemma boot_mode_is_option (boot : option string) :
  exists b,
    (if Py.truthy (of_option boot) then of_option boot else VNone) = of_option b.
Proof.
  destruct (Py.truthy (of_option boot)); [now exists boot | now exists None].
Qed.

(** X18. With [-p] on AWS, and the bucket and the region given, what is
    uploaded is the first file of the staging directory whose name ends in
    [.raw], under the key [<stem>_<timestamp>.raw], and that key is the one
    the import request names.  The stem may hold dots, but is not made of
    dots only; it holds no slash, since it is an entry of the directory. *)
Theorem main_aws_uploads_unpacked_image
  (args : Args.t) (w : World) (p bucket region stem : string)
  (names files : list string) :
  Args.path args = Some p -> p <> "" ->
  is_set (Args.image args) = false ->
  Args.cloud args = "aws" ->
  Args.bucket args = Some bucket -> Args.region args = Some region ->
  tarfile_open w p = Members names files ->
  first_with_suffix ".raw" files = Some (stem ++ ".raw") ->
  no_char "/" stem = true -> PyStr.all_dots stem = false ->
  let dir := "cloud_images_val_shared/image/" in
  let key := stem ++ "_" ++ clock w (ticks w) ++ ".raw" in
  exists t,
    trace_of (main args w) =
    (EExtract p dir :: unxz_events dir names
     ++ [ERun ["aws"; "s3"; "cp"; (dir ++ stem ++ ".raw")%string;
               ("s3://" ++ bucket ++ "/" ++ key)%string; "--region"; region];
         EPrint ("Uploaded as: " ++ key)%string;
         ERun (import_cmd AWSImageCreator.init key bucket region)] ++ t)%list.
Proof.
  intros Hpath Hne Himage Hcloud Hbucket Hregion Hopen Hfile Hslash Hdots dir key.
  unfold is_set in Himage.
  assert (Hname : aws_object_name (dir ++ stem ++ ".raw") (clock w (ticks w)) = key).
  { unfold aws_object_name.
    change (dir ++ stem ++ ".raw")
      with ("cloud_images_val_shared/image" ++ String "/" (stem ++ ".raw")).
    rewrite basename_in_dir by (rewrite no_char_append, Hslash; reflexivity).
    change (stem ++ ".raw") with (stem ++ String "." "raw").
    rewrite splitext_suffix by (assumption || reflexivity). reflexivity. }
  unfold main; rewrite Himage, Hpath, Hcloud, Hbucket, Hregion.
  cbn [of_option]. rewrite (truthy_set Hne).
  cbn [negb andb String.eqb Ascii.eqb Bool.eqb]; cbv zeta.
  rewrite (bind_ret _ _ w
             (a := VStr key) (w' := set_ticks w (S (ticks w)))
             (t := (EExtract p dir :: unxz_events dir names
                    ++ [ERun ["aws"; "s3"; "cp"; (dir ++ stem ++ ".raw")%string;
                              ("s3://" ++ bucket ++ "/" ++ key)%string;
                              "--region"; region];
                        EPrint ("Uploaded as: " ++ key)%string])%list)).
  2:{ rewrite (bind_ret _ _ _ (@aws_unpack_some AWSImageCreator.init p w names files
                                 _ Hopen Hfile)).
      change (AWSImageCreator.path_to_images AWSImageCreator.init) with dir.
      rewrite (bind_ret _ _ _ (aws_upload_run _ _ _ _ _)), Hname.
      rewrite (bind_ret _ _ _ eq_refl).
      unfold ret; cbn [after Py.str AWSImageCreator.init AWSImageCreator.aws_cli_path].
      rewrite !app_nil_r. reflexivity. }
  rewrite trace_after.
  destruct (@aws_import_begins AWSImageCreator.init key bucket region
              (if Py.truthy (of_option (Args.boot args))
               then of_option (Args.boot args) else VNone)
              (Args.delete args) (set_ticks w (S (ticks w)))) as (t & Ht).
  destruct (@trace_bind_begins _ _ _
              (fun ami_id => print ("Resulting AMI ID: " ++ Py.str ami_id))
              _ _ _ Ht) as (t' & Ht').
  rewrite Ht'. exists t'. cbn [app]. rewrite <- app_assoc. reflexivity.
Qed.

Lemma main_aws_uploads_unpacked_image_witness :
  exists t,
    trace_of (main (Edge.from_archive "aws" "aws.tar") (Composer.world [] [])) =
    ([EExtract "aws.tar" "cloud_images_val_shared/image/";
      EUnxz "cloud_images_val_shared/image/disk.raw.xz"
            "cloud_images_val_shared/image/disk.raw";
      ERun ["aws"; "s3"; "cp"; "cloud_images_val_shared/image/disk.raw";
            "s3://b/disk_20240101000000.raw"; "--region"; "us-east-1"];
      EPrint "Uploaded as: disk_20240101000000.raw";
      ERun ["aws"; "ec2"; "import-snapshot"; "--disk-container";
            "Format=raw,UserBucket={S3Bucket=b,S3Key=disk_20240101000000.raw}";
            "--description"; "Imported snapshot from raw file";
            "--region"; "us-east-1"]] ++ t)%list.
Proof.
  exact (@main_aws_uploads_unpacked_image (Edge.from_archive "aws" "aws.tar")
           (Composer.world [] []) "aws.tar" "b" "us-east-1" "disk"
           ["disk.raw.xz"; "compose.log"] ["compose.log"; "disk.raw"; "disk.raw.xz"]
           eq_refl ltac:(discriminate) eq_refl eq_refl eq_refl eq_refl eq_refl
           eq_refl eq_refl eq_refl).
Defined.

(** X19. With [-p] on Azure, and the container, the region, the resource
    group and the storage account given, the first file of the staging
    directory whose name ends in [.vhdfixed] is renamed so that it ends in
    [.vhd]; the renamed file is what is uploaded, as the blob
    [<stem>_<timestamp>.vhd], and the image is created from that blob.
    This is for a stem without slash that is not made of dots only and
    does not hold [.vhdfixed] itself: the script replaces every
    occurrence. *)
Theorem main_azure_uploads_renamed_image
  (args : Args.t) (w : World) (p bucket region group account stem : string)
  (names files : list string) :
  Args.path args = Some p -> p <> "" ->
  is_set (Args.image args) = false ->
  Args.cloud args = "azure" ->
  Args.bucket args = Some bucket -> Args.region args = Some region ->
  Args.resource_group args = Some group ->
  Args.storage_account_name args = Some account ->
  tarfile_open w p = Members names files ->
  first_with_suffix ".vhdfixed" files = Some (stem ++ ".vhdfixed") ->
  no_char "/" stem = true -> PyStr.all_dots stem = false ->
  PyStr.contains ".vhdfixed" stem = false ->
  let dir := "cloud_images_val_shared/image/" in
  let blob := stem ++ "_" ++ clock w (ticks w) ++ ".vhd" in
  exists t,
    trace_of (main args w) =
    (EExtract p dir :: unxz_events dir names
     ++ [ERename (dir ++ stem ++ ".vhdfixed")%string (dir ++ stem ++ ".vhd")%string;
         ERun ["az"; "storage"; "blob"; "upload"; "--account-name"; account;
               "--file"; (dir ++ stem ++ ".vhd")%string;
               "--container-name"; bucket; "--name"; blob];
         EPrint ("Uploaded as: " ++ blob)%string;
         ERun (azure_create_cmd AzureImageCreator.init blob region group bucket
                 account (clock w (S (ticks w))))] ++ t)%list.
Proof.
  intros Hpath Hne Himage Hcloud Hbucket Hregion Hgroup Haccount Hopen Hfile
         Hslash Hdots Hstem dir blob.
  unfold is_set in Himage.
  assert (Hrename : PyStr.replace ".vhdfixed" ".vhd" (stem ++ ".vhdfixed")
                    = stem ++ ".vhd").
  { exact (@replace_suffix "." "vhdfixed" ".vhd" stem eq_refl Hstem). }
  assert (Hname : azure_blob_name (dir ++ stem ++ ".vhd") (clock w (ticks w)) = blob).
  { unfold azure_blob_name.
    change (dir ++ stem ++ ".vhd")
      with ("cloud_images_val_shared/image" ++ String "/" (stem ++ ".vhd")).
    rewrite basename_in_dir by (rewrite no_char_append, Hslash; reflexivity).
    change (stem ++ ".vhd") with (stem ++ String "." "vhd").
    rewrite splitext_suffix by (assumption || reflexivity). reflexivity. }
  unfold main; rewrite Himage, Hpath, Hcloud, Hbucket, Hregion, Hgroup, Haccount.
  cbn [of_option]. rewrite (truthy_set Hne).
  cbn [negb andb String.eqb Ascii.eqb Bool.eqb]; cbv zeta.
  rewrite (bind_ret _ _ w
             (a := VStr blob) (w' := set_ticks w (S (ticks w)))
             (t := (EExtract p dir :: unxz_events dir names
                    ++ [ERename (dir ++ stem ++ ".vhdfixed")%string
                                (dir ++ stem ++ ".vhd")%string;
                        ERun ["az"; "storage"; "blob"; "upload"; "--account-name";
                              account; "--file"; (dir ++ stem ++ ".vhd")%string;
                              "--container-name"; bucket; "--name"; blob];
                        EPrint ("Uploaded as: " ++ blob)%string])%list)).
  2:{ rewrite (bind_ret _ _ _ (@azure_unpack_some AzureImageCreator.init p w names
                                 files _ Hopen Hfile)).
      change (AzureImageCreator.path_to_images AzureImageCreator.init) with dir.
      rewrite Hrename.
      rewrite (bind_ret _ _ _ (azure_upload_run _ _ _ _ _)), Hname.
      rewrite (bind_ret _ _ _ eq_refl).
      unfold ret; cbn [after Py.str AzureImageCreator.init AzureImageCreator.az_cli_path].
      rewrite !app_nil_r. cbn [app]. rewrite <- !app_assoc. reflexivity. }
  rewrite trace_after.
  destruct (@azure_import_begins AzureImageCreator.init blob region group bucket
              account (Args.delete args) (set_ticks w (S (ticks w)))) as (t & Ht).
  destruct (@trace_bind_begins _ _ _
              (fun azure_id => print ("Resulting blob ID: " ++ Py.str azure_id))
              _ _ _ Ht) as (t' & Ht').
  rewrite Ht'. exists t'. cbn [app]. rewrite <- app_assoc. reflexivity.
Qed.

Lemma main_azure_uploads_renamed_image_witness :
  exists t,
    trace_of (main (Edge.from_archive "azure" "azure.tar") (Composer.world [] [])) =
    ([EExtract "azure.tar" "cloud_images_val_shared/image/";
      EUnxz "cloud_images_val_shared/image/disk.vhdfixed.xz"
            "cloud_images_val_shared/image/disk.vhdfixed";
      ERename "cloud_images_val_shared/image/disk.vhdfixed"
              "cloud_images_val_shared/image/disk.vhd";
      ERun ["az"; "storage"; "blob"; "upload"; "--account-name"; "acct";
            "--file"; "cloud_images_val_shared/image/disk.vhd";
            "--container-name"; "b"; "--name"; "disk_20240101000000.vhd"];
      EPrint "Uploaded as: disk_20240101000000.vhd";
      ERun ["az"; "image"; "create"; "--resource-group"; "rg"; "--name";
            "disk_20240101000000.vhd-20240101000000"; "--source";
            "https://acct.blob.core.windows.net/b/disk_20240101000000.vhd";
            "--os-type"; "Linux"; "--location"; "us-east-1"]] ++ t)%list.
Proof.
  exact (@main_azure_uploads_renamed_image (Edge.from_archive "azure" "azure.tar")
           (Composer.world [] []) "azure.tar" "b" "us-east-1" "rg" "acct" "disk"
           ["disk.vhdfixed.xz"] ["disk.vhdfixed"; "disk.vhdfixed.xz"]
           eq_refl ltac:(discriminate) eq_refl eq_refl eq_refl eq_refl eq_refl eq_refl
           eq_refl eq_refl eq_refl eq_refl eq_refl).
Defined.

Lemma endswith_append suf a : PyStr.endswith suf (a ++ suf) = true.
Proof.
  induction a as [|c a IH].
  - cbn [append]. destruct suf; cbn [PyStr.endswith];
      rewrite String.eqb_refl; reflexivity.
  - cbn [append PyStr.endswith]. rewrite IH. apply orb_true_r.
Qed.

(** The command that creates the image on GCP from an archive of the
    composer, [<stem>-image.tar.gz]. *)
Lemma gcp_create_cmd_of_archive self d stem bucket boot :
  no_char "/" stem = true ->
  PyStr.contains "-image.tar" stem = false ->
  gcp_create_cmd self (d ++ String "/" (stem ++ "-image.tar.gz")) bucket boot
  = ([GCPImageCreator.gcp_cli_path self; "compute"; "images"; "create";
      ("image-" ++ stem)%string; "--source-uri";
      ("gs://" ++ bucket ++ "/" ++ stem ++ "-image.tar.gz")%string]
     ++ (if Py.eq_str (of_option boot) "uefi"
         then ["--guest-os-features=UEFI_COMPATIBLE,VIRTIO_SCSI_MULTIQUEUE,SEV_CAPABLE"]
         else []))%list.
Proof.
  intros Hslash Hstem. unfold gcp_create_cmd; cbv zeta.
  rewrite basename_in_dir by (rewrite no_char_append, Hslash; reflexivity).
  replace (stem ++ "-image.tar.gz") with ((stem ++ "-image.tar") ++ String "." "gz")
    by (rewrite append_assoc; reflexivity).
  rewrite splitext_suffix.
  - cbn [fst]. change "-image.tar" with (String "-" "image.tar") at 1 2.
    rewrite (@replace_suffix "-" "image.tar" "" stem eq_refl Hstem), append_nil_r.
    reflexivity.
  - rewrite no_char_append, Hslash; reflexivity.
  - reflexivity.
  - reflexivity.
  - rewrite all_dots_append. apply andb_false_r.
Qed.

(** X20. With [-p] on GCP and the bucket given, for an archive whose
    last member with a name ending in [.tar.gz] is [<stem>-image.tar.gz],
    where the stem holds no slash and not [-image.tar] itself: that member
    is what is uploaded, by its path in the staging directory, and the
    line [Uploaded as:] shows that local path; the image is created from
    the object of the same base name in the bucket and is called
    [image-<stem>]. *)
Theorem main_gcp_uploads_last_archive
  (args : Args.t) (w : World) (p bucket stem : string)
  (before rest files : list string) :
  Args.path args = Some p -> p <> "" ->
  is_set (Args.image args) = false ->
  Args.cloud args = "gcp" ->
  Args.bucket args = Some bucket ->
  tarfile_open w p
  = Members (before ++ (stem ++ "-image.tar.gz")%string :: rest)%list files ->
  existsb (PyStr.endswith ".tar.gz") rest = false ->
  no_char "/" stem = true ->
  PyStr.contains "-image.tar" stem = false ->
  let dir := "cloud_images_val_shared/image/" in
  let object := dir ++ stem ++ "-image.tar.gz" in
  exists t,
    trace_of (main args w) =
    ([EExtract p dir;
      EPrint ("image_name:" ++ object)%string;
      ERun ["gsutil"; "-m"; "cp"; "-n"; object; ("gs://" ++ bucket)%string];
      EPrint ("Uploaded as: " ++ object)%string;
      ERun (["gcloud"; "compute"; "images"; "create"; ("image-" ++ stem)%string;
             "--source-uri";
             ("gs://" ++ bucket ++ "/" ++ stem ++ "-image.tar.gz")%string]
            ++ (if Py.eq_str (of_option (Args.boot args)) "uefi"
                then ["--guest-os-features=UEFI_COMPATIBLE,VIRTIO_SCSI_MULTIQUEUE,SEV_CAPABLE"]
                else []))] ++ t)%list.
Proof.
  intros Hpath Hne Himage Hcloud Hbucket Hopen Hrest Hslash Hstem dir object.
  unfold is_set in Himage.
  assert (Hlast : GCPImageCreator.last_tar_gz dir
                    (before ++ (stem ++ "-image.tar.gz")%string :: rest)%list ""
                  = object).
  { apply last_tar_gz_last; [|exact Hrest].
    replace (stem ++ "-image.tar.gz") with ((stem ++ "-image") ++ ".tar.gz")
      by (rewrite append_assoc; reflexivity).
    apply endswith_append. }
  unfold main; rewrite Himage, Hpath, Hcloud, Hbucket.
  cbn [of_option]. rewrite (truthy_set Hne).
  cbn [negb andb String.eqb Ascii.eqb Bool.eqb]; cbv zeta.
  rewrite (bind_ret _ _ w
             (a := VStr object) (w' := w)
             (t := [EExtract p dir;
                    EPrint ("image_name:" ++ object)%string;
                    ERun ["gsutil"; "-m"; "cp"; "-n"; object;
                          ("gs://" ++ bucket)%string];
                    EPrint ("Uploaded as: " ++ object)%string])).
  2:{ rewrite (bind_ret _ _ _ (@gcp_unpack_some GCPImageCreator.init p w _ files Hopen)).
      change (GCPImageCreator.path_to_images GCPImageCreator.init) with dir.
      rewrite Hlast.
      rewrite (bind_ret _ _ _ (gcp_upload_run _ _ _ _)).
      rewrite (bind_ret _ _ _ eq_refl).
      unfold ret; cbn [after Py.str GCPImageCreator.init GCPImageCreator.gcp_util_path].
      reflexivity. }
  rewrite trace_after.
  destruct (@gcp_import_begins GCPImageCreator.init object bucket (Args.boot args)
              (if Py.truthy (of_option (Args.boot args))
               then of_option (Args.boot args) else VNone)
              (Args.delete args) w (boot_mode_of_args (Args.boot args)))
    as (t & Ht).
  destruct (@trace_bind_begins _ _ _
              (fun gcp_name => print ("Resulting image name: " ++ Py.str gcp_name))
              _ _ _ Ht) as (t' & Ht').
  rewrite Ht'. exists t'.
  pose proof (@gcp_create_cmd_of_archive GCPImageCreator.init
                "cloud_images_val_shared/image" stem bucket (Args.boot args)
                Hslash Hstem) as Hcmd.
  change ("cloud_images_val_shared/image" ++ String "/" (stem ++ "-image.tar.gz"))
    with object in Hcmd.
  rewrite Hcmd. reflexivity.
Qed.

Lemma main_gcp_uploads_last_archive_witness :
  exists t,
    trace_of (main (Edge.from_archive "gcp" "gcp.tar") (Composer.world [] [])) =
    ([EExtract "gcp.tar" "cloud_images_val_shared/image/";
      EPrint "image_name:cloud_images_val_shared/image/rhel-image.tar.gz";
      ERun ["gsutil"; "-m"; "cp"; "-n";
            "cloud_images_val_shared/image/rhel-image.tar.gz"; "gs://b"];
      EPrint "Uploaded as: cloud_images_val_shared/image/rhel-image.tar.gz";
      ERun ["gcloud"; "compute"; "images"; "create"; "image-rhel";
            "--source-uri"; "gs://b/rhel-image.tar.gz"]] ++ t)%list.
Proof.
  exact (@main_gcp_uploads_last_archive (Edge.from_archive "gcp" "gcp.tar")
           (Composer.world [] []) "gcp.tar" "b" "rhel"
           ["old-image.tar.gz"] ["compose.log"]
           ["compose.log"; "old-image.tar.gz"; "rhel-image.tar.gz"]
           eq_refl ltac:(discriminate) eq_refl eq_refl eq_refl eq_refl eq_refl
           eq_refl eq_refl).
Defined.

(** ** What [main] reports when the import fails *)

(** X21. A failed import does not make the script fail.  With [-i], when
    the import task on AWS reports ['error'], or when the command that
    creates the image on Azure or GCP exits with a status other than 0,
    [main] prints the line with the result, which reads [None], and
    returns normally; the uploaded object is left where it is. *)
Theorem main_ends_normally_when_import_fails
  (args : Args.t) (w : World) (image bucket : string) :
  is_set (Args.path args) = false ->
  Args.image args = Some image -> image <> "" ->
  Args.bucket args = Some bucket ->
  (forall region r0 pre t post import_task_id s,
     Args.cloud args = "aws" -> Args.region args = Some region ->
     procs w = r0 :: (pre ++ t :: post)%list ->
     task_id_of (json_loads w) r0 = Some import_task_id ->
     Forall (fun r => active (json_loads w) r = true) pre ->
     status_of (json_loads w) t = Some s ->
     Py.eq_str s "error" = true ->
     let key := aws_object_name image (clock w (ticks w)) in
     main args w =
     (Ret tt, set_procs (set_ticks w (S (ticks w))) post,
      ([ERun ["aws"; "s3"; "cp"; image; ("s3://" ++ bucket ++ "/" ++ key)%string;
              "--region"; region];
        EPrint ("Uploaded as: " ++ key)%string;
        ERun (import_cmd AWSImageCreator.init key bucket region)]
       ++ rounds (json_loads w) (poll_cmd AWSImageCreator.init import_task_id region) pre
       ++ [ERun (poll_cmd AWSImageCreator.init import_task_id region);
           EPrint "Error: Import task failed. Exiting.";
           EPrint "Resulting AMI ID: None"])%list))
  /\
  (forall region group account r post,
     Args.cloud args = "azure" -> Args.region args = Some region ->
     Args.resource_group args = Some group ->
     Args.storage_account_name args = Some account ->
     procs w = r :: post -> reply_code r <> 0%Z ->
     let blob := azure_blob_name image (clock w (ticks w)) in
     main args w =
     (Ret tt, set_procs (set_ticks w (S (S (ticks w)))) post,
      [ERun ["az"; "storage"; "blob"; "upload"; "--account-name"; account;
             "--file"; image; "--container-name"; bucket; "--name"; blob];
       EPrint ("Uploaded as: " ++ blob);
       ERun (azure_create_cmd AzureImageCreator.init blob region group bucket
               account (clock w (S (ticks w))));
       EPrint ("Error creating the image: " ++ reply_err r);
       EPrint "Resulting blob ID: None"]))
  /\
  (forall r post,
     Args.cloud args = "gcp" ->
     procs w = r :: post -> reply_code r <> 0%Z ->
     main args w =
     (Ret tt, set_procs w post,
      [ERun ["gsutil"; "-m"; "cp"; "-n"; image; "gs://" ++ bucket];
       EPrint ("Uploaded as: " ++ image);
       ERun (gcp_create_cmd GCPImageCreator.init image bucket (Args.boot args));
       EPrint ("Error creating the image: " ++ reply_err r);
       EPrint "Resulting image name: None"])).
Proof.
  intros Hpath Himage Hne Hbucket; unfold is_set in Hpath.
  assert (Himg : Py.truthy (of_option (Args.image args)) = true).
  { rewrite Himage; now apply truthy_set. }
  split; [|split].
  - intros region r0 pre t post import_task_id s Hcloud Hregion Hp Hid Hpre Hs Herr key.
    unfold main; rewrite Hpath, Himg, Hcloud, Himage, Hbucket, Hregion.
    cbn [negb andb String.eqb Ascii.eqb Bool.eqb of_option]; cbv zeta.
    rewrite (bind_ret _ _ w
               (a := VStr key) (w' := set_ticks w (S (ticks w)))
               (t := [ERun ["aws"; "s3"; "cp"; image;
                            "s3://" ++ bucket ++ "/" ++ key; "--region"; region];
                      EPrint ("Uploaded as: " ++ key)]) eq_refl).
    destruct (boot_mode_is_option (Args.boot args)) as (b & ->).
    rewrite (bind_ret _ _ _
               (@import_error AWSImageCreator.init key bucket region b
                  (Args.delete args) (set_ticks w (S (ticks w))) r0 pre t post
                  import_task_id s Hp Hid Hpre Hs Herr)).
    unfold print, emit; cbn [after Py.str Py.repr json_loads set_ticks app].
    rewrite <- app_assoc. reflexivity.
  - intros region group account r post Hcloud Hregion Hgroup Haccount Hp Hcode blob.
    unfold main; rewrite Hpath, Himg, Hcloud, Himage, Hbucket, Hregion, Hgroup, Haccount.
    cbn [negb andb String.eqb Ascii.eqb Bool.eqb of_option]; cbv zeta.
    rewrite (bind_ret _ _ w
               (a := VStr blob) (w' := set_ticks w (S (ticks w)))
               (t := [ERun ["az"; "storage"; "blob"; "upload"; "--account-name";
                            account; "--file"; image; "--container-name"; bucket;
                            "--name"; blob];
                      EPrint ("Uploaded as: " ++ blob)]) eq_refl).
    apply Z.eqb_neq in Hcode.
    unfold AzureImageCreator.create_image_from_blob.
    rewrite (bind_ret _ (fun azure_id => print ("Resulting blob ID: " ++ Py.str azure_id))
               (set_ticks w (S (ticks w)))
               (a := VNone) (w' := set_procs (set_ticks w (S (S (ticks w)))) post)
               (t := [ERun (azure_create_cmd AzureImageCreator.init blob region group
                              bucket account (clock w (S (ticks w))));
                      EPrint ("Error creating the image: " ++ reply_err r)])).
    2:{ rewrite (bind_ret _ _ _ eq_refl); cbv zeta.
        rewrite (bind_ret _ _ _
                   (@azure_create_query AzureImageCreator.init blob region group bucket
                      account (set_ticks w (S (ticks w))) r post Hp)).
        cbv beta; cbn [returncode stderr registered]; rewrite Hcode; cbn [negb].
        reflexivity. }
    reflexivity.
  - intros r post Hcloud Hp Hcode.
    unfold main; rewrite Hpath, Himg, Hcloud, Himage, Hbucket.
    cbn [negb andb String.eqb Ascii.eqb Bool.eqb of_option]; cbv zeta.
    rewrite (bind_ret _ _ w
               (a := VStr image) (w' := w)
               (t := [ERun ["gsutil"; "-m"; "cp"; "-n"; image; "gs://" ++ bucket];
                      EPrint ("Uploaded as: " ++ image)]) eq_refl).
    apply Z.eqb_neq in Hcode.
    unfold GCPImageCreator.create_image.
    rewrite (bind_ret _ (fun gcp_name => print ("Resulting image name: " ++ Py.str gcp_name))
               w (a := VNone) (w' := set_procs w post)
               (t := [ERun (gcp_create_cmd GCPImageCreator.init image bucket
                              (Args.boot args));
                      EPrint ("Error creating the image: " ++ reply_err r)])).
    2:{ cbn [basename_of eval]; rewrite (bind_ret _ _ _ eq_refl); cbv zeta.
        rewrite (boot_mode_of_args (Args.boot args)).
        rewrite (bind_ret _ _ w
                   (capture_argv _ w
                      (gcp_create_argv GCPImageCreator.init image bucket (Args.boot args))
                      Hp)).
        cbv beta; cbn [returncode stderr]; rewrite Hcode; cbn [negb].
        reflexivity. }
    reflexivity.
Qed.

Lemma main_ends_normally_when_import_fails_witness :
  main (Scenario.args false) (Scenario.world [Scenario.task; Scenario.active_42;
                                              Scenario.failed] ["y"]) =
  (Ret tt, set_procs (set_ticks (Scenario.world [Scenario.task; Scenario.active_42;
                                                  Scenario.failed] ["y"]) 1) [],
   [Scenario.upload_event;
    EPrint "Uploaded as: disk_20240101000000.raw";
    Scenario.import_event;
    Scenario.poll_event;
    EPrint "Import task status: active. Waiting...";
    EPrint "Current progress: 42";
    ESleep 10;
    Scenario.poll_event;
    EPrint "Error: Import task failed. Exiting.";
    EPrint "Resulting AMI ID: None"]).
Proof.
  assert (Hact : Forall (fun r => active Scenario.loads r = true) [Scenario.active_42])
    by (repeat constructor).
  exact (proj1
           (@main_ends_normally_when_import_fails (Scenario.args false)
              (Scenario.world [Scenario.task; Scenario.active_42; Scenario.failed] ["y"])
              "disk.raw" "b" eq_refl eq_refl ltac:(discriminate) eq_refl)
           "us-east-1" Scenario.task [Scenario.active_42] Scenario.failed []
           "import-snap-1" (VStr "error") eq_refl eq_refl eq_refl eq_refl Hact
           eq_refl eq_refl).
Defined.

(** ** The extension in the names of the uploaded objects *)

Lemma rfind_at c s : forall d,
  PyStr.rfind c s = Some d -> PyStr.drop d s = String c (PyStr.drop (S d) s).
Proof.
  unfold PyStr.drop; induction s as [|a s IH]; intros d; [discriminate|].
  cbn [PyStr.rfind].
  destruct (PyStr.rfind c s) as [i|] eqn:E.
  - intros [= <-]. cbn [String.length Nat.sub substring]. now apply IH.
  - destruct (Ascii.eqb a c) eqn:Ha; [|discriminate]; intros [= <-].
    apply Ascii.eqb_eq in Ha; subst a.
    cbn [String.length Nat.sub substring].
    rewrite Nat.sub_0_r, substring_whole; reflexivity.
Qed.

(** What [os.path.splitext] calls the extension of a name without slash:
    nothing, or the last dot and what follows it, and then the part in
    front of that dot is not made of dots only. *)
Lemma splitext_extension p root ext :
  no_char "/" p = true ->
  OsPath.splitext p = (root, ext) ->
  ext = "" \/
  exists e, ext = String "." e /\ no_char "." e = true
            /\ PyStr.all_dots root = false.
Proof.
  intros Hp; unfold OsPath.splitext.
  rewrite (no_char_rfind _ _ Hp).
  destruct (PyStr.rfind "." p) as [d|] eqn:Hd; [|intros [= _ <-]; now left].
  rewrite Nat.sub_0_r; fold (PyStr.take d p).
  destruct (_ && _) eqn:Hc; [|intros [= _ <-]; now left].
  intros [= <- <-]; right.
  apply andb_prop in Hc as [_ Hc]; apply negb_true_iff in Hc.
  exists (PyStr.drop (S d) p); repeat split.
  - now apply rfind_at.
  - now apply rfind_drop.
  - exact Hc.
Qed.

(** X13. The names the uploads on AWS and Azure give to the object, for
    every local path.  With (root, extension) the two parts in which
    [os.path.splitext] cuts the base name of the path (the extension is
    empty, or the last dot of the base name and what follows it), the key
    on AWS is [<root>_<timestamp>.raw] and the blob on Azure is
    [<root>_<timestamp><extension>].  Both are flat: whatever directories
    the path has, the name holds no slash, as long as the time stamp holds
    none. *)
Theorem upload_names_are_flat
  (aws : AWSImageCreator.t) (az : AzureImageCreator.t)
  (local_file_path bucket region storage_account_name : string) (w : World) :
  no_char "/" (clock w (ticks w)) = true ->
  let timestamp := clock w (ticks w) in
  exists root ext,
    OsPath.splitext (OsPath.basename local_file_path) = (root, ext)
    /\ root ++ ext = OsPath.basename local_file_path
    /\ (ext = "" \/
        exists e, ext = String "." e /\ no_char "." e = true
                  /\ PyStr.all_dots root = false)
    /\ outcome_of (AWSImageCreator.upload_to_s3 aws (VStr local_file_path)
                     (VStr bucket) (VStr region) w)
       = Ret (VStr (root ++ "_" ++ timestamp ++ ".raw"))
    /\ outcome_of (AzureImageCreator.upload az (VStr local_file_path)
                     (VStr bucket) (VStr storage_account_name) w)
       = Ret (VStr (root ++ "_" ++ timestamp ++ ext))
    /\ no_char "/" (root ++ "_" ++ timestamp ++ ".raw") = true
    /\ no_char "/" (root ++ "_" ++ timestamp ++ ext) = true.
Proof.
  intros Hts timestamp.
  pose proof (basename_no_slash local_file_path) as Hbase.
  pose proof (splitext_join (OsPath.basename local_file_path)) as Hjoin.
  destruct (splitext_no_slash _ Hbase) as [Hroot Hext].
  rewrite aws_upload_run, azure_upload_run.
  unfold aws_object_name, azure_blob_name; fold timestamp.
  destruct (OsPath.splitext (OsPath.basename local_file_path)) as [root ext] eqn:E.
  cbn [fst snd] in *.
  exists root, ext; split; [reflexivity|]; split; [exact Hjoin|].
  split; [exact (splitext_extension _ Hbase E)|].
  split; [reflexivity|]; split; [reflexivity|].
  unfold timestamp; rewrite !no_char_append, Hroot, Hext, Hts; split; reflexivity.
Qed.

Lemma upload_names_are_flat_witness :
  exists root ext,
    OsPath.splitext (OsPath.basename "out/img/disk.v1.vhd") = (root, ext)
    /\ root ++ ext = OsPath.basename "out/img/disk.v1.vhd"
    /\ (ext = "" \/
        exists e, ext = String "." e /\ no_char "." e = true
                  /\ PyStr.all_dots root = false)
    /\ outcome_of (AWSImageCreator.upload_to_s3 AWSImageCreator.init
                     (VStr "out/img/disk.v1.vhd") (VStr "b") (VStr "us-east-1")
                     (silent_world "20240101000000"))
       = Ret (VStr (root ++ "_" ++ "20240101000000" ++ ".raw"))
    /\ outcome_of (AzureImageCreator.upload AzureImageCreator.init
                     (VStr "out/img/disk.v1.vhd") (VStr "b") (VStr "acct")
                     (silent_world "20240101000000"))
       = Ret (VStr (root ++ "_" ++ "20240101000000" ++ ext))
    /\ no_char "/" (root ++ "_" ++ "20240101000000" ++ ".raw") = true
    /\ no_char "/" (root ++ "_" ++ "20240101000000" ++ ext) = true.
Proof.
  exact (@upload_names_are_flat AWSImageCreator.init AzureImageCreator.init
           "out/img/disk.v1.vhd" "b" "us-east-1" "acct"
           (silent_world "20240101000000") eq_refl).
Defined.

(** ** What the import on AWS can return *)

Lemma capture_returns cmd w resp w' t :
  subprocess_run_capture cmd w = (Ret resp, w', t) ->
  exists c r,
    Py.argv cmd = Some c /\ procs w = r :: procs w'
    /\ resp = registered c r /\ t = [ERun c].
Proof.
  unfold subprocess_run_capture.
  destruct (Py.argv cmd) as [c|]; [|discriminate].
  destruct (procs w) as [|r rest] eqn:Hp; [discriminate|].
  intros [= <- <- <-]; now exists c, r.
Qed.

Lemma loads_returns s w v w' t :
  loads s w = (Ret v, w', t) -> w' = w /\ t = [].
Proof.
  unfold loads; destruct (json_loads w s); [|discriminate].
  now intros [= _ <- <-].
Qed.

Lemma eval_returns {A} (r : res A) w a w' t :
  eval r w = (Ret a, w', t) -> r = Ok a /\ w' = w /\ t = [].
Proof. destruct r; [|discriminate]; now intros [= <- <- <-]. Qed.

Lemma argv_in cmd : forall c x,
  Py.argv cmd = Some c -> In (VStr x) cmd -> In x c.
Proof.
  induction cmd as [|v cmd IH]; intros c x H Hin; [destruct Hin|].
  destruct v; cbn [Py.argv] in H; try discriminate.
  destruct (Py.argv cmd) as [c'|]; [|discriminate].
  injection H as <-.
  destruct Hin as [[= ->] | Hin]; [now left | right; now apply IH].
Qed.

Lemma argv_verb (x a b : string) l c :
  Py.argv (VStr x :: VStr a :: VStr b :: l) = Some c -> is_verb a b (ERun c) = true.
Proof.
  cbn [Py.argv]; destruct (Py.argv l) as [c'|]; [|discriminate].
  intros [= <-]; unfold is_verb; cbn [verb].
  now rewrite !String.eqb_refl.
Qed.

(** The words of the reply that decide for 'already in use' may stand in
    any argument of the command. *)
Lemma in_use_by_argument (p : CompletedProcess) x :
  In x (args p) -> PyStr.contains "already in use" x = true ->
  PyStr.contains "already in use" (str_completed p) = true.
Proof.
  intros Hin H; unfold str_completed.
  apply contains_append_r, contains_append_l.
  apply contains_join with (x := PyStr.quote x); [now apply in_map|].
  now apply contains_quote.
Qed.

(** One turn of the loop reads at most one reply. *)
Lemma poll_procs self import_task_id region w o w' t :
  AWSImageCreator.poll self import_task_id region w = (o, w', t) ->
  exists c, procs w = (c ++ procs w')%list.
Proof.
  unfold AWSImageCreator.poll, bind, subprocess_run_capture.
  destruct (Py.argv _) as [c|]; [|intros [= _ <- _]; now exists []].
  destruct (procs w) as [|r rest] eqn:Hp; [intros [= _ <- _]; exists []; now rewrite Hp|].
  assert (Hhere : forall x : outcome (option loop_exit) * World * list event,
             world_of x = set_procs w rest ->
             x = (o, w', t) -> exists c0, r :: rest = (c0 ++ procs w')%list).
  { intros x Hx ->; cbn [world_of fst snd] in Hx; subst w'; now exists [r]. }
  apply Hhere.
  unfold loads; cbn [json_loads set_procs stdout].
  destruct (json_loads w _) as [j|]; [|reflexivity].
  destruct (AWSImageCreator.task_detail j "Status") as [s|e]; [|reflexivity].
  cbn [eval ret after].
  destruct (Py.eq_str s "completed"); [reflexivity|].
  destruct (Py.eq_str s "error"); [reflexivity|].
  unfold try_except, bind, print, sleep, emit, ret.
  destruct (AWSImageCreator.task_detail j "Progress") as [p|e]; reflexivity.
Qed.

Lemma iterate_procs {A} (body : M (option A)) n :
  (forall w o w' t, body w = (o, w', t) -> exists c, procs w = (c ++ procs w')%list) ->
  forall w o w' t,
    iterate n body w = (o, w', t) -> exists c, procs w = (c ++ procs w')%list.
Proof.
  intros Hb; induction n as [|n IH]; intros w o w' t;
    [intros [= _ <- _]; now exists []|].
  rewrite iterate_S.
  destruct (body w) as [[ob w1] t1] eqn:E.
  destruct (Hb _ _ _ _ E) as (c1 & Hc1).
  destruct ob as [[x|]| e | | ]; try (intros [= _ <- _]; now exists c1).
  destruct (iterate n body w1) as [[o2 w2] t2] eqn:E2; cbn [after].
  intros [= _ <- _].
  destruct (IH _ _ _ _ E2) as (c2 & Hc2).
  exists (c1 ++ c2)%list; now rewrite Hc1, Hc2, app_assoc.
Qed.

(** How the loop is left with a value: on 'completed', with the status
    that was read; on 'error', with [None], and then the turn was the
    query and the fatal message. *)
Lemma poll_returns self import_task_id region w x w' t :
  AWSImageCreator.poll self import_task_id region w = (Ret (Some x), w', t) ->
  (exists j, x = Break j) \/
  (x = Return VNone /\
   exists id r,
     import_task_id = VStr id /\ region = VStr r /\
     t = [ERun (poll_cmd self id r); EPrint "Error: Import task failed. Exiting."]).
Proof.
  unfold AWSImageCreator.poll, bind, subprocess_run_capture.
  destruct (Py.argv _) as [c|] eqn:Hargv; [|discriminate].
  destruct (procs w) as [|r rest]; [discriminate|].
  unfold loads; cbn [json_loads set_procs stdout].
  destruct (json_loads w _) as [j|]; [|discriminate].
  destruct (AWSImageCreator.task_detail j "Status") as [s|e]; [|discriminate].
  cbn [eval ret after].
  destruct (Py.eq_str s "completed").
  { cbv [ret after]; intros [= <- _ _]; left; now exists j. }
  destruct (Py.eq_str s "error").
  { cbv [ret after print emit bind]; cbn [app]; intros [= <- _ <-].
    right; split; [reflexivity|].
    cbn [Py.argv option_map] in Hargv.
    destruct import_task_id as [| | | |id| |]; try discriminate Hargv.
    destruct region as [| | | |rg| |]; try discriminate Hargv.
    injection Hargv as <-; now exists id, rg. }
  unfold try_except, bind, print, sleep, emit, ret.
  destruct (AWSImageCreator.task_detail j "Progress") as [p|e];
    cbn [eval ret raise after app]; discriminate.
Qed.

(** X16. Whatever the arguments, the replies and the answers of the
    operator, when the import on AWS returns, it returns one of two
    things.  Either the output, stripped, of a reply [reg] of the tools:
    then the trace shows a [register-image] command and right after it the
    line [AMI ID:] with that same text, and the reply to that command did
    not read 'already in use'.  Or [None]: then the last two things the
    import did were a status query and the fatal message of a failed
    task. *)
Theorem aws_import_result
  (self : AWSImageCreator.t) (s3_object_name s3_bucket_name boot_mode : value)
  (delete_after_import : bool) (region : value) (w : World) (v : value) :
  let run :=
    AWSImageCreator.import_snapshot_and_create_ami self s3_object_name
      s3_bucket_name boot_mode delete_after_import region w in
  outcome_of run = Ret v ->
  (exists reg cmd before cleanup_events,
     In reg (procs w)
     /\ v = VStr (PyStr.strip (reply_out reg))
     /\ is_verb "ec2" "register-image" (ERun cmd) = true
     /\ already_in_use cmd reg = false
     /\ trace_of run
        = (before
           ++ ERun cmd :: EPrint ("AMI ID: " ++ PyStr.strip (reply_out reg))%string
              :: cleanup_events)%list)
  \/
  (v = VNone /\
   exists before import_task_id region',
     region = VStr region' /\
     trace_of run
     = (before ++ [ERun (poll_cmd self import_task_id region');
                   EPrint "Error: Import task failed. Exiting."])%list).
Proof.
  intros run Hret.
  destruct run as [[o w'] t] eqn:Hrun; cbv [outcome_of fst] in Hret; subst o.
  unfold run, AWSImageCreator.import_snapshot_and_create_ami in Hrun.
  apply bind_returns_trace in Hrun as (resp & w1 & t1 & t1' & Hreq & Hrun & ->).
  cbv zeta in Hrun.
  apply bind_returns_trace in Hrun as (j & w2 & t2 & t2' & Hj & Hrun & ->).
  apply bind_returns_trace in Hrun as (id & w3 & t3 & t3' & Hid & Hrun & ->).
  apply bind_returns_trace in Hrun as (exit & w4 & t4 & t4' & Hloop & Hrun & ->).
  apply capture_returns in Hreq as (c1 & r1 & _ & Hp1 & _ & _).
  apply loads_returns in Hj as [-> ->].
  apply eval_returns in Hid as (_ & -> & ->).
  unfold while_true in Hloop.
  destruct (@iterate_procs _ _ _ (@poll_procs self id region) _ _ _ _ Hloop)
    as (cs & Hcs).
  apply iterate_returns in Hloop as (w0 & t0 & t5 & Hbody & ->).
  apply poll_returns in Hbody as [(j' & ->) | (-> & tid & rg & -> & -> & ->)].
  - left; cbn [AWSImageCreator.create_ami] in Hrun.
    apply bind_returns_trace in Hrun as (snap & w5 & t6 & t6' & Hsnap & Hrun & ->).
    cbv zeta in Hrun.
    apply bind_returns_trace in Hrun as (reply & w6 & t7 & t7' & Hreg & Hrun & ->).
    apply bind_returns_trace in Hrun as (ami & w7 & t8 & t8' & Hami & Hrun & ->).
    apply bind_returns_trace in Hrun as (u & w8 & t9 & t9' & _ & Hrun & ->).
    apply eval_returns in Hsnap as (_ & -> & ->).
    pose proof Hreg as Hverb.
    apply capture_returns in Hreg as (cmd & reg & Hargv & Hp & -> & ->).
    cbn [app] in Hargv; apply argv_verb in Hargv.
    destruct ami as [ami|]; [|discriminate Hrun].
    cbv [ret] in Hrun; injection Hrun as <- _ <-.
    destruct (PyStr.contains "already in use" (str_completed (registered cmd reg)))
      eqn:Huse.
    { cbv [bind print emit ret after] in Hami; discriminate Hami. }
    cbv [bind print emit ret after] in Hami; cbn [app stdout registered] in Hami.
    injection Hami as <- _ <-.
    exists reg, cmd, (t1 ++ t0 ++ t5)%list, t9; repeat split.
    + rewrite Hp1, Hcs, Hp; right; apply in_or_app; right; now left.
    + exact Hargv.
    + exact Huse.
    + cbn [trace_of snd app]; rewrite app_nil_r, <- !app_assoc; reflexivity.
  - right; cbn [AWSImageCreator.create_ami] in Hrun.
    cbv [ret] in Hrun; injection Hrun as <- _ <-.
    split; [reflexivity|].
    exists (t1 ++ t0)%list, tid, rg; split; [reflexivity|].
    cbn [trace_of snd app]; rewrite app_nil_r, <- !app_assoc; reflexivity.
Qed.

Lemma aws_import_result_witness :
  (exists reg cmd before cleanup_events,
     In reg [Scenario.task; Scenario.completed; Scenario.ami]
     /\ VStr "ami-1" = VStr (PyStr.strip (reply_out reg))
     /\ is_verb "ec2" "register-image" (ERun cmd) = true
     /\ already_in_use cmd reg = false
     /\ trace_of
          (AWSImageCreator.import_snapshot_and_create_ami AWSImageCreator.init
             (VStr "disk_20240101000000.raw") (VStr "b") VNone true
             (VStr "us-east-1")
             (Scenario.world [Scenario.task; Scenario.completed; Scenario.ami] []))
        = (before
           ++ ERun cmd :: EPrint ("AMI ID: " ++ PyStr.strip (reply_out reg))%string
              :: cleanup_events)%list)
  \/
  (VStr "ami-1" = VNone /\
   exists before import_task_id region',
     VStr "us-east-1" = VStr region' /\
     trace_of
       (AWSImageCreator.import_snapshot_and_create_ami AWSImageCreator.init
          (VStr "disk_20240101000000.raw") (VStr "b") VNone true (VStr "us-east-1")
          (Scenario.world [Scenario.task; Scenario.completed; Scenario.ami] []))
     = (before ++ [ERun (poll_cmd AWSImageCreator.init import_task_id region');
                   EPrint "Error: Import task failed. Exiting."])%list).
Proof.
  exact (@aws_import_result AWSImageCreator.init (VStr "disk_20240101000000.raw")
           (VStr "b") VNone true (VStr "us-east-1")
           (Scenario.world [Scenario.task; Scenario.completed; Scenario.ami] [])
           (VStr "ami-1") eq_refl).
Defined.

(** ** The test for 'already in use' reads the command as well *)

(** X14. The test for 'already in use' looks at the whole reply as
    Python prints it, and that starts with the command.  So when the name
    of the object itself contains the words, every registration counts as
    already in use, whatever the tool answers, and the import of that
    object never returns an identifier: for every environment, when it
    returns at all it returns [None], and the last two things it did were
    a status query and the fatal message of a failed task. *)
Theorem aws_object_named_already_in_use_never_returns
  (self : AWSImageCreator.t) (object : string)
  (s3_bucket_name boot_mode region : value) (delete_after_import : bool)
  (w : World) :
  PyStr.contains "already in use" object = true ->
  let run :=
    AWSImageCreator.import_snapshot_and_create_ami self (VStr object)
      s3_bucket_name boot_mode delete_after_import region w in
  (forall snapshot region' boot reg,
     already_in_use (register_cmd self object snapshot region' boot) reg = true)
  /\
  (forall v,
     outcome_of run = Ret v ->
     v = VNone /\
     exists before import_task_id region',
       region = VStr region' /\
       trace_of run
       = (before ++ [ERun (poll_cmd self import_task_id region');
                     EPrint "Error: Import task failed. Exiting."])%list).
Proof.
  intros Hname run; split.
  { intros snapshot region' boot reg; unfold already_in_use.
    apply in_use_by_argument with (x := object); [|exact Hname].
    cbn [args registered]; unfold register_cmd; apply in_or_app; left.
    cbn [In]; tauto. }
  intros v Hret.
  destruct run as [[o w'] t] eqn:Hrun; cbv [outcome_of fst] in Hret; subst o.
  unfold run, AWSImageCreator.import_snapshot_and_create_ami in Hrun.
  apply bind_returns_trace in Hrun as (resp & w1 & t1 & t1' & _ & Hrun & ->).
  cbv zeta in Hrun.
  apply bind_returns_trace in Hrun as (j & w2 & t2 & t2' & Hj & Hrun & ->).
  apply bind_returns_trace in Hrun as (id & w3 & t3 & t3' & Hid & Hrun & ->).
  apply bind_returns_trace in Hrun as (exit & w4 & t4 & t4' & Hloop & Hrun & ->).
  apply loads_returns in Hj as [-> ->].
  apply eval_returns in Hid as (_ & -> & ->).
  unfold while_true in Hloop.
  apply iterate_returns in Hloop as (w0 & t0 & t5 & Hbody & ->).
  apply poll_returns in Hbody as [(j' & ->) | (-> & tid & rg & -> & -> & ->)].
  - exfalso; cbn [AWSImageCreator.create_ami] in Hrun.
    apply bind_returns_trace in Hrun as (snap & w5 & t6 & t6' & _ & Hrun & ->).
    cbv zeta in Hrun.
    apply bind_returns_trace in Hrun as (reply & w6 & t7 & t7' & Hreg & Hrun & ->).
    apply bind_returns_trace in Hrun as (ami & w7 & t8 & t8' & Hami & Hrun & ->).
    apply bind_returns_trace in Hrun as (u & w8 & t9 & t9' & _ & Hrun & ->).
    apply capture_returns in Hreg as (cmd & reg & Hargv & _ & -> & _).
    assert (Huse : PyStr.contains "already in use"
                     (str_completed (registered cmd reg)) = true).
    { apply in_use_by_argument with (x := object); [|exact Hname].
      cbn [args registered].
      refine (@argv_in _ cmd object Hargv _).
      apply in_or_app; left; cbn [In]; tauto. }
    rewrite Huse in Hami.
    cbv [bind print emit ret after] in Hami; injection Hami as <- _ _.
    discriminate Hrun.
  - cbn [AWSImageCreator.create_ami] in Hrun.
    cbv [ret] in Hrun; injection Hrun as <- _ <-.
    split; [reflexivity|].
    exists (t1 ++ t0)%list, tid, rg; split; [reflexivity|].
    cbn [trace_of snd app]; rewrite app_nil_r, <- !app_assoc; reflexivity.
Qed.

Lemma aws_object_named_already_in_use_never_returns_witness :
  (forall snapshot region' boot reg,
     already_in_use
       (register_cmd AWSImageCreator.init "already in use_20240101000000.raw"
          snapshot region' boot) reg = true)
  /\
  (forall v,
     outcome_of
       (AWSImageCreator.import_snapshot_and_create_ami AWSImageCreator.init
          (VStr "already in use_20240101000000.raw") (VStr "b") VNone true
          (VStr "us-east-1")
          (Scenario.world [Scenario.task; Scenario.failed] [])) = Ret v ->
     v = VNone /\
     exists before import_task_id region',
       VStr "us-east-1" = VStr region' /\
       trace_of
         (AWSImageCreator.import_snapshot_and_create_ami AWSImageCreator.init
            (VStr "already in use_20240101000000.raw") (VStr "b") VNone true
            (VStr "us-east-1")
            (Scenario.world [Scenario.task; Scenario.failed] []))
       = (before ++ [ERun (poll_cmd AWSImageCreator.init import_task_id region');
                     EPrint "Error: Import task failed. Exiting."])%list).
Proof.
  exact (@aws_object_named_already_in_use_never_returns AWSImageCreator.init
           "already in use_20240101000000.raw" (VStr "b") VNone (VStr "us-east-1")
           true (Scenario.world [Scenario.task; Scenario.failed] []) eq_refl).
Defined.
